(** * viralcalendar: the aggregation / import / fallback core

    A shallow embedding of the date-keyed event pipeline of the calendar:
    the shared types ([types.ts]), the mock table ([data/mockData.ts]), the
    news aggregator ([services/newsAggregator.ts]), the historical importer
    ([services/redditHistorical.ts]), the remote-store readers
    ([lib/supabase.ts]) and the two read hooks ([hooks/useRedditData.ts],
    [hooks/useSupabaseData.ts]).

    Conventions of the embedding:
    - a JS [number] holding a score, a rank or a count is a [Z];
    - a JS string is a [string] of 8-bit code units;
    - [Record<string, DayData>] is a [gmap string DayData];
    - an optional field ([hashtag?: string]) is an [option];
    - an awaited call that may throw returns an [option] ([None] = it threw);
    - the wall clock, the upstream APIs and [localStorage] are explicit
      arguments, and the effects a method performs are appended to a log. *)

From Stdlib Require Import ZArith Ascii String.
From stdpp Require Import gmap strings list fin_maps sorting pretty.

Local Open Scope string_scope.
Local Open Scope list_scope.
Local Open Scope Z_scope.

(** ** Shared types ([types.ts]) *)

Inductive ContentType := tweet | news | meme | video | trend.

#[global] Instance ContentType_eq_dec : EqDecision ContentType.
Proof. solve_decision. Defined.

Record ViralEvent := mkViralEvent {
  id : string;
  title : string;
  summary : string;
  postCount : Z;
  hashtag : option string;
  type : ContentType;
  trendingRank : Z
}.

#[global] Instance ViralEvent_eq_dec : EqDecision ViralEvent.
Proof. solve_decision. Defined.

Record DayData := mkDayData {
  date : string;
  events : list ViralEvent;
  hasViralContent : bool;
  topHashtag : option string
}.

#[global] Instance DayData_eq_dec : EqDecision DayData.
Proof. solve_decision. Defined.

(** [{ ...e, trendingRank: r }] *)
Definition with_trendingRank (e : ViralEvent) (r : Z) : ViralEvent :=
  {| id := id e; title := title e; summary := summary e;
     postCount := postCount e; hashtag := hashtag e; type := type e;
     trendingRank := r |}.

(** ** The JavaScript primitives the code relies on *)

Module JS.

(** Truthiness of an optional string: [undefined] and [""] are falsy. *)
Definition truthy (s : option string) : bool :=
  match s with
  | None => false
  | Some s' => negb (String.eqb s' "")
  end.

(** [c] lies in the closed range [lo..hi] of code units. *)
Definition in_range (lo hi c : ascii) : bool :=
  (nat_of_ascii lo <=? nat_of_ascii c)%nat && (nat_of_ascii c <=? nat_of_ascii hi)%nat.

Definition toLowerCase_unit (c : ascii) : ascii :=
  if in_range "A" "Z" c then ascii_of_nat (nat_of_ascii c + 32) else c.

(** [s.toLowerCase()] on code units below 128; other units are kept. *)
Fixpoint toLowerCase (s : string) : string :=
  match s with
  | EmptyString => EmptyString
  | String c s' => String (toLowerCase_unit c) (toLowerCase s')
  end.

(** [s.replace(/[^a-z0-9]/g, '')] *)
Fixpoint strip_non_alnum (s : string) : string :=
  match s with
  | EmptyString => EmptyString
  | String c s' =>
      if in_range "a" "z" c || in_range "0" "9" c
      then String c (strip_non_alnum s')
      else strip_non_alnum s'
  end.

(** [s.substring(0, n)] for a literal [n >= 0]. *)
Definition substring0 (n : nat) (s : string) : string := String.substring 0 n s.

(** [s.includes(needle)] *)
Fixpoint includes (s needle : string) : bool :=
  if String.prefix needle s then true
  else match s with
       | EmptyString => false
       | String _ s' => includes s' needle
       end.

(** [o?.includes(needle)] used as a condition: [undefined] is falsy. *)
Definition opt_includes (o : option string) (needle : string) : bool :=
  match o with
  | None => false
  | Some s => includes s needle
  end.

Section Arrays.
Context {A : Type}.

(** [Array.prototype.sort(cmp)].  ECMAScript requires the sort to be
    stable, so for a consistent comparator the result is the one of a
    stable insertion: an element is placed before the first element it
    does not have to follow. *)
Fixpoint sort_insert (cmp : A → A → Z) (x : A) (l : list A) : list A :=
  match l with
  | [] => [x]
  | y :: l' =>
      if decide (cmp x y ≤ 0) then x :: y :: l'
      else y :: sort_insert cmp x l'
  end.

Fixpoint sort (cmp : A → A → Z) (l : list A) : list A :=
  match l with
  | [] => []
  | x :: l' => sort_insert cmp x (sort cmp l')
  end.

(** [l.slice(0, n)]: a negative [n] counts from the end. *)
Definition slice0 (n : Z) (l : list A) : list A :=
  if decide (n < 0)
  then take (Z.to_nat (Z.max (Z.of_nat (length l) + n) 0)) l
  else take (Z.to_nat n) l.

(** [l.some(p)] *)
Definition some (p : A → bool) (l : list A) : bool := existsb p l.
End Arrays.

End JS.

(** ** The news aggregator ([services/newsAggregator.ts]) *)

Module NewsAggregator.

Inductive NewsSource := reddit | newsapi | hackernews | all.

#[global] Instance NewsSource_eq_dec : EqDecision NewsSource.
Proof. solve_decision. Defined.

(** Every option may be left out; the destructuring supplies defaults. *)
Record AggregatorOptions := mkOptions {
  sources : option (list NewsSource);
  newsOnly : option bool;
  minScore : option Z;
  maxResults : option Z
}.

(** What the three clients answer during one call, and the day it is. *)
Record Upstream := mkUpstream {
  getPopularPosts : option (list ViralEvent);
  getSubredditPosts : string → option (list ViralEvent);
  newsApi_isConfigured : bool;
  getTopHeadlines : option (list ViralEvent);
  getTopStories : option (list ViralEvent);
  today : string
}.

(** The key under which two titles count as the same story. *)
Definition dedupKey (event : ViralEvent) : string :=
  JS.substring0 30 (JS.strip_non_alnum (JS.toLowerCase (title event))).

(** The [for] loop of [removeDuplicates] with its two accumulators. *)
Fixpoint removeDuplicates_loop (seen : gset string) (unique : list ViralEvent)
    (events : list ViralEvent) : list ViralEvent :=
  match events with
  | [] => unique
  | event :: rest =>
      let key := dedupKey event in
      if decide (key ∈ seen)
      then removeDuplicates_loop seen unique rest
      else removeDuplicates_loop ({[key]} ∪ seen) (unique ++ [event]) rest
  end.

Definition removeDuplicates (events : list ViralEvent) : list ViralEvent :=
  removeDuplicates_loop ∅ [] events.

(** The subreddits polled after the popular listing. *)
Definition newsSubs : list string := ["worldnews"; "news"; "technology"].

(** The inner [for (const sub of ...)]: a failing subreddit is skipped. *)
Fixpoint fetchSubs (up : Upstream) (subs : list string) (allEvents : list ViralEvent)
    : list ViralEvent :=
  match subs with
  | [] => allEvents
  | sub :: rest =>
      match getSubredditPosts up sub with
      | Some posts => fetchSubs up rest (allEvents ++ posts)
      | None => fetchSubs up rest allEvents
      end
  end.

Definition wants (srcs : list NewsSource) (s : NewsSource) : bool :=
  bool_decide (s ∈ srcs) || bool_decide (all ∈ srcs).

(** The three fetch blocks: every failure is caught where it happens. *)
Definition collect (up : Upstream) (srcs : list NewsSource) : list ViralEvent :=
  let allEvents := [] in
  let allEvents :=
    if wants srcs reddit then
      match getPopularPosts up with
      | Some redditPosts => fetchSubs up newsSubs (allEvents ++ redditPosts)
      | None => allEvents
      end
    else allEvents in
  let allEvents :=
    if wants srcs newsapi && newsApi_isConfigured up then
      match getTopHeadlines up with
      | Some newsArticles => allEvents ++ newsArticles
      | None => allEvents
      end
    else allEvents in
  if wants srcs hackernews then
    match getTopStories up with
    | Some hnStories => allEvents ++ hnStories
    | None => allEvents
    end
  else allEvents.

Definition isNews (e : ViralEvent) : bool :=
  bool_decide (type e = news)
  || JS.opt_includes (hashtag e) "news"
  || JS.opt_includes (hashtag e) "worldnews"
  || JS.opt_includes (hashtag e) "technology".

Definition byScoreDesc (a b : ViralEvent) : Z := postCount b - postCount a.

(** [uniqueEvents.sort(...).slice(0, maxResults)] for the events that
    survived the filters. *)
Definition selectEvents (opts : AggregatorOptions) (allEvents : list ViralEvent)
    : list ViralEvent :=
  let filteredEvents :=
    List.filter (λ e, bool_decide (default 500 (minScore opts) ≤ postCount e)) allEvents in
  let filteredEvents :=
    if default true (newsOnly opts) then List.filter isNews filteredEvents
    else filteredEvents in
  let uniqueEvents := removeDuplicates filteredEvents in
  JS.slice0 (default 100 (maxResults opts)) (JS.sort byScoreDesc uniqueEvents).

(** The bucket stored under today's date. *)
Definition bucket (day : string) (sortedEvents : list ViralEvent) : DayData :=
  {| date := day;
     events := imap (λ i e, with_trendingRank e (Z.of_nat i + 1)) sortedEvents;
     hasViralContent := bool_decide (0 < Z.of_nat (length sortedEvents));
     topHashtag := head sortedEvents ≫= hashtag |}.

Definition fetchViralContent (up : Upstream) (opts : AggregatorOptions)
    : gmap string DayData :=
  let srcs := default [reddit; hackernews] (sources opts) in
  let sortedEvents := selectEvents opts (collect up srcs) in
  {[ today up := bucket (today up) sortedEvents ]}.

(** The code units a key is made of. *)
Definition keyChar (c : ascii) : bool :=
  JS.in_range "a" "z" c || JS.in_range "0" "9" c.

(** What the three clients answer to one search query. *)
Record SearchUpstream := mkSearchUpstream {
  searchPosts : option (list ViralEvent);
  search_isConfigured : bool;
  searchNews : option (list ViralEvent);
  searchStories : option (list ViralEvent)
}.

Definition searchAllSources (up : SearchUpstream) (maxResults : option Z)
    : list ViralEvent :=
  let allResults := [] in
  let allResults :=
    match searchPosts up with
    | Some redditResults => allResults ++ redditResults
    | None => allResults
    end in
  let allResults :=
    if search_isConfigured up then
      match searchNews up with
      | Some newsResults => allResults ++ newsResults
      | None => allResults
      end
    else allResults in
  let allResults :=
    match searchStories up with
    | Some hnResults => allResults ++ hnResults
    | None => allResults
    end in
  let unique := removeDuplicates allResults in
  JS.slice0 (default 30 maxResults) (JS.sort byScoreDesc unique).

End NewsAggregator.

(** ** The mock table ([data/mockData.ts]) *)

Module MockData.

Definition byRankAsc (a b : ViralEvent) : Z := trendingRank a - trendingRank b.

Definition createDayData (dateStr : string) (events : list ViralEvent) : DayData :=
  let sortedEvents := JS.sort byRankAsc events in
  {| date := dateStr;
     events := sortedEvents;
     hasViralContent := bool_decide (0 < Z.of_nat (length events));
     topHashtag := head sortedEvents ≫= hashtag |}.

(** The table: one bucket per key of [sampleEvents], then one per
    additional date that is still free.  The generated events come from
    [Math.random], so the generator is an argument. *)
Definition viralData (sampleEvents : gmap string (list ViralEvent))
    (generateRandomEvents : string → list ViralEvent)
    (additionalDates : list string) : gmap string DayData :=
  foldl (λ vd d,
           match vd !! d with
           | Some _ => vd
           | None => <[d := createDayData d (generateRandomEvents d)]> vd
           end)
        (map_imap (λ d evs, Some (createDayData d evs)) sampleEvents)
        additionalDates.

Definition getDayData (table : gmap string DayData) (dateStr : string)
    : option DayData := table !! dateStr.

End MockData.

(** ** The historical importer ([services/redditHistorical.ts]) *)

Module RedditHistoricalImporter.

Inductive Timeframe := day | week | month | year | all.

#[global] Instance Timeframe_eq_dec : EqDecision Timeframe.
Proof. solve_decision. Defined.

Definition Timeframe_name (t : Timeframe) : string :=
  match t with
  | day => "day" | week => "week" | month => "month"
  | year => "year" | all => "all"
  end.

Definition NEWS_SUBREDDITS : list string :=
  ["worldnews"; "news"; "politics"; "science"; "technology"; "nottheonion";
   "UpliftingNews"; "TrueReddit"; "newsbot"; "inthenews"].

Record HistoricalImportOptions := mkOptions {
  timeframes : option (list Timeframe);
  minScore : option Z;
  maxPosts : option Z;
  subreddits : option (list string)
}.

Record ImportProgress := mkProgress {
  total : Z;
  current : Z;
  subreddit : string;
  postsFound : Z
}.

(** What a run does to the outside, in order. *)
Inductive Effect :=
| Progress (p : ImportProgress)
| GetSubredditPosts (sub : string) (timeframe : Timeframe)
| GetPopularPosts
| Delay (ms : Z)
| Warn (what : string).

#[global] Instance ImportProgress_eq_dec : EqDecision ImportProgress.
Proof. solve_decision. Defined.

#[global] Instance Effect_eq_dec : EqDecision Effect.
Proof. solve_decision. Defined.

(** The outside of a run: the Reddit client's answers ([None] = the call
    threw) and the calendar day returned by the k-th [new Date()]. *)
Record World := mkWorld {
  getSubredditPosts : string → Timeframe → option (list ViralEvent);
  getPopularPosts : option (list ViralEvent);
  clock : nat → string
}.

(** The importer object: its accumulator, the number of clock reads made
    so far, and the effects performed so far. *)
Record Importer := mkImporter {
  importedData : gmap string DayData;
  clockReads : nat;
  log : list Effect
}.

Definition emit (e : Effect) (this : Importer) : Importer :=
  {| importedData := importedData this; clockReads := clockReads this;
     log := log this ++ [e] |}.

Definition emptyDay (dateStr : string) : DayData :=
  {| date := dateStr; events := []; hasViralContent := false; topHashtag := None |}.

(** The part of the [forEach] body that works on the day's bucket: the
    duplicate check and, for a new id, the push with its two updates. *)
Definition pushPost (bucket : DayData) (post : ViralEvent) : DayData :=
  let exists_ := JS.some (λ e, String.eqb (id e) (id post)) (events bucket) in
  if exists_ then bucket
  else
    {| date := date bucket;
       events := events bucket ++ [post];
       hasViralContent := true;
       topHashtag :=
         if negb (JS.truthy (topHashtag bucket)) || bool_decide (trendingRank post = 1)
         then hashtag post
         else topHashtag bucket |}.

(** The body of the [forEach] of [processPosts], for one post: read the
    clock, create the day's bucket when it is missing, push the post. *)
Definition processPost (w : World) (this : Importer) (post : ViralEvent) : Importer :=
  let dateStr := clock w (clockReads this) in
  let data :=
    match importedData this !! dateStr with
    | Some _ => importedData this
    | None => <[dateStr := emptyDay dateStr]> (importedData this)
    end in
  let bucket := default (emptyDay dateStr) (data !! dateStr) in
  {| importedData := <[dateStr := pushPost bucket post]> data;
     clockReads := S (clockReads this);
     log := log this |}.

Definition processPosts (w : World) (posts : list ViralEvent) (this : Importer)
    : Importer :=
  foldl (processPost w) this posts.

(** [timeframes.indexOf(timeframe)] *)
Definition indexOf (tfs : list Timeframe) (t : Timeframe) : Z :=
  match list_find (λ t', t' = t) tfs with
  | Some (i, _) => Z.of_nat i
  | None => -1
  end.

Section Loops.
Variable w : World.
Variable tfs : list Timeframe.
Variable subs : list string.
Variable minScore_ maxPosts_ : Z.

Definition progressAt (timeframe : Timeframe) (i : nat) (sub : string)
    (this : Importer) : ImportProgress :=
  {| total := Z.of_nat (length subs) * Z.of_nat (length tfs);
     current := Z.of_nat i + 1 + indexOf tfs timeframe * Z.of_nat (length subs);
     subreddit := (sub ++ " (" ++ Timeframe_name timeframe ++ ")")%string;
     postsFound := Z.of_nat (size (importedData this)) |}.

(** The inner [for (let i = 0; ...)] from index [i] on, [rest] being
    [subreddits.slice(i)]. *)
Fixpoint subredditLoop (timeframe : Timeframe) (i : nat) (rest : list string)
    (this : Importer) (totalProcessed : Z) : Importer * Z :=
  match rest with
  | [] => (this, totalProcessed)
  | sub :: rest' =>
      let this := emit (Progress (progressAt timeframe i sub this)) this in
      let this := emit (GetSubredditPosts sub timeframe) this in
      match getSubredditPosts w sub timeframe with
      | None =>
          subredditLoop timeframe (S i) rest'
            (emit (Warn ("Failed to import from r/" ++ sub)%string) this)
            totalProcessed
      | Some posts =>
          let filteredPosts :=
            List.filter (λ post, bool_decide (minScore_ ≤ postCount post)) posts in
          let this := processPosts w filteredPosts this in
          let totalProcessed := totalProcessed + Z.of_nat (length filteredPosts) in
          let this := emit (Delay 2000) this in
          if decide (maxPosts_ ≤ totalProcessed) then (this, totalProcessed)
          else subredditLoop timeframe (S i) rest' this totalProcessed
      end
  end.

(** The outer [for (const timeframe of timeframes)]. *)
Fixpoint timeframeLoop (rest : list Timeframe) (this : Importer)
    (totalProcessed : Z) : Importer * Z :=
  match rest with
  | [] => (this, totalProcessed)
  | timeframe :: rest' =>
      if decide (maxPosts_ ≤ totalProcessed) then (this, totalProcessed)
      else
        let '(this, totalProcessed) :=
          subredditLoop timeframe 0 subs this totalProcessed in
        timeframeLoop rest' this totalProcessed
  end.

(** The [r/all] block after the loops. *)
Definition allTimeFilter (allTimeTop : list ViralEvent) : list ViralEvent :=
  List.filter (λ post, bool_decide (minScore_ * 2 ≤ postCount post)) allTimeTop.

Definition allTimeBlock (this : Importer) : Importer :=
  let n := Z.of_nat (length subs) * Z.of_nat (length tfs) + 1 in
  let this :=
    emit (Progress {| total := n; current := n;
                      subreddit := "r/all (all time viral)";
                      postsFound := Z.of_nat (size (importedData this)) |}) this in
  let this := emit GetPopularPosts this in
  match getPopularPosts w with
  | Some allTimeTop => processPosts w (allTimeFilter allTimeTop) this
  | None => emit (Warn "Failed to import from r/all") this
  end.
End Loops.

(** [this.importedData = {}] *)
Definition reset (this : Importer) : Importer :=
  {| importedData := ∅; clockReads := clockReads this; log := log this |}.

(** The state in which the main loops of a run end. *)
Definition afterMainLoop (w : World) (options : HistoricalImportOptions)
    (this : Importer) : Importer :=
  let tfs := default [month; year; all] (timeframes options) in
  let subs := default NEWS_SUBREDDITS (subreddits options) in
  fst (timeframeLoop w tfs subs (default 1000 (minScore options))
         (default 500 (maxPosts options)) tfs (reset this) 0).

(** [importHistoricalData]: the importer it leaves behind; the promise
    resolves to its [importedData]. *)
Definition importHistoricalData (w : World) (options : HistoricalImportOptions)
    (this : Importer) : Importer :=
  let tfs := default [month; year; all] (timeframes options) in
  let subs := default NEWS_SUBREDDITS (subreddits options) in
  allTimeBlock w tfs subs (default 1000 (minScore options))
    (afterMainLoop w options this).

Definition isNews (event : ViralEvent) : bool :=
  bool_decide (type event = news)
  || JS.opt_includes (hashtag event) "worldnews"
  || JS.opt_includes (hashtag event) "news"
  || JS.opt_includes (hashtag event) "politics"
  || JS.opt_includes (hashtag event) "science".

Definition filterNewsOnly (data : gmap string DayData) : gmap string DayData :=
  omap (λ dayData,
          let newsEvents := List.filter isNews (events dayData) in
          if decide (0 < Z.of_nat (length newsEvents)) then
            Some {| date := date dayData;
                    events := JS.sort MockData.byRankAsc newsEvents;
                    hasViralContent := hasViralContent dayData;
                    topHashtag := topHashtag dayData |}
          else None) data.

(** *** The durable cache

    The item [redditHistoricalData] of [localStorage]: absent, the empty
    string, a serialized date-keyed map, or text that is not empty and that
    [JSON.parse] rejects.  The code tests the item before it parses it
    ([existing ? JSON.parse(existing) : {}]), so the empty string, which is
    falsy, is never parsed and counts as no data.  Text that parses to
    something else than a date-keyed map is outside this model.
    [writable] is false when [setItem] throws (quota, disabled storage).
    A stored map is kept as the map it parses to: on the values of this
    model [JSON.parse (JSON.stringify m)] gives [m] back (an [undefined]
    field is left out and read back as [undefined]). *)
Inductive Item :=
| Absent
| EmptyText
| Stored (m : gmap string DayData)
| Garbled.

Record LocalStorage := mkStorage {
  item : Item;
  writable : bool
}.

Definition saveToStorage (data : gmap string DayData) (ls : LocalStorage)
    : LocalStorage :=
  let existingData :=
    match item ls with
    | Absent | EmptyText => Some ∅
    | Stored m => Some m
    | Garbled => None
    end in
  match existingData with
  | None => ls
  | Some existingData =>
      let merged := data ∪ existingData in
      if writable ls then {| item := Stored merged; writable := writable ls |}
      else ls
  end.

Definition loadFromStorage (ls : LocalStorage) : gmap string DayData :=
  match item ls with
  | Stored m => m
  | Absent | EmptyText | Garbled => ∅
  end.

Definition clearStorage (ls : LocalStorage) : LocalStorage :=
  {| item := Absent; writable := writable ls |}.

(** *** The two other entry points *)

(** [Math.ceil(x / d)] on integers, for a positive [d]. *)
Definition ceil_div (x d : Z) : Z := - ((- x) / d).

Definition MS_PER_DAY : Z := 1000 * 60 * 60 * 24.

(** The timeframe [importDateRange] picks for a range given by two
    instants in milliseconds. *)
Definition rangeTimeframe (startDate endDate : Z) : Timeframe :=
  let diffTime := endDate - startDate in
  let diffDays := ceil_div diffTime MS_PER_DAY in
  if decide (365 < diffDays) then year
  else if decide (30 < diffDays) then month
  else if decide (7 < diffDays) then week
  else day.

(** The [for (const subreddit of NEWS_SUBREDDITS.slice(0, 5))]. *)
Fixpoint dateRangeLoop (w : World) (minScore_ : Z) (timeframe : Timeframe)
    (rest : list string) (this : Importer) : Importer :=
  match rest with
  | [] => this
  | sub :: rest' =>
      let this := emit (GetSubredditPosts sub timeframe) this in
      match getSubredditPosts w sub timeframe with
      | Some posts =>
          let filteredPosts :=
            List.filter (λ post, negb (bool_decide (postCount post < minScore_))) posts in
          let this := processPosts w filteredPosts this in
          dateRangeLoop w minScore_ timeframe rest' (emit (Delay 1000) this)
      | None =>
          dateRangeLoop w minScore_ timeframe rest'
            (emit (Warn ("Failed to import from r/" ++ sub)%string) this)
      end
  end.

Definition importDateRange (w : World) (startDate endDate : Z)
    (minScore_ : option Z) (this : Importer) : Importer :=
  dateRangeLoop w (default 500 minScore_) (rangeTimeframe startDate endDate)
    (JS.slice0 5 NEWS_SUBREDDITS) (reset this).

(** The [for (const query of queries)] of [importByTopic]; [search] is the
    client's answer to a query ([None] = it threw).  The search requests are
    not entered in the log. *)
Fixpoint topicLoop (w : World) (search : string → option (list ViralEvent))
    (minScore_ : Z) (rest : list string) (this : Importer) : Importer :=
  match rest with
  | [] => this
  | query :: rest' =>
      match search query with
      | Some posts =>
          let filtered :=
            List.filter (λ post, bool_decide (minScore_ ≤ postCount post)) posts in
          let this := processPosts w filtered this in
          topicLoop w search minScore_ rest' (emit (Delay 1000) this)
      | None =>
          topicLoop w search minScore_ rest'
            (emit (Warn ("Failed to search for " ++ query)%string) this)
      end
  end.

Definition importByTopic (w : World) (search : string → option (list ViralEvent))
    (queries : list string) (minScore_ : option Z) (this : Importer) : Importer :=
  topicLoop w search (default 500 minScore_) queries (reset this).

(** *** Reading an accumulator and a log *)

(** Every bucket carries its key as date, holds an event, and holds no two
    events with the same id. *)
Definition wellFormed (this : Importer) : Prop :=
  map_Forall (λ k b, date b = k ∧ NoDup (id <$> events b) ∧ events b ≠ [])
    (importedData this).

(** The events an accumulator holds under a date: those of the date's
    bucket, none when the date has no bucket. *)
Definition eventsOn (data : gmap string DayData) (dateStr : string)
    : list ViralEvent :=
  from_option events [] (data !! dateStr).


(** The subreddit requests of a log, in order. *)
Definition requests (l : list Effect) : list (string * Timeframe) :=
  omap (λ e, match e with
             | GetSubredditPosts sub timeframe => Some (sub, timeframe)
             | _ => None
             end) l.

(** The requests a run would make if nothing stopped it: for each
    timeframe, each subreddit. *)
Definition schedule (tfs : list Timeframe) (subs : list string)
    : list (string * Timeframe) :=
  tfs ≫= λ timeframe, (λ sub, (sub, timeframe)) <$> subs.

End RedditHistoricalImporter.

(** ** The Reddit client ([services/redditApi.ts]) *)

Module RedditApi.

(** The [data] object of a child of a listing: the fields the client
    reads, each possibly missing. *)
Record PostData := mkPostData {
  post_id : option string;
  post_title : option string;
  score : option Z;
  subreddit : option string;
  domain : option string;
  is_video : bool
}.

(** [{}] *)
Definition noData : PostData :=
  {| post_id := None; post_title := None; score := None; subreddit := None;
     domain := None; is_video := false |}.

Definition classify (data : PostData) : ContentType :=
  if is_video data || JS.opt_includes (domain data) "youtu"
     || JS.opt_includes (domain data) "v.redd.it" then video
  else if JS.opt_includes (domain data) "i.redd.it"
          || JS.opt_includes (domain data) "imgur" then meme
  else if JS.opt_includes (domain data) "twitter.com"
          || JS.opt_includes (domain data) "x.com" then tweet
  else if match score data with
          | Some n => bool_decide (50000 < n)
          | None => false
          end then trend
  else news.

(** The callback of the [map] in [transformPostsToEvents]; [post] is the
    child's [data], [None] when the child has none. *)
Definition transformPost (index : nat) (post : option PostData) : ViralEvent :=
  let data := default noData post in
  let sub :=
    if JS.truthy (subreddit data)
    then Some ("#r/" ++ default "" (subreddit data))%string
    else None in
  let title_ :=
    if JS.truthy (post_title data) then default "" (post_title data)
    else "Reddit Post" in
  let truncatedTitle :=
    if decide (80 < String.length title_)%nat
    then (JS.substring0 80 title_ ++ "...")%string
    else title_ in
  {| id := if JS.truthy (post_id data) then default "" (post_id data)
           else ("reddit-" ++ pretty index)%string;
     title := truncatedTitle;
     summary := title_;
     postCount := default 0 (score data);
     hashtag := sub;
     type := classify data;
     trendingRank := Z.of_nat index + 1 |}.

Definition transformPostsToEvents (posts : list (option PostData)) : list ViralEvent :=
  imap transformPost posts.

(** A listing response: [None] when the request fails, else
    [response.data?.data?.children], itself possibly missing. *)
Definition Listing : Type := option (option (list (option PostData))).

(** [getPopularPosts] and [searchPosts] rethrow a failure ([None]);
    [getSubredditPosts] answers the empty list instead. *)
Definition getPopularPosts (resp : Listing) : option (list ViralEvent) :=
  children ← resp; Some (transformPostsToEvents (default [] children)).

Definition getSubredditPosts (resp : Listing) : list ViralEvent :=
  match resp with
  | Some children => transformPostsToEvents (default [] children)
  | None => []
  end.

(** The timeframe [getViralContentForDate] picks for a date, both instants
    in milliseconds. *)
Definition dateTimeframe (now date : Z) : RedditHistoricalImporter.Timeframe :=
  let diffDays := (now - date) / RedditHistoricalImporter.MS_PER_DAY in
  if decide (diffDays ≤ 1) then RedditHistoricalImporter.day
  else if decide (diffDays ≤ 7) then RedditHistoricalImporter.week
  else if decide (diffDays ≤ 30) then RedditHistoricalImporter.month
  else if decide (diffDays ≤ 365) then RedditHistoricalImporter.year
  else RedditHistoricalImporter.all.

(** [m.set(key, v)] on a [Map], kept as its entries in insertion order: a
    known key keeps its place and takes the new value. *)
Fixpoint Map_set (key : string) (v : ViralEvent) (m : list (string * ViralEvent))
    : list (string * ViralEvent) :=
  match m with
  | [] => [(key, v)]
  | (k, x) :: m' =>
      if String.eqb k key then (k, v) :: m'
      else (k, x) :: Map_set key v m'
  end.

(** The responses of Reddit, per timeframe asked. *)
Record Reddit := mkReddit {
  top_all : RedditHistoricalImporter.Timeframe → Listing;
  top_sub : string → RedditHistoricalImporter.Timeframe → Listing
}.

Definition getViralContentForDate (r : Reddit) (now date : Z) (minScore : option Z)
    : list ViralEvent :=
  let timeframe := dateTimeframe now date in
  match getPopularPosts (top_all r timeframe) with
  | None => []
  | Some popularPosts =>
      let allPosts :=
        foldl (λ allPosts sub, allPosts ++ getSubredditPosts (top_sub r sub timeframe))
          popularPosts (JS.slice0 2 ["worldnews"; "technology"; "funny"]) in
      let uniquePosts :=
        foldl (λ m post, Map_set (id post) post m) []
          (List.filter (λ post, bool_decide (default 1000 minScore ≤ postCount post))
             allPosts) in
      JS.slice0 25 (JS.sort NewsAggregator.byScoreDesc (uniquePosts.*2))
  end.

End RedditApi.

(** ** The Hacker News client ([services/hackerNewsApi.ts]) *)

Module HackerNews.

Inductive ItemType := story | comment | job | poll.

#[global] Instance ItemType_eq_dec : EqDecision ItemType.
Proof. solve_decision. Defined.

Record HNItem := mkHNItem {
  item_id : Z;
  item_title : option string;
  url : option string;
  text : option string;
  score : option Z;
  descendants : option Z;
  item_type : ItemType
}.

(** [a || b] on optional strings: [undefined] and [""] give [b]. *)
Definition str_or (a : option string) (b : string) : string :=
  if JS.truthy a then default "" a else b.

Definition byItemScoreDesc (a b : HNItem) : Z :=
  default 0 (score b) - default 0 (score a).

(** The callback of the [map] in [transformStoriesToEvents]. *)
Definition transformStory (index : nat) (s : HNItem) : ViralEvent :=
  let title_ := str_or (JS.toLowerCase <$> item_title s) "" in
  let url_ := str_or (JS.toLowerCase <$> url s) "" in
  let type_ :=
    if JS.includes url_ "github.com" || JS.includes title_ "github"
       || JS.includes title_ "open source" || JS.includes title_ "release" then news
    else if JS.includes title_ "show hn" || JS.includes title_ "ask hn" then trend
    else news in
  let engagement := default 0 (score s) + default 0 (descendants s) * 2 in
  {| id := ("hn-" ++ pretty (item_id s))%string;
     title := str_or (JS.substring0 80 <$> item_title s) "Hacker News Story";
     summary := str_or (JS.substring0 200 <$> text s) (str_or (url s) "");
     postCount := engagement;
     hashtag := Some "#HackerNews";
     type := type_;
     trendingRank := Z.of_nat index + 1 |}.

Definition transformStoriesToEvents (stories : list HNItem) : list ViralEvent :=
  imap transformStory (JS.sort byItemScoreDesc stories).

(** [getTopStories(limit)]: [ids] is the answer of the id request ([None]
    when it fails, [Some None] when it has no body), [getItem] the answer
    for one item ([None] when that request fails or answers [null]). *)
Definition getTopStories (ids : option (option (list Z))) (getItem : Z → option HNItem)
    (limit : option Z) : option (list ViralEvent) :=
  match ids with
  | None => None
  | Some body =>
      let storyIds := default [] (JS.slice0 (default 30 limit) <$> body) in
      let stories := getItem <$> storyIds in
      let validStories :=
        omap (λ s, match s with
                   | Some item => if decide (item_type item = story) then Some item else None
                   | None => None
                   end) stories in
      Some (transformStoriesToEvents validStories)
  end.

End HackerNews.

(** ** The remote store readers ([lib/supabase.ts]) *)

Module Supabase.

(** What a query resolves to: [{ data, error }]. *)
Record Response (A : Type) := mkResponse {
  data : option A;
  error : option string
}.
Arguments mkResponse {A} _ _.
Arguments data {A} _.
Arguments error {A} _.

(** A row of [viral_events]: the columns the application reads as a
    [ViralEvent], and the two columns the queries select and order by. *)
Record EventRow := mkEventRow {
  event : ViralEvent;
  published_date : string;
  viral_score : Z
}.

(** A row of [daily_viral_summaries]. *)
Record SummaryRow := mkSummaryRow {
  summary_date : string;
  event_count : Z;
  top_hashtag : option string;
  has_viral_content : bool
}.

Definition emptyDay (d : string) : DayData :=
  {| date := d; events := []; hasViralContent := false; topHashtag := None |}.

(** The [forEach((event, index) => ...)] of [getByDateRange], from row
    number [index] on. *)
Fixpoint groupRows (index : nat) (rows : list EventRow)
    (grouped : gmap string DayData) : gmap string DayData :=
  match rows with
  | [] => grouped
  | row :: rest =>
      let d := published_date row in
      let grouped :=
        match grouped !! d with
        | Some _ => grouped
        | None => <[d := emptyDay d]> grouped
        end in
      let b := default (emptyDay d) (grouped !! d) in
      let b :=
        {| date := date b;
           events := events b ++ [with_trendingRank (event row) (Z.of_nat index + 1)];
           hasViralContent := true;
           topHashtag := topHashtag b |} in
      groupRows (S index) rest (<[d := b]> grouped)
  end.

(** The rows published on [d] among [rows], each under the rank of its
    position in the whole answer, [index] being the position of the first
    row. *)
Fixpoint rankedOn (d : string) (index : nat) (rows : list EventRow)
    : list ViralEvent :=
  match rows with
  | [] => []
  | row :: rest =>
      if decide (published_date row = d)
      then with_trendingRank (event row) (Z.of_nat index + 1) :: rankedOn d (S index) rest
      else rankedOn d (S index) rest
  end.

Module viralEventsApi.

(** [None]: the call throws the store's error. *)
Definition getByDate (resp : Response (list EventRow)) : option (list ViralEvent) :=
  match error resp with
  | Some _ => None
  | None => Some (event <$> default [] (data resp))
  end.

Definition getByDateRange (resp : Response (list EventRow))
    : option (gmap string DayData) :=
  match error resp with
  | Some _ => None
  | None => Some (groupRows 0 (default [] (data resp)) ∅)
  end.

End viralEventsApi.

Module dailySummariesApi.

(** [Some None]: the promise resolves to [null]. *)
Definition getByDate (summaryResp : Response SummaryRow)
    (eventsResp : Response (list EventRow)) : option (option DayData) :=
  match error summaryResp, data summaryResp with
  | None, Some row =>
      evs ← viralEventsApi.getByDate eventsResp;
      Some (Some {| date := summary_date row;
                    events := evs;
                    hasViralContent := has_viral_content row;
                    topHashtag := top_hashtag row |})
  | _, _ => Some None
  end.

Definition getAll (resp : Response (list SummaryRow))
    : option (gmap string DayData) :=
  match error resp with
  | Some _ => None
  | None =>
      Some (foldl (λ result row,
                     <[summary_date row :=
                         {| date := summary_date row;
                            events := [];
                            hasViralContent := true;
                            topHashtag := top_hashtag row |}]> result)
                  ∅ (default [] (data resp)))
  end.

End dailySummariesApi.

End Supabase.

(** ** The read hooks *)

(** [a || b] on values that are objects or [undefined]. *)
Definition or_else {A} (a b : option A) : option A :=
  match a with
  | Some x => Some x
  | None => b
  end.

(** ['high' | 'medium' | 'low' | 'none'] *)
Inductive Intensity := high | medium | low | none.

#[global] Instance Intensity_eq_dec : EqDecision Intensity.
Proof. solve_decision. Defined.

Module useRedditData.

Record State := mkState {
  liveData : gmap string DayData;
  historicalData : gmap string DayData
}.

Definition getDayData (mock : gmap string DayData) (s : State) (dateStr : string)
    : option DayData :=
  match liveData s !! dateStr with
  | Some d => Some d
  | None =>
      match historicalData s !! dateStr with
      | Some d => Some d
      | None => MockData.getDayData mock dateStr
      end
  end.

Definition getViralIntensity (mock : gmap string DayData) (s : State)
    (dateStr : string) : Intensity :=
  match getDayData mock s dateStr with
  | None => none
  | Some data =>
      if negb (hasViralContent data) then none
      else
        let totalPosts := foldl (λ sum e, sum + postCount e) 0 (events data) in
        if decide (2000000 < totalPosts) then high
        else if decide (500000 < totalPosts) then medium
        else low
  end.

Definition getTopHashtag (mock : gmap string DayData) (s : State)
    (dateStr : string) : option string :=
  getDayData mock s dateStr ≫= topHashtag.


(** [fetchLiveDataForDate(date)]: [now] and [date_] are the two instants in
    milliseconds, [dateStr] the ISO day of [date_] (so [dayData.date]).  The
    result is the value the promise resolves to and the state left behind. *)
Definition fetchLiveDataForDate (useMockData : bool) (r : RedditApi.Reddit)
    (now date_ : Z) (dateStr : string) (s : State) : option DayData * State :=
  if useMockData then (None, s)
  else
    let events := RedditApi.getViralContentForDate r now date_ (Some 500) in
    if decide (length events = 0%nat) then (None, s)
    else
      let sortedEvents := JS.sort MockData.byRankAsc events in
      let dayData :=
        {| date := dateStr;
           events := sortedEvents;
           hasViralContent := bool_decide (0 < Z.of_nat (length events));
           topHashtag := head sortedEvents ≫= hashtag |} in
      (Some dayData,
       {| liveData := <[dateStr := dayData]> (liveData s);
          historicalData := historicalData s |}).

(** The options of the hook's [importHistoricalData]. *)
Record ImportOptions := mkImportOptions {
  newsOnly : option bool;
  maxPosts : option Z;
  subreddits : option (list string);
  timeframes : option (list RedditHistoricalImporter.Timeframe)
}.

(** [options.maxPosts || 300] *)
Definition maxPosts_or_300 (options : ImportOptions) : Z :=
  match maxPosts options with
  | Some n => if decide (n = 0) then 300 else n
  | None => 300
  end.

(** The hook's [importHistoricalData]: a new importer (whose clock has been
    read [reads] times) runs the import, the result is filtered on request,
    saved, and merged into the state.  The result is the number of dates
    returned, the cache and the state. *)
Definition importHistoricalData (w : RedditHistoricalImporter.World)
    (reads : nat) (options : ImportOptions)
    (ls : RedditHistoricalImporter.LocalStorage) (s : State)
    : Z * RedditHistoricalImporter.LocalStorage * State :=
  let importer :=
    {| RedditHistoricalImporter.importedData := ∅;
       RedditHistoricalImporter.clockReads := reads;
       RedditHistoricalImporter.log := [] |} in
  let data :=
    RedditHistoricalImporter.importedData
      (RedditHistoricalImporter.importHistoricalData w
         {| RedditHistoricalImporter.timeframes :=
              Some (default [RedditHistoricalImporter.month;
                             RedditHistoricalImporter.year;
                             RedditHistoricalImporter.all] (timeframes options));
            RedditHistoricalImporter.minScore := Some 1000;
            RedditHistoricalImporter.maxPosts := Some (maxPosts_or_300 options);
            RedditHistoricalImporter.subreddits := subreddits options |}
         importer) in
  let finalData :=
    if default false (newsOnly options)
    then RedditHistoricalImporter.filterNewsOnly data
    else data in
  (Z.of_nat (size finalData),
   RedditHistoricalImporter.saveToStorage finalData ls,
   {| liveData := liveData s;
      historicalData := finalData ∪ historicalData s |}).


(** [data?.hasViralContent || false] *)
Definition hasViralContent (mock : gmap string DayData) (s : State)
    (dateStr : string) : bool :=
  match getDayData mock s dateStr with
  | Some data => hasViralContent data
  | None => false
  end.

End useRedditData.

Module useSupabaseData.

Inductive Source := supabase | local | mock.

#[global] Instance Source_eq_dec : EqDecision Source.
Proof. solve_decision. Defined.

Record State := mkState {
  source : Source;
  localData : gmap string DayData;
  historicalData : gmap string DayData
}.

(** [remote] is the outcome of [dailySummariesApi.getByDate(dateStr)]:
    [None] when it throws. *)
Definition getDayData (mockTable : gmap string DayData) (s : State)
    (remote : option (option DayData)) (dateStr : string) : option DayData :=
  let fallback :=
    match historicalData s !! dateStr with
    | Some d => Some d
    | None =>
        match localData s !! dateStr with
        | Some d => Some d
        | None => MockData.getDayData mockTable dateStr
        end
    end in
  if decide (source s = supabase) then
    match remote with
    | Some (Some d) => Some d
    | Some None | None => fallback
    end
  else fallback.

Definition getDayDataSync (mockTable : gmap string DayData) (s : State)
    (dateStr : string) : option DayData :=
  or_else (historicalData s !! dateStr)
    (or_else (localData s !! dateStr) (MockData.getDayData mockTable dateStr)).

Definition getViralIntensity (mockTable : gmap string DayData) (s : State)
    (dateStr : string) : Intensity :=
  match getDayDataSync mockTable s dateStr with
  | None => none
  | Some data =>
      if negb (hasViralContent data) then none
      else
        let totalPosts := foldl (λ sum e, sum + postCount e) 0 (events data) in
        if decide (2000000 < totalPosts) then high
        else if decide (500000 < totalPosts) then medium
        else low
  end.

Definition getTopHashtag (mockTable : gmap string DayData) (s : State)
    (dateStr : string) : option string :=
  getDayDataSync mockTable s dateStr ≫= topHashtag.

(** The data part of the state [loadInitialData] leaves: the summaries of
    the remote store when it is configured and answers, the local cache
    otherwise. *)
Definition loadInitialData (configured : bool)
    (resp : Supabase.Response (list Supabase.SummaryRow))
    (ls : RedditHistoricalImporter.LocalStorage) (s : State) : State :=
  let fromCache :=
    {| source := local; localData := localData s;
       historicalData := RedditHistoricalImporter.loadFromStorage ls |} in
  if configured then
    match Supabase.dailySummariesApi.getAll resp with
    | Some summaries =>
        {| source := supabase; localData := localData s; historicalData := summaries |}
    | None => fromCache
    end
  else fromCache.

(** [fetchLiveData(date)], [dateStr] being the ISO day of [date]: the value
    the promise resolves to and the state left behind.  The mirror write to
    the remote store is outside this model. *)
Definition fetchLiveData (up : NewsAggregator.Upstream) (dateStr : string) (s : State)
    : option DayData * State :=
  let events := [] in
  let events :=
    match NewsAggregator.getPopularPosts up with
    | Some redditPosts => events ++ redditPosts
    | None => events
    end in
  let events :=
    if NewsAggregator.newsApi_isConfigured up then
      match NewsAggregator.getTopHeadlines up with
      | Some newsArticles => events ++ newsArticles
      | None => events
      end
    else events in
  let events :=
    match NewsAggregator.getTopStories up with
    | Some hnStories => events ++ hnStories
    | None => events
    end in
  if decide (length events = 0%nat) then (None, s)
  else
    let sortedEvents := JS.sort NewsAggregator.byScoreDesc events in
    let dayData :=
      {| date := dateStr;
         events := imap (λ i e, with_trendingRank e (Z.of_nat i + 1)) sortedEvents;
         hasViralContent := bool_decide (0 < Z.of_nat (length events));
         topHashtag := head sortedEvents ≫= hashtag |} in
    (Some dayData,
     {| source := source s;
        localData := <[dateStr := dayData]> (localData s);
        historicalData := historicalData s |}).

(** [data?.hasViralContent || false] *)
Definition hasViralContent (mockTable : gmap string DayData) (s : State)
    (dateStr : string) : bool :=
  match getDayDataSync mockTable s dateStr with
  | Some data => hasViralContent data
  | None => false
  end.

End useSupabaseData.

(** ** The bucket invariants of the specification *)

Module Invariant.

(** The ranks of a bucket read 1, 2, ..., N in list order. *)
Definition ranksContiguous (b : DayData) : Prop :=
  trendingRank <$> events b = (λ i, Z.of_nat i) <$> seq 1 (length (events b)).

(** The list is in descending score order. *)
Definition scoreDescending (l : list ViralEvent) : Prop :=
  StronglySorted (λ a b, postCount b ≤ postCount a) l.

(** The highest-ranked event of a bucket: the one a stable sort by rank
    puts first, so among equal ranks the earliest arrival. *)
Definition topEvent (b : DayData) : option ViralEvent :=
  head (JS.sort MockData.byRankAsc (events b)).

Definition topHashtagOfTopEvent (b : DayData) : Prop :=
  topHashtag b = topEvent b ≫= hashtag.

Definition flagMatchesEvents (b : DayData) : Prop :=
  hasViralContent b = bool_decide (events b ≠ []).

#[global] Instance ranksContiguous_dec b : Decision (ranksContiguous b).
Proof. unfold ranksContiguous. apply _. Defined.

#[global] Instance topHashtagOfTopEvent_dec b : Decision (topHashtagOfTopEvent b).
Proof. unfold topHashtagOfTopEvent. apply _. Defined.

#[global] Instance flagMatchesEvents_dec b : Decision (flagMatchesEvents b).
Proof. unfold flagMatchesEvents. apply _. Defined.

End Invariant.

(** ** Concrete inputs used by the examples *)

Module Scenario.

(** Two stories whose titles differ only in case and punctuation. *)
Definition a : ViralEvent :=
  {| id := "a"; title := "Breaking News Today"; summary := "";
     postCount := 500; hashtag := None; type := news; trendingRank := 1 |}.

Definition b : ViralEvent :=
  {| id := "b"; title := "breaking news today!!"; summary := "";
     postCount := 300; hashtag := None; type := news; trendingRank := 1 |}.

(** Reddit's popular listing answers [a], the news subreddits answer
    nothing, Hacker News answers [b]. *)
Definition twoSources : NewsAggregator.Upstream :=
  {| NewsAggregator.getPopularPosts := Some [a];
     NewsAggregator.getSubredditPosts := λ _, Some [];
     NewsAggregator.newsApi_isConfigured := false;
     NewsAggregator.getTopHeadlines := None;
     NewsAggregator.getTopStories := Some [b];
     NewsAggregator.today := "2024-03-01" |}.

(** [{ minScore: 100 }] *)
Definition minScore100 : NewsAggregator.AggregatorOptions :=
  {| NewsAggregator.sources := None; NewsAggregator.newsOnly := None;
     NewsAggregator.minScore := Some 100; NewsAggregator.maxResults := None |}.

(** A Reddit client: r/x answers six posts, five of them above the
    default threshold of 1000; r/y answers one; the all-time listing answers
    two, one of them above twice the threshold.  Ranks are the positions in
    each answer, hashtags the subreddits, as the client assigns them. *)
Definition post (i : string) (score : Z) (tag : string) (rank : Z) : ViralEvent :=
  {| id := i; title := ("Post " ++ i)%string; summary := ""; postCount := score;
     hashtag := Some tag; type := news; trendingRank := rank |}.

Definition x1 := post "x1" 9000 "#r/x" 1.
Definition x2 := post "x2" 8000 "#r/x" 2.
Definition x3 := post "x3" 7000 "#r/x" 3.
Definition x4 := post "x4" 6000 "#r/x" 4.
Definition x5 := post "x5" 5000 "#r/x" 5.
Definition x6 := post "x6" 10 "#r/x" 6.
Definition y1 := post "y1" 4000 "#r/y" 1.
Definition t1 := post "t1" 2500 "#r/pics" 1.
Definition t2 := post "t2" 1500 "#r/funny" 2.
Definition y2 := post "y2" 3000 "#r/y" 2.

Definition redditWorld : RedditHistoricalImporter.World :=
  {| RedditHistoricalImporter.getSubredditPosts := λ sub _,
       if String.eqb sub "x" then Some [x1; x2; x3; x4; x5; x6]
       else if String.eqb sub "y" then Some [y1]
       else None;
     RedditHistoricalImporter.getPopularPosts := Some [t1; t2];
     RedditHistoricalImporter.clock := λ _, "2024-05-01" |}.

(** The same client on a day when the all-time listing answers, between
    [t1] and [t2], the post [x1] that r/x answers too, ranked by its place
    in this listing. *)
Definition x1again := post "x1" 9000 "#r/x" 2.

Definition repeatWorld : RedditHistoricalImporter.World :=
  {| RedditHistoricalImporter.getSubredditPosts :=
       RedditHistoricalImporter.getSubredditPosts redditWorld;
     RedditHistoricalImporter.getPopularPosts := Some [t1; x1again; t2];
     RedditHistoricalImporter.clock := λ _, "2024-05-01" |}.

(** [{ subreddits: ["x", "y"], timeframes: ["day"], maxPosts }] *)
Definition xyDay (maxPosts : option Z) : RedditHistoricalImporter.HistoricalImportOptions :=
  {| RedditHistoricalImporter.timeframes := Some [RedditHistoricalImporter.day];
     RedditHistoricalImporter.minScore := None;
     RedditHistoricalImporter.maxPosts := maxPosts;
     RedditHistoricalImporter.subreddits := Some ["x"; "y"] |}.

Definition fresh : RedditHistoricalImporter.Importer :=
  {| RedditHistoricalImporter.importedData := ∅;
     RedditHistoricalImporter.clockReads := 0;
     RedditHistoricalImporter.log := [] |}.

(** Two rows of [viral_events] on consecutive days, as the store returns
    them for a two-day range, best score first. *)
Definition rows : list Supabase.EventRow :=
  [ {| Supabase.event := x1; Supabase.published_date := "2024-01-01";
       Supabase.viral_score := 9000 |};
    {| Supabase.event := y1; Supabase.published_date := "2024-01-02";
       Supabase.viral_score := 4000 |} ].

(** One row of [daily_viral_summaries]. *)
Definition summaries : list Supabase.SummaryRow :=
  [ {| Supabase.summary_date := "2024-01-01"; Supabase.event_count := 1;
       Supabase.top_hashtag := Some "#r/x"; Supabase.has_viral_content := true |} ].

Definition mockDay : DayData := MockData.createDayData "2024-01-01" [a].
Definition cachedDay : DayData := MockData.createDayData "2024-01-01" [x1].
Definition importedDay : DayData := MockData.createDayData "2024-01-01" [y1].
Definition otherDay : DayData := MockData.createDayData "2024-01-02" [b].

(** The bucket the capped import of the example returns. *)
Definition cappedBucket : DayData :=
  {| date := "2024-05-01";
     events := [x1; x2; x3; x4; x5; t1];
     hasViralContent := true;
     topHashtag := Some "#r/pics" |}.

(** A Reddit client whose every subreddit answers the same two posts, and a
    search that knows one query. *)
Definition newsWorld : RedditHistoricalImporter.World :=
  {| RedditHistoricalImporter.getSubredditPosts := λ _ _, Some [x1; x6];
     RedditHistoricalImporter.getPopularPosts := None;
     RedditHistoricalImporter.clock := λ _, "2024-05-01" |}.

Definition topicSearch (query : string) : option (list ViralEvent) :=
  if String.eqb query "ai" then Some [x1; x6] else None.

(** A day with one news event ranked below one meme. *)
Definition cat : ViralEvent :=
  {| id := "m"; title := "Cat"; summary := ""; postCount := 7;
     hashtag := Some "#r/aww"; type := meme; trendingRank := 1 |}.

Definition mixedDay : DayData :=
  {| date := "2024-01-01"; events := [cat; with_trendingRank x1 2];
     hasViralContent := true; topHashtag := Some "#r/aww" |}.

Definition newsOfMixedDay : DayData :=
  {| date := "2024-01-01"; events := [with_trendingRank x1 2];
     hasViralContent := true; topHashtag := Some "#r/aww" |}.

(** A child of a Reddit listing. *)
Definition rawPost : RedditApi.PostData :=
  {| RedditApi.post_id := Some "abc";
     RedditApi.post_title := Some "Hello";
     RedditApi.score := Some 60000;
     RedditApi.subreddit := Some "news";
     RedditApi.domain := Some "bbc.co.uk";
     RedditApi.is_video := false |}.

(** Hacker News: three ids, of which one is a comment and one fails. *)
Definition hnStory : HackerNews.HNItem :=
  {| HackerNews.item_id := 42; HackerNews.item_title := Some "Show HN: a calendar";
     HackerNews.url := None; HackerNews.text := None;
     HackerNews.score := Some 120; HackerNews.descendants := Some 30;
     HackerNews.item_type := HackerNews.story |}.

Definition hnItems (i : Z) : option HackerNews.HNItem :=
  if decide (i = 42) then Some hnStory
  else if decide (i = 43) then
    Some {| HackerNews.item_id := 43; HackerNews.item_title := None;
            HackerNews.url := None; HackerNews.text := Some "nice";
            HackerNews.score := None; HackerNews.descendants := None;
            HackerNews.item_type := HackerNews.comment |}
  else None.

(** Reddit answering one post to every listing, and the hook state before
    any fetch. *)
Definition oneListing : RedditApi.Reddit :=
  {| RedditApi.top_all := λ _, Some (Some [Some rawPost]);
     RedditApi.top_sub := λ _ _, None |}.

Definition liveBucket : DayData :=
  {| date := "2024-05-01";
     events := [RedditApi.transformPost 0 (Some rawPost)];
     hasViralContent := true;
     topHashtag := Some "#r/news" |}.

Definition summaryResponse : Supabase.Response (list Supabase.SummaryRow) :=
  {| Supabase.data := Some summaries; Supabase.error := None |}.

Definition placeholder : DayData :=
  {| date := "2024-01-01"; events := []; hasViralContent := true;
     topHashtag := Some "#r/x" |}.

Definition emptyCache : RedditHistoricalImporter.LocalStorage :=
  {| RedditHistoricalImporter.item := RedditHistoricalImporter.Absent;
     RedditHistoricalImporter.writable := true |}.

Definition supabaseCached : useSupabaseData.State :=
  {| useSupabaseData.source := useSupabaseData.local;
     useSupabaseData.localData := ∅;
     useSupabaseData.historicalData := {[ "2024-03-01" := cachedDay ]} |}.

Definition liveDay : DayData :=
  {| date := "2024-03-01";
     events := [with_trendingRank a 1; with_trendingRank b 2];
     hasViralContent := true;
     topHashtag := None |}.


(** Hook states: only the historical import knows the date; no cache
    knows it. *)
Definition mockTable : gmap string DayData := {[ "2024-01-01" := mockDay ]}.

Definition redditCached : useRedditData.State :=
  {| useRedditData.liveData := ∅;
     useRedditData.historicalData := {[ "2024-01-01" := cachedDay ]} |}.

Definition supabaseEmpty : useSupabaseData.State :=
  {| useSupabaseData.source := useSupabaseData.local;
     useSupabaseData.localData := ∅;
     useSupabaseData.historicalData := ∅ |}.

End Scenario.

(** * Properties *)

(** ** The primitives on concrete inputs *)

Example toLowerCase_strip :
  JS.strip_non_alnum (JS.toLowerCase "AZaz09@[`{ Hello-World_42!") = "azaz09helloworld42".
Proof. reflexivity. Qed.

Example substring0_long_and_short :
  JS.substring0 30 "0123456789012345678901234567890123456789"
  = "012345678901234567890123456789"
  ∧ JS.substring0 30 "abc" = "abc".
Proof. split; reflexivity. Qed.

Example includes_cases :
  JS.includes "#r/worldnews" "news" = true ∧ JS.includes "new" "news" = false.
Proof. split; reflexivity. Qed.

Example slice0_cases :
  JS.slice0 2 [1; 2; 3] = [1; 2] ∧ JS.slice0 (-1) [1; 2; 3] = [1; 2]
  ∧ JS.slice0 (-5) [1; 2; 3] = [] ∧ JS.slice0 7 [1; 2; 3] = [1; 2; 3].
Proof. repeat split; reflexivity. Qed.

Example sort_descending_keeps_ties_in_order :
  JS.sort (λ a b : Z * Z, b.1 - a.1)
    [(1, 1); (3, 2); (2, 3); (3, 4); (1, 5); (2, 6)]
  = [(3, 2); (3, 4); (2, 3); (2, 6); (1, 1); (1, 5)].
Proof. reflexivity. Qed.

Example dedupKey_of_the_two_titles :
  NewsAggregator.dedupKey Scenario.a = "breakingnewstoday"
  ∧ NewsAggregator.dedupKey Scenario.b = "breakingnewstoday".
Proof. split; reflexivity. Qed.

(** The effects of the capped import of the example: r/y is never asked. *)
Example log_of_capped_import :
  RedditHistoricalImporter.log
    (RedditHistoricalImporter.importHistoricalData Scenario.redditWorld
       (Scenario.xyDay (Some 1)) Scenario.fresh)
  = [ RedditHistoricalImporter.Progress
        {| RedditHistoricalImporter.total := 2;
           RedditHistoricalImporter.current := 1;
           RedditHistoricalImporter.subreddit := "x (day)";
           RedditHistoricalImporter.postsFound := 0 |};
      RedditHistoricalImporter.GetSubredditPosts "x" RedditHistoricalImporter.day;
      RedditHistoricalImporter.Delay 2000;
      RedditHistoricalImporter.Progress
        {| RedditHistoricalImporter.total := 3;
           RedditHistoricalImporter.current := 3;
           RedditHistoricalImporter.subreddit := "r/all (all time viral)";
           RedditHistoricalImporter.postsFound := 1 |};
      RedditHistoricalImporter.GetPopularPosts ].
Proof. vm_compute. reflexivity. Qed.

(** ** The stable sort *)

Section SortFacts.
Context {A : Type} (cmp : A → A → Z).

Lemma sort_insert_perm x l : JS.sort_insert cmp x l ≡ₚ x :: l.
Proof.
  induction l as [|y l IH]; simpl; [done|].
  case_decide; [done|]. rewrite IH. apply Permutation_swap.
Qed.

Lemma sort_perm l : JS.sort cmp l ≡ₚ l.
Proof.
  induction l as [|x l IH]; simpl; [done|].
  by rewrite sort_insert_perm, IH.
Qed.

Lemma sort_length l : length (JS.sort cmp l) = length l.
Proof. by rewrite sort_perm. Qed.

(** A list already in order is left as it is. *)
Lemma sort_sorted l :
  StronglySorted (λ a b, cmp a b ≤ 0) l → JS.sort cmp l = l.
Proof.
  induction 1 as [|x l Hl IH Hx]; simpl; [done|].
  rewrite IH. destruct l as [|y l]; simpl; [done|].
  apply Forall_cons in Hx as [Hxy _]. by rewrite decide_True.
Qed.

(** Comparators that compare a numeric key, as all the ones of this
    code base do. *)
Context (key : A → Z) (Hcmp : ∀ a b, cmp a b ≤ 0 ↔ key a ≤ key b).

Lemma sort_insert_sorted x l :
  StronglySorted (λ a b, key a ≤ key b) l →
  StronglySorted (λ a b, key a ≤ key b) (JS.sort_insert cmp x l).
Proof.
  induction 1 as [|y l Hl IH Hy]; simpl.
  - repeat constructor.
  - case_decide as Hxy.
    + apply Hcmp in Hxy. constructor; [by constructor|].
      constructor; [done|]. eapply Forall_impl; [exact Hy|].
      simpl. intros; lia.
    + constructor; [done|]. rewrite sort_insert_perm.
      constructor; [|done]. rewrite Hcmp in Hxy. lia.
Qed.

Lemma sort_is_sorted l : StronglySorted (λ a b, key a ≤ key b) (JS.sort cmp l).
Proof.
  induction l as [|x l IH]; simpl; [constructor|].
  by apply sort_insert_sorted.
Qed.

(** Stability: elements with the same key keep their relative order. *)
Lemma sort_insert_stable v x l :
  List.filter (λ a, bool_decide (key a = v)) (JS.sort_insert cmp x l)
  = List.filter (λ a, bool_decide (key a = v)) (x :: l).
Proof.
  induction l as [|y l IH]; [done|].
  cbn [JS.sort_insert]. case_decide as Hxy; [done|].
  rewrite Hcmp in Hxy.
  cbn [List.filter] in *. rewrite IH.
  repeat case_bool_decide; try done; lia.
Qed.

Lemma sort_stable v l :
  List.filter (λ a, bool_decide (key a = v)) (JS.sort cmp l)
  = List.filter (λ a, bool_decide (key a = v)) l.
Proof.
  induction l as [|x l IH]; [done|].
  cbn [JS.sort]. rewrite sort_insert_stable. cbn [List.filter].
  by rewrite IH.
Qed.
End SortFacts.

Lemma StronglySorted_weaken {A} (R1 R2 : relation A) l :
  (∀ x y, R1 x y → R2 x y) → StronglySorted R1 l → StronglySorted R2 l.
Proof.
  intros HR. induction 1 as [|x l Hl IH Hx]; constructor; [done|].
  eapply Forall_impl; [exact Hx|]. auto.
Qed.

(** ** The aggregator *)

Section AggregatorFacts.
Import NewsAggregator.

(** Events pushed so far stay in front of whatever the loop adds. *)
Lemma removeDuplicates_loop_unique seen unique l :
  removeDuplicates_loop seen unique l
  = unique ++ removeDuplicates_loop seen [] l.
Proof.
  revert seen unique. induction l as [|e l IH]; intros seen unique; simpl.
  - by rewrite app_nil_r.
  - case_decide; [apply IH|].
    rewrite (IH _ (unique ++ [e])), (IH _ ([] ++ [e])).
    by rewrite <- app_assoc.
Qed.

(** Once every key of the remaining events has been seen, the loop adds
    nothing more. *)
Lemma removeDuplicates_loop_seen seen unique l :
  (∀ e, e ∈ l → dedupKey e ∈ seen) →
  removeDuplicates_loop seen unique l = unique.
Proof.
  revert seen unique. induction l as [|e l IH]; intros seen unique Hl; simpl; [done|].
  rewrite decide_True by (apply Hl; left).
  apply IH. intros e' He'. apply Hl. by right.
Qed.

Lemma removeDuplicates_loop_app seen unique l1 l2 :
  (∀ e, e ∈ l2 → dedupKey e ∈ seen ∪ list_to_set (dedupKey <$> l1)) →
  removeDuplicates_loop seen unique (l1 ++ l2)
  = removeDuplicates_loop seen unique l1.
Proof.
  revert seen unique. induction l1 as [|e l1 IH]; intros seen unique Hl2; simpl.
  - apply removeDuplicates_loop_seen. intros e He.
    specialize (Hl2 e He). simpl in Hl2.
    apply elem_of_union in Hl2 as [?|Hl2]; [done|].
    by apply not_elem_of_empty in Hl2.
  - assert (∀ e', e' ∈ l2 →
              dedupKey e' ∈ seen ∪ list_to_set (dedupKey <$> l1)
              ∨ dedupKey e' = dedupKey e) as Hl2'.
    { intros e' He'. specialize (Hl2 e' He'). rewrite fmap_cons in Hl2.
      rewrite list_to_set_cons, !elem_of_union, elem_of_singleton in Hl2.
      rewrite elem_of_union. tauto. }
    case_decide as Hin; apply IH; intros e' He';
      destruct (Hl2' e' He') as [Hk| ->]; rewrite ?elem_of_union in *;
      rewrite ?elem_of_union, ?elem_of_singleton; tauto.
Qed.

(** The survivors are events of the input, in input order. *)
Lemma removeDuplicates_loop_sublist seen l :
  sublist (removeDuplicates_loop seen [] l) l.
Proof.
  revert seen. induction l as [|e l IH]; intros seen; simpl; [done|].
  case_decide.
  - apply sublist_cons, IH.
  - rewrite removeDuplicates_loop_unique. simpl. apply sublist_skip, IH.
Qed.

(** The ranks the bucket assigns, counted from an offset. *)
Lemma rerank_from k (l : list ViralEvent) :
  let r := imap (λ i e, with_trendingRank e (Z.of_nat (k + i) + 1)) l in
  StronglySorted (λ a b, MockData.byRankAsc a b ≤ 0) r
  ∧ Forall (λ e, Z.of_nat k + 1 ≤ trendingRank e) r.
Proof.
  revert k. induction l as [|x l IH]; intros k; cbv zeta.
  - split; constructor.
  - destruct (IH (S k)) as [Hs Hf]. rewrite imap_cons.
    rewrite (imap_ext _ (λ i e, with_trendingRank e (Z.of_nat (S k + i) + 1)))
      by (intros i y _; unfold compose; f_equal; lia).
    split.
    + constructor; [done|]. eapply Forall_impl; [exact Hf|].
      intros e He. cbv beta in He. unfold MockData.byRankAsc.
      cbn [trendingRank with_trendingRank]. lia.
    + constructor; [cbn [trendingRank with_trendingRank]; lia|].
      eapply Forall_impl; [exact Hf|].
      intros e He; cbv beta in He. lia.
Qed.

Lemma bucket_ranks day (sortedEvents : list ViralEvent) :
  Invariant.ranksContiguous (bucket day sortedEvents).
Proof.
  unfold Invariant.ranksContiguous, bucket. cbn [events].
  rewrite fmap_imap, length_imap.
  rewrite (imap_ext _ (λ i _, Z.of_nat (S i))) by (intros; simpl; lia).
  rewrite imap_seq_0, <- fmap_S_seq, <- list_fmap_compose. done.
Qed.

Lemma bucket_scores day (sortedEvents : list ViralEvent) :
  postCount <$> events (bucket day sortedEvents) = postCount <$> sortedEvents.
Proof.
  unfold bucket. cbn [events]. rewrite fmap_imap.
  rewrite (imap_ext _ (λ _ e, postCount e)) by done.
  apply imap_const.
Qed.

Lemma bucket_topHashtag day (sortedEvents : list ViralEvent) :
  Invariant.topHashtagOfTopEvent (bucket day sortedEvents).
Proof.
  unfold Invariant.topHashtagOfTopEvent, Invariant.topEvent, bucket.
  cbn [events topHashtag].
  destruct (rerank_from 0 sortedEvents) as [Hs _]. simpl in Hs.
  rewrite sort_sorted by exact Hs.
  by destruct sortedEvents.
Qed.

Lemma bucket_flag day (sortedEvents : list ViralEvent) :
  Invariant.flagMatchesEvents (bucket day sortedEvents).
Proof.
  unfold Invariant.flagMatchesEvents, bucket. cbn [events hasViralContent].
  destruct sortedEvents as [|e l]; [done|].
  rewrite imap_cons. apply bool_decide_ext.
  split; [done|]. intros _. cbn [length]. lia.
Qed.

Lemma slice0_take {A} n (l : list A) : ∃ k, JS.slice0 n l = take k l.
Proof. unfold JS.slice0. case_decide; eauto. Qed.

Lemma selectEvents_descending opts allEvents :
  Invariant.scoreDescending (selectEvents opts allEvents).
Proof.
  unfold selectEvents, Invariant.scoreDescending.
  set (u := removeDuplicates _).
  destruct (slice0_take (default 100 (maxResults opts)) (JS.sort byScoreDesc u))
    as [k ->].
  pose proof (sort_is_sorted byScoreDesc (λ e, - postCount e)) as Hs.
  specialize (Hs ltac:(intros a b; unfold byScoreDesc; lia) u).
  rewrite <- (take_drop k (JS.sort byScoreDesc u)) in Hs.
  apply StronglySorted_app_1_l in Hs.
  eapply StronglySorted_weaken; [|exact Hs]. intros a b Hab; cbv beta in *; lia.
Qed.

Lemma filter_sublist {A} (f : A → bool) (l : list A) : sublist (List.filter f l) l.
Proof.
  induction l as [|x l IH]; simpl; [done|].
  destruct (f x); [by apply sublist_skip | by apply sublist_cons].
Qed.

Lemma filter_take_sublist {A} (f : A → bool) k (l : list A) :
  sublist (List.filter f (take k l)) (List.filter f l).
Proof.
  rewrite <- (take_drop k l) at 2. rewrite List.filter_app.
  apply sublist_inserts_r. done.
Qed.

(** Events of equal score leave [selectEvents] in the order in which they
    arrived. *)
Lemma selectEvents_stable opts allEvents v :
  sublist
    (List.filter (λ e, bool_decide (postCount e = v)) (selectEvents opts allEvents))
    allEvents.
Proof.
  unfold selectEvents.
  set (f1 := List.filter _ allEvents).
  set (f2 := if default true (newsOnly opts) then _ else _).
  destruct (slice0_take (default 100 (maxResults opts))
              (JS.sort byScoreDesc (removeDuplicates f2))) as [k ->].
  etrans; [apply filter_take_sublist|].
  rewrite (List.filter_ext _ (λ e, bool_decide (- postCount e = - v)))
    by (intros e; apply bool_decide_ext; lia).
  rewrite (sort_stable byScoreDesc (λ e, - postCount e))
    by (intros a b; unfold byScoreDesc; lia).
  etrans; [apply filter_sublist|].
  etrans; [apply removeDuplicates_loop_sublist|].
  assert (sublist f2 f1) as H21.
  { subst f2. destruct (default true (newsOnly opts)); [apply filter_sublist|done]. }
  etrans; [exact H21|]. apply filter_sublist.
Qed.

(** What the aggregator returns is ranked 1..N by descending score, and
    events of equal score keep their arrival order. *)
Theorem fetchViralContent_ranked up opts d b :
  fetchViralContent up opts !! d = Some b →
  Invariant.ranksContiguous b
  ∧ Invariant.scoreDescending (events b)
  ∧ ∃ sortedEvents,
      events b = imap (λ i e, with_trendingRank e (Z.of_nat i + 1)) sortedEvents
      ∧ ∀ v, sublist
               (List.filter (λ e, bool_decide (postCount e = v)) sortedEvents)
               (collect up (default [reddit; hackernews] (sources opts))).
Proof.
  unfold fetchViralContent. intros Hb.
  apply lookup_singleton_Some in Hb as [_ <-].
  split; [apply bucket_ranks|]. split.
  - unfold Invariant.scoreDescending.
    pose proof (selectEvents_descending opts
                  (collect up (default [reddit; hackernews] (sources opts)))) as Hs.
    apply (StronglySorted_fmap postCount _ (λ x y : Z, y ≤ x)) in Hs; [|done].
    rewrite <- bucket_scores with (day := today up) in Hs.
    revert Hs. generalize (events (bucket (today up)
      (selectEvents opts (collect up (default [reddit; hackernews] (sources opts)))))).
    intros l. induction l as [|x l IH]; intros Hs; [constructor|].
    rewrite fmap_cons in Hs. apply StronglySorted_inv in Hs as [Hs Hx].
    constructor; [by apply IH|]. by rewrite Forall_fmap in Hx.
  - eexists. split; [done|]. apply selectEvents_stable.
Qed.

(** C6: deduplicating a result set merged with itself gives exactly what
    deduplicating it once gives. *)
Theorem removeDuplicates_repeat (events : list ViralEvent) :
  removeDuplicates (events ++ events) = removeDuplicates events.
Proof.
  unfold removeDuplicates. apply removeDuplicates_loop_app.
  intros e He. apply elem_of_union_r, elem_of_list_to_set, list_elem_of_fmap.
  by exists e.
Qed.

Lemma slice0_singleton {A} n (x : A) : 0 < n → JS.slice0 n [x] = [x].
Proof.
  intros Hn. unfold JS.slice0. rewrite decide_False by lia.
  destruct (Z.to_nat n) as [|k] eqn:E; [lia|]. by destruct k.
Qed.

(** C4: of two stories whose titles normalise to the same key, fetched in
    this order with scores 500 and 300 under [minScore: 100], the bucket
    keeps only the first one, at rank 1 (provided the first one is not
    dropped by the news-only step and at least one result is asked for). *)
Theorem fetchViralContent_first_seen_wins up opts a b :
  title a = "Breaking News Today" → postCount a = 500 →
  title b = "breaking news today!!" → postCount b = 300 →
  minScore opts = Some 100 →
  collect up (default [reddit; hackernews] (sources opts)) = [a; b] →
  (default true (newsOnly opts) = true → isNews a = true) →
  0 < default 100 (maxResults opts) →
  fetchViralContent up opts
  = {[ today up := {| date := today up;
                      events := [with_trendingRank a 1];
                      hasViralContent := true;
                      topHashtag := hashtag a |} ]}.
Proof.
  intros Hta Hpa Htb Hpb Hmin Hcol Hnews Hmax.
  assert (dedupKey a = "breakingnewstoday") as Hka
    by (unfold dedupKey; rewrite Hta; reflexivity).
  assert (dedupKey b = "breakingnewstoday") as Hkb
    by (unfold dedupKey; rewrite Htb; reflexivity).
  assert (removeDuplicates [a; b] = [a]) as Hab.
  { unfold removeDuplicates. cbn [removeDuplicates_loop]. rewrite Hka, Hkb.
    rewrite decide_False by apply not_elem_of_empty.
    rewrite decide_True; [done|].
    apply elem_of_union_l, elem_of_singleton. done. }
  assert (removeDuplicates [a] = [a]) as Haa.
  { unfold removeDuplicates. cbn [removeDuplicates_loop].
    by rewrite decide_False by apply not_elem_of_empty. }
  assert (selectEvents opts [a; b] = [a]) as Hsel.
  { unfold selectEvents. rewrite Hmin.
    destruct (default true (newsOnly opts));
      cbn [default from_option List.filter]; unfold Datatypes.id;
      rewrite Hpa, Hpb, !bool_decide_eq_true_2 by lia.
    - cbn [List.filter]. rewrite Hnews by done.
      destruct (isNews b); rewrite ?Hab, ?Haa; by apply slice0_singleton.
    - rewrite Hab. by apply slice0_singleton. }
  unfold fetchViralContent. rewrite Hcol, Hsel. reflexivity.
Qed.

End AggregatorFacts.

Lemma fetchViralContent_first_seen_wins_witness :
  NewsAggregator.fetchViralContent Scenario.twoSources Scenario.minScore100
  = {[ "2024-03-01" := {| date := "2024-03-01";
                          events := [with_trendingRank Scenario.a 1];
                          hasViralContent := true;
                          topHashtag := None |} ]}.
Proof.
  apply (fetchViralContent_first_seen_wins
           Scenario.twoSources Scenario.minScore100 Scenario.a Scenario.b);
    reflexivity.
Defined.

(** ** The importer *)

Section ImporterFacts.
Import RedditHistoricalImporter.

(** One post rewrites the bucket of the day the clock shows, and nothing
    else. *)
Lemma processPost_data w this post :
  importedData (processPost w this post)
  = <[clock w (clockReads this) :=
        pushPost (default (emptyDay (clock w (clockReads this)))
                    (importedData this !! clock w (clockReads this))) post]>
      (importedData this).
Proof.
  unfold processPost. cbn [importedData].
  destruct (importedData this !! clock w (clockReads this)) eqn:E.
  - by rewrite E.
  - rewrite lookup_insert_eq. cbn. by rewrite insert_insert_eq.
Qed.

Lemma processPost_other w this post d :
  d ≠ clock w (clockReads this) →
  importedData (processPost w this post) !! d = importedData this !! d.
Proof. intros Hd. rewrite processPost_data. by rewrite lookup_insert_ne. Qed.

Lemma pushPost_events_mono bucket post e :
  e ∈ events bucket → e ∈ events (pushPost bucket post).
Proof.
  unfold pushPost. destruct (JS.some _ _); [done|].
  cbn [events]. intros. apply elem_of_app. by left.
Qed.

Lemma pushPost_events_inv bucket post e :
  e ∈ events (pushPost bucket post) → e ∈ events bucket ∨ e = post.
Proof.
  unfold pushPost. destruct (JS.some _ _); [by left|].
  cbn [events]. rewrite elem_of_app, list_elem_of_singleton. done.
Qed.

Lemma pushPost_flag bucket post :
  Invariant.flagMatchesEvents bucket →
  Invariant.flagMatchesEvents (pushPost bucket post).
Proof.
  unfold pushPost. destruct (JS.some _ _); [done|].
  intros _. unfold Invariant.flagMatchesEvents. cbn [events hasViralContent].
  symmetry. apply bool_decide_eq_true_2. by destruct (events bucket).
Qed.

(** A post whose id is new to the bucket is pushed. *)
Lemma pushPost_fresh bucket post :
  id post ∉ id <$> events bucket →
  events (pushPost bucket post) = events bucket ++ [post].
Proof.
  intros Hfresh. unfold pushPost.
  destruct (JS.some _ _) eqn:E; [|done].
  unfold JS.some in E. apply existsb_exists in E as (e & He & Heq).
  apply String.eqb_eq in Heq. exfalso. apply Hfresh.
  apply list_elem_of_fmap. exists e. split; [done|]. by apply list_elem_of_In.
Qed.

(** Properties kept by every step are kept by the loops. *)
Section Preserved.
Variable w : World.
Variable P : Importer → Prop.
Hypothesis P_emit : ∀ e this, P this → P (emit e this).
Hypothesis P_post : ∀ this post, P this → P (processPost w this post).

Lemma processPosts_preserves posts this :
  P this → P (processPosts w posts this).
Proof.
  unfold processPosts. revert this.
  induction posts as [|p posts IH]; intros this H; simpl; auto.
Qed.

Lemma subredditLoop_preserves tfs subs minS maxP timeframe i rest this n :
  P this → P (fst (subredditLoop w tfs subs minS maxP timeframe i rest this n)).
Proof.
  revert i this n. induction rest as [|sub rest IH]; intros i this n H; [done|].
  cbn [subredditLoop].
  destruct (getSubredditPosts w sub timeframe) as [posts|].
  - case_decide.
    + cbn [fst]. auto using processPosts_preserves.
    + apply IH. auto using processPosts_preserves.
  - apply IH. auto.
Qed.

Lemma timeframeLoop_preserves tfs subs minS maxP rest this n :
  P this → P (fst (timeframeLoop w tfs subs minS maxP rest this n)).
Proof.
  revert this n. induction rest as [|timeframe rest IH]; intros this n H; [done|].
  cbn [timeframeLoop]. case_decide; [done|].
  pose proof (subredditLoop_preserves tfs subs minS maxP timeframe 0 subs this n H) as H'.
  destruct (subredditLoop w tfs subs minS maxP timeframe 0 subs this n) as [this' n'].
  by apply IH.
Qed.

Lemma allTimeBlock_preserves tfs subs minS this :
  P this → P (allTimeBlock w tfs subs minS this).
Proof.
  intros H. unfold allTimeBlock.
  destruct (getPopularPosts w); auto using processPosts_preserves.
Qed.

Lemma importHistoricalData_preserves options this :
  P (reset this) → P (importHistoricalData w options this).
Proof.
  intros H. unfold importHistoricalData, afterMainLoop.
  by apply allTimeBlock_preserves, timeframeLoop_preserves.
Qed.
End Preserved.

Lemma pushPost_has_id bucket post :
  ∃ e, e ∈ events (pushPost bucket post) ∧ id e = id post.
Proof.
  unfold pushPost. destruct (JS.some _ _) eqn:E.
  - unfold JS.some in E. apply existsb_exists in E as (e & He & Heq).
    exists e. split; [by apply list_elem_of_In | by apply String.eqb_eq].
  - exists post. split; [|done]. cbn [events]. apply elem_of_app. right. by left.
Qed.

Lemma emit_data e this : importedData (emit e this) = importedData this.
Proof. done. Qed.

Lemma processPosts_emit w posts e this :
  importedData (processPosts w posts (emit e this))
  = importedData (processPosts w posts this)
  ∧ clockReads (processPosts w posts (emit e this))
    = clockReads (processPosts w posts this).
Proof.
  unfold processPosts.
  assert (importedData (emit e this) = importedData this
          ∧ clockReads (emit e this) = clockReads this) as H by done.
  revert H. generalize (emit e this). revert this.
  induction posts as [|p posts IH]; intros this this' [Hd Hc]; [done|].
  cbn [foldl]. apply IH. split.
  - by rewrite !processPost_data, Hd, Hc.
  - unfold processPost. cbn [clockReads]. by rewrite Hc.
Qed.

(** Whatever is in a bucket stays there. *)
Lemma processPost_keeps w this post d b e :
  importedData this !! d = Some b → e ∈ events b →
  ∃ b', importedData (processPost w this post) !! d = Some b' ∧ e ∈ events b'.
Proof.
  intros Hb He. rewrite processPost_data.
  destruct (decide (d = clock w (clockReads this))) as [->|Hne].
  - rewrite lookup_insert_eq, Hb. eexists. split; [done|].
    by apply pushPost_events_mono.
  - rewrite lookup_insert_ne by done. eauto.
Qed.

(** Whatever a step adds to a bucket is the post it was given. *)
Lemma processPost_adds w this post d b e :
  importedData (processPost w this post) !! d = Some b → e ∈ events b →
  (∃ b0, importedData this !! d = Some b0 ∧ e ∈ events b0) ∨ e = post.
Proof.
  rewrite processPost_data. intros Hb He.
  destruct (decide (d = clock w (clockReads this))) as [->|Hne].
  - rewrite lookup_insert_eq in Hb. injection Hb as <-.
    apply pushPost_events_inv in He as [He|He]; [|by right].
    destruct (importedData this !! clock w (clockReads this)) as [b0|]; [|by inversion He].
    left. eauto.
  - rewrite lookup_insert_ne in Hb by done. left. eauto.
Qed.

Lemma processPosts_adds w posts this d b e :
  importedData (processPosts w posts this) !! d = Some b → e ∈ events b →
  (∃ b0, importedData this !! d = Some b0 ∧ e ∈ events b0) ∨ e ∈ posts.
Proof.
  unfold processPosts. revert this.
  induction posts as [|p posts IH]; intros this Hb He; cbn [foldl] in Hb.
  - left. eauto.
  - destruct (IH _ Hb He) as [(b1 & Hb1 & He1)|Hin].
    + destruct (processPost_adds _ _ _ _ _ _ Hb1 He1) as [?| ->]; [by left|].
      right. by left.
    + right. by right.
Qed.

(** C10: a post is stored under the day the clock shows when it is
    processed and no other bucket is touched; so a run during which the
    clock shows one day [d] returns a map whose only possible key is [d]. *)
Theorem importHistoricalData_single_day w :
  (∀ this post,
     (∃ b e, importedData (processPost w this post) !! clock w (clockReads this) = Some b
             ∧ e ∈ events b ∧ id e = id post)
     ∧ ∀ d', d' ≠ clock w (clockReads this) →
         importedData (processPost w this post) !! d' = importedData this !! d')
  ∧ ∀ options this d,
      (∀ k, clock w k = d) →
      dom (importedData (importHistoricalData w options this)) ⊆ {[d]}
      ∧ (size (importedData (importHistoricalData w options this)) ≤ 1)%nat.
Proof.
  split.
  - intros this post. split; [|intros; by apply processPost_other].
    rewrite processPost_data, lookup_insert_eq.
    destruct (pushPost_has_id
                (default (emptyDay (clock w (clockReads this)))
                   (importedData this !! clock w (clockReads this))) post)
      as (e & He & Hid).
    eauto.
  - intros options this d Hclock.
    assert (dom (importedData (importHistoricalData w options this)) ⊆ {[d]}) as Hdom.
    { apply (importHistoricalData_preserves w
               (λ st, dom (importedData st) ⊆ ({[d]} : gset string))).
      - done.
      - intros st post Hst. rewrite processPost_data, dom_insert, Hclock.
        apply union_least; [done|exact Hst].
      - cbn. rewrite dom_empty. apply empty_subseteq. }
    split; [done|].
    rewrite <- size_dom. etrans; [apply subseteq_size, Hdom|].
    by rewrite size_singleton.
Qed.

Lemma processPosts_log w posts this : log (processPosts w posts this) = log this.
Proof.
  unfold processPosts. revert this.
  induction posts as [|p posts IH]; intros this; [done|].
  cbn [foldl]. by rewrite IH.
Qed.

Lemma processPosts_keeps w posts this d b e :
  importedData this !! d = Some b → e ∈ events b →
  ∃ b', importedData (processPosts w posts this) !! d = Some b' ∧ e ∈ events b'.
Proof.
  intros Hb He.
  apply (processPosts_preserves w
           (λ st, ∃ b', importedData st !! d = Some b' ∧ e ∈ events b')); [|by eauto].
  intros st post (b' & Hb' & He'). by eapply processPost_keeps.
Qed.

(** Posts with pairwise different ids, none of which is in the accumulator
    yet, all end up in it. *)
Lemma processPosts_stores_all w posts this :
  NoDup (id <$> posts) →
  (∀ d b e, importedData this !! d = Some b → e ∈ events b → id e ∉ id <$> posts) →
  ∀ p, p ∈ posts →
    ∃ d b, importedData (processPosts w posts this) !! d = Some b ∧ p ∈ events b.
Proof.
  revert this. induction posts as [|p0 posts IH]; intros this Hnd Hfresh p Hp.
  { by apply elem_of_nil in Hp. }
  rewrite fmap_cons in Hnd. apply NoDup_cons in Hnd as [Hp0 Hnd].
  set (d0 := clock w (clockReads this)).
  set (cur := default (emptyDay d0) (importedData this !! d0)).
  assert (id p0 ∉ id <$> events cur) as Hcur.
  { subst cur. destruct (importedData this !! d0) as [b0|] eqn:E; cbn.
    - intros (e & Hid & He)%list_elem_of_fmap.
      apply (Hfresh _ _ _ E He). rewrite fmap_cons, <- Hid. by left.
    - apply not_elem_of_nil. }
  assert (∃ b, importedData (processPost w this p0) !! d0 = Some b ∧ p0 ∈ events b)
    as (b1 & Hb1 & Hin1).
  { rewrite processPost_data, lookup_insert_eq. eexists. split; [done|].
    fold d0 cur. rewrite pushPost_fresh by done.
    apply elem_of_app. right. by left. }
  change (processPosts w (p0 :: posts) this)
    with (processPosts w posts (processPost w this p0)).
  apply elem_of_cons in Hp as [->|Hp].
  - exists d0. by eapply processPosts_keeps.
  - apply IH; [done| |done].
    intros d b e Hb He.
    destruct (processPost_adds _ _ _ _ _ _ Hb He) as [(b0 & Hb0 & He0)| ->]; [|done].
    specialize (Hfresh _ _ _ Hb0 He0). rewrite fmap_cons in Hfresh.
    intros Hin. apply Hfresh. by right.
Qed.

(** C5: with subreddits x and y, the single timeframe day and
    [maxPosts: 1], five qualifying posts from x end the loops at once: the
    counter stands at 5, y is never requested, and the five posts (told
    apart by their ids) are all in the returned map. *)
Theorem importHistoricalData_stops_after_x w ms this posts :
  let options :=
    {| timeframes := Some [day]; minScore := ms; maxPosts := Some 1;
       subreddits := Some ["x"; "y"] |} in
  let qualifying :=
    List.filter (λ post, bool_decide (default 1000 ms ≤ postCount post)) posts in
  let final := importHistoricalData w options this in
  getSubredditPosts w "x" day = Some posts →
  length qualifying = 5%nat →
  NoDup (id <$> qualifying) →
  timeframeLoop w [day] ["x"; "y"] (default 1000 ms) 1 [day] (reset this) 0
  = (emit (Delay 2000)
       (processPosts w qualifying
          (emit (GetSubredditPosts "x" day)
             (emit (Progress {| total := 2; current := 1; subreddit := "x (day)";
                                postsFound := 0 |})
                (reset this)))), 5)
  ∧ (∃ trail, log final = log this ++ trail
              ∧ GetSubredditPosts "x" day ∈ trail
              ∧ ∀ t, GetSubredditPosts "y" t ∉ trail)
  ∧ ∀ p, p ∈ qualifying →
      ∃ d b, importedData final !! d = Some b ∧ p ∈ events b.
Proof.
  intros options qualifying final Hx Hlen Hnd.
  assert (timeframeLoop w [day] ["x"; "y"] (default 1000 ms) 1 [day] (reset this) 0
          = (emit (Delay 2000)
               (processPosts w qualifying
                  (emit (GetSubredditPosts "x" day)
                     (emit (Progress {| total := 2; current := 1;
                                        subreddit := "x (day)"; postsFound := 0 |})
                        (reset this)))), 5)) as Hloop.
  { cbn [timeframeLoop]. rewrite decide_False by lia.
    cbn [subredditLoop]. rewrite Hx. fold qualifying. rewrite Hlen.
    rewrite decide_True by lia. reflexivity. }
  split; [exact Hloop|].
  assert (afterMainLoop w options this
          = emit (Delay 2000)
              (processPosts w qualifying
                 (emit (GetSubredditPosts "x" day)
                    (emit (Progress {| total := 2; current := 1;
                                       subreddit := "x (day)"; postsFound := 0 |})
                       (reset this))))) as Hmain.
  { exact (f_equal fst Hloop). }
  split.
  - subst final. unfold importHistoricalData. rewrite Hmain.
    unfold allTimeBlock.
    destruct (getPopularPosts w) as [top|];
      rewrite ?processPosts_log; cbn [log emit reset]; rewrite ?processPosts_log;
      cbn [log emit reset]; rewrite <- !app_assoc; cbn [app];
      eexists; (split; [reflexivity|]); split.
    + apply elem_of_cons; right. by left.
    + intros t Hin. repeat (apply elem_of_cons in Hin as [Hin|Hin]; [done|]).
      by apply elem_of_nil in Hin.
    + apply elem_of_cons; right. by left.
    + intros t Hin. repeat (apply elem_of_cons in Hin as [Hin|Hin]; [done|]).
      by apply elem_of_nil in Hin.
  - intros p Hp.
    destruct (processPosts_stores_all w qualifying
                (emit (GetSubredditPosts "x" day)
                   (emit (Progress {| total := 2; current := 1;
                                      subreddit := "x (day)"; postsFound := 0 |})
                      (reset this))) Hnd) with (p := p) as (d & b & Hb & Hin);
      [by intros d b e Hb; cbn in Hb; rewrite lookup_empty in Hb|done|].
    exists d. subst final. unfold importHistoricalData. rewrite Hmain.
    apply (allTimeBlock_preserves w
             (λ st, ∃ b', importedData st !! d = Some b' ∧ p ∈ events b')).
    + done.
    + intros st post (b' & Hb' & He'). by eapply processPost_keeps.
    + cbn [emit importedData]. eauto.
Qed.

End ImporterFacts.

Lemma importHistoricalData_stops_after_x_witness :
  snd (RedditHistoricalImporter.timeframeLoop Scenario.redditWorld
         [RedditHistoricalImporter.day] ["x"; "y"] 1000 1
         [RedditHistoricalImporter.day]
         (RedditHistoricalImporter.reset Scenario.fresh) 0) = 5
  ∧ ∃ d b,
      RedditHistoricalImporter.importedData
        (RedditHistoricalImporter.importHistoricalData Scenario.redditWorld
           (Scenario.xyDay (Some 1)) Scenario.fresh) !! d = Some b
      ∧ Scenario.x5 ∈ events b.
Proof.
  destruct (importHistoricalData_stops_after_x Scenario.redditWorld None Scenario.fresh
              [Scenario.x1; Scenario.x2; Scenario.x3; Scenario.x4; Scenario.x5;
               Scenario.x6])
    as (Hloop & _ & Hall).
  - reflexivity.
  - reflexivity.
  - refine (bool_decide_unpack _ _). vm_compute. exact I.
  - split.
    + exact (f_equal snd Hloop).
    + apply Hall. refine (bool_decide_unpack _ _). vm_compute. exact I.
Defined.

Lemma importHistoricalData_single_day_witness :
  dom (RedditHistoricalImporter.importedData
         (RedditHistoricalImporter.importHistoricalData Scenario.redditWorld
            (Scenario.xyDay None) Scenario.fresh)) ⊆ {["2024-05-01"]}
  ∧ (size (RedditHistoricalImporter.importedData
             (RedditHistoricalImporter.importHistoricalData Scenario.redditWorld
                (Scenario.xyDay None) Scenario.fresh)) ≤ 1)%nat.
Proof.
  apply (proj2 (importHistoricalData_single_day Scenario.redditWorld)).
  intros k. reflexivity.
Defined.

(** ** The mock table *)

Section MockFacts.
Import MockData.

Lemma createDayData_flag dateStr evs :
  Invariant.flagMatchesEvents (createDayData dateStr evs).
Proof.
  unfold Invariant.flagMatchesEvents, createDayData. cbn [events hasViralContent].
  apply bool_decide_ext.
  pose proof (sort_length byRankAsc evs) as Hlen.
  destruct (JS.sort byRankAsc evs), evs; cbn [length] in *; done.
Qed.

Lemma createDayData_topHashtag dateStr evs :
  Invariant.topHashtagOfTopEvent (createDayData dateStr evs).
Proof.
  unfold Invariant.topHashtagOfTopEvent, Invariant.topEvent, createDayData.
  cbn [events topHashtag].
  rewrite (sort_sorted byRankAsc (JS.sort byRankAsc evs)); [done|].
  eapply StronglySorted_weaken;
    [|apply (sort_is_sorted byRankAsc trendingRank);
      intros a b; unfold byRankAsc; lia].
  intros a b Hab; cbv beta in *. unfold byRankAsc. lia.
Qed.

(** Every bucket of the table was made by [createDayData]. *)
Lemma viralData_entries sampleEvents generateRandomEvents additionalDates :
  map_Forall (λ _ b, ∃ d evs, b = createDayData d evs)
    (viralData sampleEvents generateRandomEvents additionalDates).
Proof.
  unfold viralData.
  assert (map_Forall (λ _ b, ∃ d evs, b = createDayData d evs)
            (map_imap (λ d evs, Some (createDayData d evs)) sampleEvents)) as Hbase.
  { intros d b Hb. rewrite map_lookup_imap in Hb.
    destruct (sampleEvents !! d) as [evs|]; [|done].
    injection Hb as <-. eauto. }
  revert Hbase. generalize (map_imap (λ d evs, Some (createDayData d evs)) sampleEvents).
  induction additionalDates as [|d ds IH]; intros vd Hvd; [done|].
  cbn [foldl]. apply IH. destruct (vd !! d); [done|].
  apply map_Forall_insert_2; eauto.
Qed.

End MockFacts.

(** ** The remote store readers *)

Section SupabaseFacts.
Import Supabase.

Lemma groupRows_flag index rows grouped :
  map_Forall (λ _ b, Invariant.flagMatchesEvents b) grouped →
  map_Forall (λ _ b, Invariant.flagMatchesEvents b) (groupRows index rows grouped).
Proof.
  revert index grouped. induction rows as [|row rows IH]; intros index grouped H; [done|].
  cbn [groupRows]. apply IH.
  apply map_Forall_insert_2.
  - unfold Invariant.flagMatchesEvents. cbn [events hasViralContent].
    symmetry. apply bool_decide_eq_true_2.
    by destruct (events _).
  - destruct (grouped !! published_date row); [done|].
    apply map_Forall_insert_2; [done|exact H].
Qed.

(** The buckets of [getAll] are placeholders: flagged, and without events. *)
Lemma getAll_placeholders resp m :
  dailySummariesApi.getAll resp = Some m →
  map_Forall (λ _ b, events b = [] ∧ hasViralContent b = true) m.
Proof.
  unfold dailySummariesApi.getAll. destruct (error resp); [done|].
  intros [= <-]. generalize (default [] (data resp)). intros rows.
  assert (map_Forall (λ _ b, events b = [] ∧ hasViralContent b = true)
            (∅ : gmap string DayData)) as H0 by apply map_Forall_empty.
  revert H0. generalize (∅ : gmap string DayData).
  induction rows as [|row rows IH]; intros acc Hacc; [done|].
  cbn [foldl]. apply IH. by apply map_Forall_insert_2.
Qed.

End SupabaseFacts.

(** ** Where the invariants of the specification hold and where they do not *)

(** C1, on the importer.  First, the import of the example (r/x, r/y, then
    the all-time listing, all on one day) leaves a bucket whose first,
    best-scored and highest-ranked event is the top post of r/x, while
    [topHashtag] is the hashtag of the last rank-1 post merged, the one of
    the all-time listing.  Second, when the posts that pass the score filter
    are the third of one listing and then the second of another, the bucket
    keeps the hashtag of the first post merged although the other one ranks
    higher. *)
Theorem importHistoricalData_topHashtag_drifts :
  (∃ b,
     RedditHistoricalImporter.importedData
       (RedditHistoricalImporter.importHistoricalData Scenario.redditWorld
          (Scenario.xyDay None) Scenario.fresh) !! "2024-05-01" = Some b
     ∧ events b = [Scenario.x1; Scenario.x2; Scenario.x3; Scenario.x4; Scenario.x5;
                   Scenario.y1; Scenario.t1]
     ∧ Invariant.topEvent b = Some Scenario.x1
     ∧ hashtag Scenario.x1 = Some "#r/x"
     ∧ topHashtag b = Some "#r/pics"
     ∧ ¬ Invariant.topHashtagOfTopEvent b)
  ∧ (∃ b,
       RedditHistoricalImporter.importedData
         (RedditHistoricalImporter.processPosts Scenario.redditWorld
            [Scenario.x3; Scenario.y2] Scenario.fresh) !! "2024-05-01" = Some b
       ∧ events b = [Scenario.x3; Scenario.y2]
       ∧ Invariant.topEvent b = Some Scenario.y2
       ∧ hashtag Scenario.y2 = Some "#r/y"
       ∧ topHashtag b = Some "#r/x"
       ∧ ¬ Invariant.topHashtagOfTopEvent b).
Proof.
  split.
  - eexists. split; [vm_compute; reflexivity|].
    repeat split; try reflexivity.
    unfold Invariant.topHashtagOfTopEvent. vm_compute. discriminate.
  - eexists. split; [vm_compute; reflexivity|].
    repeat split; try reflexivity.
    unfold Invariant.topHashtagOfTopEvent. vm_compute. discriminate.
Qed.

(** The sibling paths: the aggregator's bucket and the buckets of the mock
    table do carry the hashtag of their top event. *)
Lemma topHashtag_aggregator_and_mock :
  (∀ up opts d b,
     NewsAggregator.fetchViralContent up opts !! d = Some b →
     Invariant.topHashtagOfTopEvent b)
  ∧ (∀ sampleEvents generateRandomEvents additionalDates d b,
       MockData.viralData sampleEvents generateRandomEvents additionalDates !! d = Some b →
       Invariant.topHashtagOfTopEvent b).
Proof.
  split.
  - intros up opts d b Hb. unfold NewsAggregator.fetchViralContent in Hb.
    apply lookup_singleton_Some in Hb as [_ <-]. apply bucket_topHashtag.
  - intros s g ds d b Hb.
    destruct (viralData_entries s g ds d b Hb) as (d' & evs & ->).
    apply createDayData_topHashtag.
Qed.

(** C2, on the date-range reader: for the two rows of the example, one per
    day, the bucket of the second day holds a single event, and its rank is
    2, the row's position in the whole answer. *)
Theorem getByDateRange_rank_is_global_index :
  ∃ m b,
    Supabase.viralEventsApi.getByDateRange
      {| Supabase.data := Some Scenario.rows; Supabase.error := None |} = Some m
    ∧ m !! "2024-01-02" = Some b
    ∧ events b = [with_trendingRank Scenario.y1 2]
    ∧ ¬ Invariant.ranksContiguous b.
Proof.
  eexists _, _. split; [reflexivity|]. split; [vm_compute; reflexivity|].
  split; [reflexivity|]. unfold Invariant.ranksContiguous. vm_compute. discriminate.
Qed.

Lemma importHistoricalData_flag w options this :
  map_Forall (λ _ b, Invariant.flagMatchesEvents b)
    (RedditHistoricalImporter.importedData
       (RedditHistoricalImporter.importHistoricalData w options this)).
Proof.
  apply (importHistoricalData_preserves w
           (λ st, map_Forall (λ _ b, Invariant.flagMatchesEvents b)
                    (RedditHistoricalImporter.importedData st))).
  - done.
  - intros st post Hst. rewrite processPost_data.
    apply map_Forall_insert_2; [|done]. apply pushPost_flag.
    destruct (RedditHistoricalImporter.importedData st !! _) as [b|] eqn:E; cbn.
    + by apply (Hst _ _ E).
    + done.
  - apply map_Forall_empty.
Qed.

Lemma filterNewsOnly_flag data :
  map_Forall (λ _ b, Invariant.flagMatchesEvents b) data →
  map_Forall (λ _ b, Invariant.flagMatchesEvents b)
    (RedditHistoricalImporter.filterNewsOnly data).
Proof.
  intros Hdata d b Hb. unfold RedditHistoricalImporter.filterNewsOnly in Hb.
  rewrite lookup_omap in Hb.
  destruct (data !! d) as [b0|] eqn:E; [|done]. cbn in Hb.
  case_decide as Hlen; [|done]. injection Hb as <-.
  specialize (Hdata d b0 E). unfold Invariant.flagMatchesEvents in *.
  cbn [events hasViralContent]. rewrite Hdata.
  apply bool_decide_ext.
  pose proof (sort_length MockData.byRankAsc
                (List.filter RedditHistoricalImporter.isNews (events b0))) as Hs.
  split; intros _.
  - destruct (JS.sort _ _); [cbn in Hs; lia|done].
  - destruct (events b0); [cbn in Hlen; lia|done].
Qed.

(** C8 as stated fails on the summary reader: [getAll] answers buckets that
    are flagged although their event list is empty. *)
Lemma hasViralContent_getAll_counterexample :
  ¬ (∀ resp m d b,
       Supabase.dailySummariesApi.getAll resp = Some m →
       m !! d = Some b →
       Invariant.flagMatchesEvents b).
Proof.
  intros H.
  specialize (H {| Supabase.data := Some Scenario.summaries; Supabase.error := None |}
                _ "2024-01-01" _ eq_refl ltac:(vm_compute; reflexivity)).
  vm_compute in H. discriminate.
Qed.

(** C8, amended: in the buckets built by the mock table, the aggregator,
    the importer (also after [filterNewsOnly]) and the date-range reader the
    flag says whether there are events; the summary readers do not derive
    it from the events: the buckets of [getAll] are flagged and hold no
    events, and [getByDate] copies the flag of the summary row. *)
Theorem hasViralContent_by_component :
  (∀ dateStr evs, Invariant.flagMatchesEvents (MockData.createDayData dateStr evs))
  ∧ (∀ sampleEvents generateRandomEvents additionalDates d b,
       MockData.viralData sampleEvents generateRandomEvents additionalDates !! d = Some b →
       Invariant.flagMatchesEvents b)
  ∧ (∀ up opts d b,
       NewsAggregator.fetchViralContent up opts !! d = Some b →
       Invariant.flagMatchesEvents b)
  ∧ (∀ w options this d b,
       RedditHistoricalImporter.importedData
         (RedditHistoricalImporter.importHistoricalData w options this) !! d = Some b →
       Invariant.flagMatchesEvents b)
  ∧ (∀ w options this d b,
       RedditHistoricalImporter.filterNewsOnly
         (RedditHistoricalImporter.importedData
            (RedditHistoricalImporter.importHistoricalData w options this)) !! d = Some b →
       Invariant.flagMatchesEvents b)
  ∧ (∀ resp m d b,
       Supabase.viralEventsApi.getByDateRange resp = Some m →
       m !! d = Some b →
       Invariant.flagMatchesEvents b)
  ∧ (∀ resp m d b,
       Supabase.dailySummariesApi.getAll resp = Some m →
       m !! d = Some b →
       events b = [] ∧ hasViralContent b = true)
  ∧ (∀ summaryResp eventsResp b,
       Supabase.dailySummariesApi.getByDate summaryResp eventsResp = Some (Some b) →
       ∃ row, Supabase.data summaryResp = Some row
              ∧ hasViralContent b = Supabase.has_viral_content row).
Proof.
  split; [|split; [|split; [|split; [|split; [|split; [|split]]]]]].
  - apply createDayData_flag.
  - intros s g ds d b Hb.
    destruct (viralData_entries s g ds d b Hb) as (d' & evs & ->).
    apply createDayData_flag.
  - intros up opts d b Hb. unfold NewsAggregator.fetchViralContent in Hb.
    apply lookup_singleton_Some in Hb as [_ <-]. apply bucket_flag.
  - intros w options this d b Hb. by apply (importHistoricalData_flag w options this d).
  - intros w options this d b Hb.
    by apply (filterNewsOnly_flag _ (importHistoricalData_flag w options this) d).
  - intros resp m d b Hm Hb. unfold Supabase.viralEventsApi.getByDateRange in Hm.
    destruct (Supabase.error resp); [done|]. injection Hm as <-.
    eapply (groupRows_flag 0 _ ∅); [apply map_Forall_empty|exact Hb].
  - intros resp m d b Hm Hb. exact (getAll_placeholders resp m Hm d b Hb).
  - intros summaryResp eventsResp b.
    unfold Supabase.dailySummariesApi.getByDate.
    destruct (Supabase.error summaryResp); [done|].
    destruct (Supabase.data summaryResp) as [row|]; [|done].
    destruct (Supabase.viralEventsApi.getByDate eventsResp) as [evs|]; [|done].
    cbn. intros [= <-]. eauto.
Qed.

Lemma hasViralContent_by_component_witness :
  Invariant.flagMatchesEvents
    {| date := "2024-05-01";
       events := [Scenario.x1; Scenario.x2; Scenario.x3; Scenario.x4; Scenario.x5;
                  Scenario.t1];
       hasViralContent := true;
       topHashtag := Some "#r/pics" |}.
Proof.
  apply (proj1 (proj2 (proj2 (proj2 hasViralContent_by_component)))
           Scenario.redditWorld (Scenario.xyDay (Some 1)) Scenario.fresh "2024-05-01").
  vm_compute. reflexivity.
Defined.

(** ** The durable cache *)

Section StorageFacts.
Import RedditHistoricalImporter.

(** C9: when the cached item parses (or is absent or empty) and the write
    is accepted, the cache afterwards holds, under every date of the new map,
    the new map's bucket as it is, and under every other date what it held
    before. *)
Theorem saveToStorage_shallow_merge data ls :
  item ls ≠ Garbled → writable ls = true →
  (∀ k b, data !! k = Some b →
     loadFromStorage (saveToStorage data ls) !! k = Some b)
  ∧ (∀ k, data !! k = None →
       loadFromStorage (saveToStorage data ls) !! k = loadFromStorage ls !! k).
Proof.
  intros Hitem Hw. unfold saveToStorage, loadFromStorage.
  destruct (item ls) as [| |m|] eqn:E; [| | |done]; rewrite Hw; cbn [item].
  - split.
    + intros k b Hk. by apply lookup_union_Some_l.
    + intros k Hk. by rewrite lookup_union_r.
  - split.
    + intros k b Hk. by apply lookup_union_Some_l.
    + intros k Hk. by rewrite lookup_union_r.
  - split.
    + intros k b Hk. by apply lookup_union_Some_l.
    + intros k Hk. by rewrite lookup_union_r.
Qed.

(** When the item is parsed and rejected, or the write is refused, the
    exception is caught and the cache stays as it was. *)
Lemma saveToStorage_failure data ls :
  item ls = Garbled ∨ writable ls = false → saveToStorage data ls = ls.
Proof.
  unfold saveToStorage. intros [->| ->]; [done|]. by destruct (item ls).
Qed.

End StorageFacts.

Lemma saveToStorage_shallow_merge_witness :
  RedditHistoricalImporter.loadFromStorage
    (RedditHistoricalImporter.saveToStorage
       {[ "2024-01-01" := Scenario.importedDay ]}
       {| RedditHistoricalImporter.item :=
            RedditHistoricalImporter.Stored
              {[ "2024-01-01" := Scenario.cachedDay; "2024-01-02" := Scenario.otherDay ]};
          RedditHistoricalImporter.writable := true |}) !! "2024-01-01"
  = Some Scenario.importedDay.
Proof.
  apply (saveToStorage_shallow_merge
           {[ "2024-01-01" := Scenario.importedDay ]}
           {| RedditHistoricalImporter.item :=
                RedditHistoricalImporter.Stored
                  {[ "2024-01-01" := Scenario.cachedDay;
                     "2024-01-02" := Scenario.otherDay ]};
              RedditHistoricalImporter.writable := true |}).
  - discriminate.
  - reflexivity.
  - vm_compute. reflexivity.
Defined.

(** ** The fallback read path *)

(** C3: for a date the mock table knows, the read hooks answer the mock
    bucket when no cache holds the date, and a cached bucket when one does:
    the historical one first.  In [useRedditData] this is the path taken
    when the live data has no entry for the date; the asynchronous
    [getDayData] of [useSupabaseData] takes the path of [getDayDataSync]
    whenever the remote store is not the source, fails, or has no row. *)
Theorem fallback_local_before_mock mockTable dateStr m :
  mockTable !! dateStr = Some m →
  (∀ s, useRedditData.liveData s !! dateStr = None →
     (useRedditData.historicalData s !! dateStr = None →
      useRedditData.getDayData mockTable s dateStr = Some m)
     ∧ (∀ h, useRedditData.historicalData s !! dateStr = Some h →
          useRedditData.getDayData mockTable s dateStr = Some h))
  ∧ (∀ s,
       (useSupabaseData.historicalData s !! dateStr = None →
        useSupabaseData.localData s !! dateStr = None →
        useSupabaseData.getDayDataSync mockTable s dateStr = Some m)
       ∧ (∀ h, useSupabaseData.historicalData s !! dateStr = Some h →
            useSupabaseData.getDayDataSync mockTable s dateStr = Some h)
       ∧ (∀ l, useSupabaseData.historicalData s !! dateStr = None →
            useSupabaseData.localData s !! dateStr = Some l →
            useSupabaseData.getDayDataSync mockTable s dateStr = Some l)
       ∧ (∀ remote,
            useSupabaseData.source s ≠ useSupabaseData.supabase
            ∨ remote = None ∨ remote = Some None →
            useSupabaseData.getDayData mockTable s remote dateStr
            = useSupabaseData.getDayDataSync mockTable s dateStr)).
Proof.
  intros Hm. split.
  - intros s Hlive. unfold useRedditData.getDayData. rewrite Hlive.
    split; [intros ->; exact Hm | by intros h ->].
  - intros s. unfold useSupabaseData.getDayDataSync, MockData.getDayData, or_else.
    split; [by intros -> ->|]. split; [by intros h ->|].
    split; [by intros l -> ->|].
    intros remote Hremote. unfold useSupabaseData.getDayData, MockData.getDayData.
    assert (∀ fb : option DayData,
              (if decide (useSupabaseData.source s = useSupabaseData.supabase)
               then match remote with
                    | Some (Some d) => Some d
                    | _ => fb
                    end
               else fb) = fb) as Hfall.
    { intros fb. case_decide; [|done].
      by destruct Hremote as [?|[->| ->]]. }
    rewrite Hfall.
    by destruct (useSupabaseData.historicalData s !! dateStr),
                (useSupabaseData.localData s !! dateStr).
Qed.

Lemma fallback_local_before_mock_witness :
  useRedditData.getDayData Scenario.mockTable Scenario.redditCached "2024-01-01"
  = Some Scenario.cachedDay
  ∧ useSupabaseData.getDayDataSync Scenario.mockTable Scenario.supabaseEmpty "2024-01-01"
    = Some Scenario.mockDay.
Proof.
  assert (Scenario.mockTable !! "2024-01-01" = Some Scenario.mockDay) as Hmock
    by (vm_compute; reflexivity).
  destruct (fallback_local_before_mock _ _ _ Hmock) as [Hreddit Hsupabase].
  split.
  - apply (proj2 (Hreddit Scenario.redditCached ltac:(vm_compute; reflexivity))).
    vm_compute; reflexivity.
  - apply (proj1 (Hsupabase Scenario.supabaseEmpty)); vm_compute; reflexivity.
Defined.

(** * Further properties of the code around the claims *)

(** ** Deduplication and the aggregator's results *)

Section AggregatorMore.
Import NewsAggregator.

(** What the loop of [removeDuplicates] keeps, for any set of keys already
    seen: events with new, pairwise different keys, each one the first of
    its key, and some event for every key that was not seen. *)
Lemma removeDuplicates_loop_spec seen l :
  let out := removeDuplicates_loop seen [] l in
  NoDup (dedupKey <$> out)
  ∧ (∀ e, e ∈ out → dedupKey e ∉ seen)
  ∧ (∀ e, e ∈ out →
       ∃ pre post, l = pre ++ e :: post ∧ dedupKey e ∉ dedupKey <$> pre)
  ∧ (∀ e, e ∈ l → dedupKey e ∈ seen ∨ dedupKey e ∈ dedupKey <$> out).
Proof.
  revert seen. induction l as [|x l IH]; intros seen; cbv zeta.
  { cbn. split; [constructor|]. split; [by intros e ?%elem_of_nil|].
    split; [by intros e ?%elem_of_nil|]. by intros e ?%elem_of_nil. }
  cbn [removeDuplicates_loop]. case_decide as Hx.
  - destruct (IH seen) as (Hnd & Hnew & Hfirst & Hcov).
    split; [done|]. split; [done|]. split.
    + intros e He. destruct (Hfirst e He) as (pre & post & -> & Hpre).
      exists (x :: pre), post. split; [done|].
      rewrite fmap_cons, not_elem_of_cons. split; [|done].
      intros Heq. apply (Hnew e He). by rewrite Heq.
    + intros e [->|He]%elem_of_cons; [by left|by apply Hcov].
  - rewrite removeDuplicates_loop_unique. cbn [app].
    destruct (IH ({[dedupKey x]} ∪ seen)) as (Hnd & Hnew & Hfirst & Hcov).
    split; [|split; [|split]].
    + rewrite fmap_cons. apply NoDup_cons. split; [|done].
      intros (e & Heq & He)%list_elem_of_fmap.
      apply (Hnew e He). rewrite <- Heq. apply elem_of_union_l. by apply elem_of_singleton.
    + intros e [->|He]%elem_of_cons; [done|].
      intros Hin. apply (Hnew e He). by apply elem_of_union_r.
    + intros e [->|He]%elem_of_cons.
      * exists [], l. split; [done|]. apply not_elem_of_nil.
      * destruct (Hfirst e He) as (pre & post & -> & Hpre).
        exists (x :: pre), post. split; [done|].
        rewrite fmap_cons, not_elem_of_cons. split; [|done].
        intros Heq. apply (Hnew e He). rewrite Heq.
        apply elem_of_union_l. by apply elem_of_singleton.
    + intros e [->|He]%elem_of_cons.
      * right. rewrite fmap_cons. by left.
      * destruct (Hcov e He) as [[Hk|Hk]%elem_of_union|Hk].
        -- apply elem_of_singleton in Hk. right. rewrite fmap_cons, Hk. by left.
        -- by left.
        -- right. rewrite fmap_cons. by right.
Qed.

(** A list whose keys are new and pairwise different passes the loop
    unchanged. *)
Lemma removeDuplicates_loop_id seen l :
  NoDup (dedupKey <$> l) → (∀ e, e ∈ l → dedupKey e ∉ seen) →
  removeDuplicates_loop seen [] l = l.
Proof.
  revert seen. induction l as [|x l IH]; intros seen Hnd Hnew; [done|].
  rewrite fmap_cons in Hnd. apply NoDup_cons in Hnd as [Hx Hnd].
  cbn [removeDuplicates_loop].
  rewrite decide_False by (apply Hnew; by left).
  rewrite removeDuplicates_loop_unique. cbn [app]. f_equal.
  apply IH; [done|]. intros e He [Hk|Hk]%elem_of_union.
  - apply elem_of_singleton in Hk. apply Hx. rewrite <- Hk.
    apply list_elem_of_fmap. eauto.
  - apply (Hnew e); [by right|done].
Qed.

(** X1: [removeDuplicates] returns events with pairwise different keys, in
    input order; each is the first input event of its key, and every input
    event has its key among them. *)
Theorem removeDuplicates_first_of_each_key (events : list ViralEvent) :
  NoDup (dedupKey <$> removeDuplicates events)
  ∧ sublist (removeDuplicates events) events
  ∧ (∀ e, e ∈ removeDuplicates events →
       ∃ pre post, events = pre ++ e :: post ∧ dedupKey e ∉ dedupKey <$> pre)
  ∧ (∀ e, e ∈ events → dedupKey e ∈ dedupKey <$> removeDuplicates events).
Proof.
  unfold removeDuplicates.
  destruct (removeDuplicates_loop_spec ∅ events) as (Hnd & _ & Hfirst & Hcov).
  split; [done|]. split; [apply removeDuplicates_loop_sublist|]. split; [done|].
  intros e He. destruct (Hcov e He) as [Hk|Hk]; [|done].
  by apply not_elem_of_empty in Hk.
Qed.

(** X2: deduplicating twice changes nothing, and a list without two equal
    keys is returned as it is. *)
Theorem removeDuplicates_idempotent (events : list ViralEvent) :
  removeDuplicates (removeDuplicates events) = removeDuplicates events
  ∧ (NoDup (dedupKey <$> events) → removeDuplicates events = events).
Proof.
  split.
  - unfold removeDuplicates at 1. apply removeDuplicates_loop_id.
    + apply (removeDuplicates_loop_spec ∅ events).
    + intros e _. apply not_elem_of_empty.
  - intros Hnd. apply removeDuplicates_loop_id; [done|].
    intros e _. apply not_elem_of_empty.
Qed.

End AggregatorMore.

Lemma removeDuplicates_idempotent_witness :
  NewsAggregator.removeDuplicates [Scenario.a; Scenario.x1]
  = [Scenario.a; Scenario.x1].
Proof.
  apply (proj2 (removeDuplicates_idempotent [Scenario.a; Scenario.x1])).
  refine (bool_decide_unpack _ _). vm_compute. exact I.
Defined.

Lemma removeDuplicates_first_of_each_key_witness :
  NewsAggregator.dedupKey Scenario.b
  ∈ NewsAggregator.dedupKey <$> NewsAggregator.removeDuplicates [Scenario.a; Scenario.b].
Proof.
  apply (proj2 (proj2 (proj2
           (removeDuplicates_first_of_each_key [Scenario.a; Scenario.b])))).
  refine (bool_decide_unpack _ _). vm_compute. exact I.
Defined.

Section KeyFacts.
Import NewsAggregator.

Lemma substring0_length n s : (String.length (JS.substring0 n s) ≤ n)%nat.
Proof.
  unfold JS.substring0. revert s. induction n as [|n IH]; intros [|c s]; cbn; try lia.
  specialize (IH s). lia.
Qed.

Lemma substring0_short n s : (String.length s ≤ n)%nat → JS.substring0 n s = s.
Proof.
  unfold JS.substring0. revert s.
  induction n as [|n IH]; intros [|c s] Hlen; cbn in *; try done; try lia.
  f_equal. apply IH. lia.
Qed.

Lemma substring0_Forall (P : ascii → Prop) n s :
  Forall P (list_ascii_of_string s) →
  Forall P (list_ascii_of_string (JS.substring0 n s)).
Proof.
  unfold JS.substring0. revert s.
  induction n as [|n IH]; intros [|c s] H; cbn in *; try (by constructor).
  apply Forall_cons in H as [Hc Hs]. constructor; [done|]. by apply IH.
Qed.

Lemma strip_non_alnum_Forall s :
  Forall (λ c, keyChar c = true) (list_ascii_of_string (JS.strip_non_alnum s)).
Proof.
  induction s as [|c s IH]; cbn; [constructor|].
  destruct (JS.in_range "a" "z" c || JS.in_range "0" "9" c) eqn:E; [|done].
  cbn. constructor; done.
Qed.

Lemma keyChar_lower c : keyChar c = true → JS.toLowerCase_unit c = c.
Proof.
  unfold keyChar, JS.toLowerCase_unit, JS.in_range.
  change (nat_of_ascii "a") with 97%nat. change (nat_of_ascii "z") with 122%nat.
  change (nat_of_ascii "0") with 48%nat. change (nat_of_ascii "9") with 57%nat.
  change (nat_of_ascii "A") with 65%nat. change (nat_of_ascii "Z") with 90%nat.
  generalize (nat_of_ascii c). intros n H.
  destruct (Nat.leb_spec 65 n), (Nat.leb_spec n 90); cbn; try done.
  exfalso.
  destruct (Nat.leb_spec 97 n), (Nat.leb_spec n 122), (Nat.leb_spec 48 n),
    (Nat.leb_spec n 57); cbn in H; try done; lia.
Qed.

(** A string made of key units is left alone by the first two steps. *)
Lemma normalise_key_units s :
  Forall (λ c, keyChar c = true) (list_ascii_of_string s) →
  JS.strip_non_alnum (JS.toLowerCase s) = s.
Proof.
  induction s as [|c s IH]; cbn; [done|].
  intros [Hc Hs]%Forall_cons. rewrite (keyChar_lower c Hc).
  unfold keyChar in Hc. rewrite Hc. f_equal. by apply IH.
Qed.

(** X3: a key has at most 30 code units, all of them lower-case letters
    or digits, and is its own key: an event whose title is the key of
    another event has the same key. *)
Theorem dedupKey_normal_form (e : ViralEvent) :
  (String.length (dedupKey e) ≤ 30)%nat
  ∧ Forall (λ c, keyChar c = true) (list_ascii_of_string (dedupKey e))
  ∧ ∀ e', title e' = dedupKey e → dedupKey e' = dedupKey e.
Proof.
  split; [apply substring0_length|]. split.
  - apply substring0_Forall, strip_non_alnum_Forall.
  - intros e' He'. unfold dedupKey at 1. rewrite He'.
    rewrite normalise_key_units
      by apply substring0_Forall, strip_non_alnum_Forall.
    apply substring0_short, substring0_length.
Qed.

End KeyFacts.

Lemma dedupKey_normal_form_witness :
  NewsAggregator.dedupKey
    {| id := "k"; title := "breakingnewstoday"; summary := ""; postCount := 0;
       hashtag := None; type := news; trendingRank := 1 |}
  = NewsAggregator.dedupKey Scenario.a.
Proof.
  apply (proj2 (proj2 (dedupKey_normal_form Scenario.a))). reflexivity.
Defined.

Section AggregatorResults.
Import NewsAggregator.

Lemma slice0_sublist {A} n (l : list A) : sublist (JS.slice0 n l) l.
Proof. destruct (slice0_take n l) as [k ->]. apply sublist_take. Qed.

Lemma slice0_length {A} n (l : list A) :
  0 ≤ n → Z.of_nat (length (JS.slice0 n l)) ≤ n.
Proof.
  intros Hn. unfold JS.slice0. rewrite decide_False by lia.
  rewrite length_take. lia.
Qed.

Lemma slice0_nil {A} n : JS.slice0 n ([] : list A) = [].
Proof. destruct (slice0_take n ([] : list A)) as [k ->]. by destruct k. Qed.

(** The best [n] of a list by score: what [sort] then [slice] leave. *)
Lemma top_descending n (u : list ViralEvent) :
  Invariant.scoreDescending (JS.slice0 n (JS.sort byScoreDesc u)).
Proof.
  unfold Invariant.scoreDescending.
  destruct (slice0_take n (JS.sort byScoreDesc u)) as [k ->].
  pose proof (sort_is_sorted byScoreDesc (λ e, - postCount e)) as Hs.
  specialize (Hs ltac:(intros a b; unfold byScoreDesc; lia) u).
  rewrite <- (take_drop k (JS.sort byScoreDesc u)) in Hs.
  apply StronglySorted_app_1_l in Hs.
  eapply StronglySorted_weaken; [|exact Hs]. intros a b Hab; cbv beta in *; lia.
Qed.

Lemma top_elem_of n (u : list ViralEvent) e :
  e ∈ JS.slice0 n (JS.sort byScoreDesc u) → e ∈ u.
Proof.
  intros He. eapply elem_of_sublist in He; [|apply slice0_sublist].
  by rewrite sort_perm in He.
Qed.

Lemma top_NoDup {B} (f : ViralEvent → B) n (u : list ViralEvent) :
  NoDup (f <$> u) → NoDup (f <$> JS.slice0 n (JS.sort byScoreDesc u)).
Proof.
  intros Hnd. eapply sublist_NoDup.
  - rewrite <- (sort_perm byScoreDesc u) in Hnd. exact Hnd.
  - apply fmap_sublist, slice0_sublist.
Qed.

Lemma removeDuplicates_elem_of l e : e ∈ removeDuplicates l → e ∈ l.
Proof. intros He. eapply elem_of_sublist; [exact He|apply removeDuplicates_loop_sublist]. Qed.

Lemma selectEvents_elem_of opts l e :
  e ∈ selectEvents opts l →
  e ∈ l ∧ default 500 (minScore opts) ≤ postCount e
  ∧ (default true (newsOnly opts) = true → isNews e = true).
Proof.
  unfold selectEvents. intros He%top_elem_of%removeDuplicates_elem_of.
  destruct (default true (newsOnly opts)).
  - apply list_elem_of_In, filter_In in He as [He Hnews].
    apply filter_In in He as [He Hsc]. apply bool_decide_eq_true_1 in Hsc.
    split; [by apply list_elem_of_In|]. done.
  - apply list_elem_of_In, filter_In in He as [He Hsc].
    apply bool_decide_eq_true_1 in Hsc.
    split; [by apply list_elem_of_In|]. done.
Qed.

Lemma selectEvents_NoDup opts l : NoDup (dedupKey <$> selectEvents opts l).
Proof.
  unfold selectEvents. apply top_NoDup.
  apply (removeDuplicates_loop_spec ∅).
Qed.

Lemma rerank_keys (l : list ViralEvent) :
  dedupKey <$> imap (λ i e, with_trendingRank e (Z.of_nat i + 1)) l = dedupKey <$> l.
Proof.
  rewrite fmap_imap. rewrite (imap_ext _ (λ _ e, dedupKey e)) by done.
  apply imap_const.
Qed.

(** X4: the map of the aggregator has one key, today; its bucket holds at
    most [maxResults] events (for a [maxResults] that is not negative), no
    two with the same key; each is a collected event under a new rank,
    reaches [minScore] and, unless [newsOnly] is off, passes the news
    filter. *)
Theorem fetchViralContent_result up opts d b :
  fetchViralContent up opts !! d = Some b →
  d = today up ∧ date b = today up
  ∧ NoDup (dedupKey <$> events b)
  ∧ (0 ≤ default 100 (maxResults opts) →
     Z.of_nat (length (events b)) ≤ default 100 (maxResults opts))
  ∧ ∀ e, e ∈ events b →
      default 500 (minScore opts) ≤ postCount e
      ∧ (default true (newsOnly opts) = true → isNews e = true)
      ∧ ∃ e0, e0 ∈ collect up (default [reddit; hackernews] (sources opts))
              ∧ e = with_trendingRank e0 (trendingRank e).
Proof.
  unfold fetchViralContent. intros Hb.
  apply lookup_singleton_Some in Hb as [<- <-].
  set (all := collect up (default [reddit; hackernews] (sources opts))).
  split; [done|]. split; [done|]. unfold bucket. cbn [events].
  split; [rewrite rerank_keys; apply selectEvents_NoDup|]. split.
  - intros Hmax. rewrite length_imap. unfold selectEvents. by apply slice0_length.
  - intros e (i & e0 & -> & Hi)%elem_of_lookup_imap_1.
    apply list_elem_of_lookup_2 in Hi.
    destruct (selectEvents_elem_of _ _ _ Hi) as (Hin & Hsc & Hnews).
    split; [done|]. split; [done|]. by exists e0.
Qed.

(** X5: when the popular listing of Reddit and the top stories of Hacker
    News fail and NewsAPI is not configured or fails too, the aggregator
    still answers a map with today's key: an unflagged bucket without events
    and without hashtag, whatever the news subreddits would have answered. *)
Theorem fetchViralContent_all_sources_down up opts :
  getPopularPosts up = None → getTopStories up = None →
  newsApi_isConfigured up = false ∨ getTopHeadlines up = None →
  fetchViralContent up opts
  = {[ today up := {| date := today up; events := [];
                      hasViralContent := false; topHashtag := None |} ]}.
Proof.
  intros Hpop Hhn Hnews.
  assert (∀ srcs, collect up srcs = []) as Hcol.
  { intros srcs. unfold collect. rewrite Hpop, Hhn.
    destruct Hnews as [Hc|Hh]; rewrite ?Hc, ?Hh;
      destruct (wants srcs reddit), (wants srcs hackernews), (wants srcs newsapi);
      cbn; try done; by destruct (newsApi_isConfigured up). }
  unfold fetchViralContent. rewrite Hcol.
  assert (selectEvents opts [] = []) as ->.
  { unfold selectEvents. cbn [List.filter].
    destruct (default true (newsOnly opts)); cbn [List.filter];
      apply slice0_nil. }
  done.
Qed.

(** X6: a search answers at most [maxResults] events (for a [maxResults]
    that is not negative), in descending score order and with pairwise
    different keys; each is an event of an answering client as that client
    ranked it; and when no client answers the result is empty. *)
Theorem searchAllSources_result up maxResults :
  Invariant.scoreDescending (searchAllSources up maxResults)
  ∧ NoDup (dedupKey <$> searchAllSources up maxResults)
  ∧ (0 ≤ default 30 maxResults →
     Z.of_nat (length (searchAllSources up maxResults)) ≤ default 30 maxResults)
  ∧ (∀ e, e ∈ searchAllSources up maxResults →
       (∃ l, searchPosts up = Some l ∧ e ∈ l)
       ∨ (search_isConfigured up = true ∧ ∃ l, searchNews up = Some l ∧ e ∈ l)
       ∨ (∃ l, searchStories up = Some l ∧ e ∈ l))
  ∧ (searchPosts up = None → searchStories up = None →
     search_isConfigured up = false ∨ searchNews up = None →
     searchAllSources up maxResults = []).
Proof.
  unfold searchAllSources.
  split; [apply top_descending|].
  split; [apply top_NoDup, (removeDuplicates_loop_spec ∅)|].
  split; [intros; by apply slice0_length|]. split.
  - intros e He%top_elem_of%removeDuplicates_elem_of.
    destruct (searchPosts up) as [l1|], (search_isConfigured up),
      (searchNews up) as [l2|], (searchStories up) as [l3|];
      cbn in He; repeat (apply elem_of_app in He as [He|He]);
      try (by apply elem_of_nil in He);
      first [ by left; eauto
            | by right; left; eauto
            | by right; right; eauto ].
  - intros H1 H2 H3. rewrite H1, H2.
    destruct H3 as [-> | ->]; [|destruct (search_isConfigured up)];
      cbn; apply slice0_nil.
Qed.

End AggregatorResults.

Lemma fetchViralContent_result_witness :
  "2024-03-01" = "2024-03-01"
  ∧ (Z.of_nat
       (length (events {| date := "2024-03-01";
                          events := [with_trendingRank Scenario.a 1];
                          hasViralContent := true;
                          topHashtag := None |})) ≤ 100).
Proof.
  destruct (fetchViralContent_result Scenario.twoSources Scenario.minScore100
              "2024-03-01"
              {| date := "2024-03-01";
                 events := [with_trendingRank Scenario.a 1];
                 hasViralContent := true;
                 topHashtag := None |})
    as (Hd & _ & _ & Hlen & _).
  - vm_compute. reflexivity.
  - split; [exact Hd|]. apply Hlen. vm_compute. discriminate.
Defined.

Lemma fetchViralContent_all_sources_down_witness :
  NewsAggregator.fetchViralContent
    {| NewsAggregator.getPopularPosts := None;
       NewsAggregator.getSubredditPosts := λ _, Some [Scenario.a];
       NewsAggregator.newsApi_isConfigured := false;
       NewsAggregator.getTopHeadlines := Some [Scenario.b];
       NewsAggregator.getTopStories := None;
       NewsAggregator.today := "2024-03-01" |} Scenario.minScore100
  = {[ "2024-03-01" := {| date := "2024-03-01"; events := [];
                          hasViralContent := false; topHashtag := None |} ]}.
Proof.
  apply (fetchViralContent_all_sources_down
           {| NewsAggregator.getPopularPosts := None;
              NewsAggregator.getSubredditPosts := λ _, Some [Scenario.a];
              NewsAggregator.newsApi_isConfigured := false;
              NewsAggregator.getTopHeadlines := Some [Scenario.b];
              NewsAggregator.getTopStories := None;
              NewsAggregator.today := "2024-03-01" |} Scenario.minScore100).
  - reflexivity.
  - reflexivity.
  - left. reflexivity.
Defined.

Lemma searchAllSources_result_witness :
  (Z.of_nat
     (length (NewsAggregator.searchAllSources
                {| NewsAggregator.searchPosts := Some [Scenario.a; Scenario.x1];
                   NewsAggregator.search_isConfigured := false;
                   NewsAggregator.searchNews := None;
                   NewsAggregator.searchStories := Some [Scenario.b] |} (Some 1)))
   ≤ 1).
Proof.
  apply (proj1 (proj2 (proj2
           (searchAllSources_result
              {| NewsAggregator.searchPosts := Some [Scenario.a; Scenario.x1];
                 NewsAggregator.search_isConfigured := false;
                 NewsAggregator.searchNews := None;
                 NewsAggregator.searchStories := Some [Scenario.b] |} (Some 1))))).
  vm_compute. discriminate.
Defined.

(** ** The importer: what every run stores *)

Section ImporterMore.
Import RedditHistoricalImporter.

(** Steps that keep a property for the posts they are given keep it over
    a whole list of such posts. *)
Lemma processPosts_guarded w (P : Importer → Prop) (Q : ViralEvent → Prop) posts this :
  (∀ st p, Q p → P st → P (processPost w st p)) →
  Forall Q posts → P this → P (processPosts w posts this).
Proof.
  intros Hstep. unfold processPosts. revert this.
  induction posts as [|p posts IH]; intros this HQ HP; [done|].
  apply Forall_cons in HQ as [Hp HQ]. cbn [foldl]. apply IH; [done|]. by apply Hstep.
Qed.

Lemma subredditLoop_guarded w (P : Importer → Prop) (Q : ViralEvent → Prop)
    tfs subs minS maxP timeframe i rest this n :
  (∀ e st, P st → P (emit e st)) →
  (∀ st p, Q p → P st → P (processPost w st p)) →
  (∀ sub tf posts p, getSubredditPosts w sub tf = Some posts →
     p ∈ posts → minS ≤ postCount p → Q p) →
  P this → P (fst (subredditLoop w tfs subs minS maxP timeframe i rest this n)).
Proof.
  intros Hemit Hstep HQ. revert i this n.
  induction rest as [|sub rest IH]; intros i this n H; [done|].
  cbn [subredditLoop].
  destruct (getSubredditPosts w sub timeframe) as [posts|] eqn:E.
  - assert (P (processPosts w
                 (List.filter (λ post, bool_decide (minS ≤ postCount post)) posts)
                 (emit (GetSubredditPosts sub timeframe)
                    (emit (Progress (progressAt tfs subs timeframe i sub this)) this))))
      as H'.
    { apply (processPosts_guarded w P Q); [done| |by auto].
      apply Forall_forall. intros p [Hp Hsc]%list_elem_of_In%filter_In.
      apply bool_decide_eq_true_1 in Hsc.
      eapply HQ; [exact E|by apply list_elem_of_In|done]. }
    case_decide; [cbn [fst]; by auto|]. apply IH. by auto.
  - apply IH. auto.
Qed.

Lemma timeframeLoop_guarded w (P : Importer → Prop) (Q : ViralEvent → Prop)
    tfs subs minS maxP rest this n :
  (∀ e st, P st → P (emit e st)) →
  (∀ st p, Q p → P st → P (processPost w st p)) →
  (∀ sub tf posts p, getSubredditPosts w sub tf = Some posts →
     p ∈ posts → minS ≤ postCount p → Q p) →
  P this → P (fst (timeframeLoop w tfs subs minS maxP rest this n)).
Proof.
  intros Hemit Hstep HQ. revert this n.
  induction rest as [|timeframe rest IH]; intros this n H; [done|].
  cbn [timeframeLoop]. case_decide; [done|].
  pose proof (subredditLoop_guarded w P Q tfs subs minS maxP timeframe 0 subs this n
                Hemit Hstep HQ H) as H'.
  destruct (subredditLoop w tfs subs minS maxP timeframe 0 subs this n) as [this' n'].
  by apply IH.
Qed.

Lemma dateRangeLoop_guarded w (P : Importer → Prop) (Q : ViralEvent → Prop)
    minS timeframe rest this :
  (∀ e st, P st → P (emit e st)) →
  (∀ st p, Q p → P st → P (processPost w st p)) →
  (∀ sub posts p, sub ∈ rest → getSubredditPosts w sub timeframe = Some posts →
     p ∈ posts → minS ≤ postCount p → Q p) →
  P this → P (dateRangeLoop w minS timeframe rest this).
Proof.
  intros Hemit Hstep. revert this.
  induction rest as [|sub rest IH]; intros this HQ H; [done|].
  cbn [dateRangeLoop].
  destruct (getSubredditPosts w sub timeframe) as [posts|] eqn:E.
  - apply IH; [intros s ps p Hs; apply HQ; by right|]. apply Hemit.
    apply (processPosts_guarded w P Q); [done| |by auto].
    apply Forall_forall. intros p [Hp Hsc]%list_elem_of_In%filter_In.
    apply negb_true_iff, bool_decide_eq_false_1 in Hsc.
    eapply (HQ sub); [by left|exact E|by apply list_elem_of_In|lia].
  - apply IH; [intros s ps p Hs; apply HQ; by right|]. auto.
Qed.

Lemma topicLoop_guarded w search (P : Importer → Prop) (Q : ViralEvent → Prop)
    minS rest this :
  (∀ e st, P st → P (emit e st)) →
  (∀ st p, Q p → P st → P (processPost w st p)) →
  (∀ query posts p, query ∈ rest → search query = Some posts →
     p ∈ posts → minS ≤ postCount p → Q p) →
  P this → P (topicLoop w search minS rest this).
Proof.
  intros Hemit Hstep. revert this.
  induction rest as [|query rest IH]; intros this HQ H; [done|].
  cbn [topicLoop].
  destruct (search query) as [posts|] eqn:E.
  - apply IH; [intros s ps p Hs; apply HQ; by right|]. apply Hemit.
    apply (processPosts_guarded w P Q); [done| |by auto].
    apply Forall_forall. intros p [Hp Hsc]%list_elem_of_In%filter_In.
    apply bool_decide_eq_true_1 in Hsc.
    eapply (HQ query); [by left|exact E|by apply list_elem_of_In|done].
  - apply IH; [intros s ps p Hs; apply HQ; by right|]. auto.
Qed.

Lemma allTimeBlock_guarded w (P : Importer → Prop) (Q : ViralEvent → Prop)
    tfs subs minS this :
  (∀ e st, P st → P (emit e st)) →
  (∀ st p, Q p → P st → P (processPost w st p)) →
  (∀ top p, getPopularPosts w = Some top → p ∈ top → minS * 2 ≤ postCount p → Q p) →
  P this → P (allTimeBlock w tfs subs minS this).
Proof.
  intros Hemit Hstep HQ H. unfold allTimeBlock, allTimeFilter.
  destruct (getPopularPosts w) as [top|] eqn:E; [|by auto].
  apply (processPosts_guarded w P Q); [done| |by auto].
  apply Forall_forall. intros p [Hp Hsc]%list_elem_of_In%filter_In.
  apply bool_decide_eq_true_1 in Hsc.
  eapply HQ; [done|by apply list_elem_of_In|done].
Qed.

(** A bucket that is well formed stays so when a post is pushed. *)
Lemma pushPost_wf d bucket post :
  date bucket = d → NoDup (id <$> events bucket) →
  date (pushPost bucket post) = d
  ∧ NoDup (id <$> events (pushPost bucket post))
  ∧ events (pushPost bucket post) ≠ [].
Proof.
  intros Hd Hnd. unfold pushPost.
  destruct (JS.some _ _) eqn:E.
  - split; [done|]. split; [done|]. by destruct (events bucket).
  - cbn [date events]. split; [done|]. split; [|by destruct (events bucket)].
    rewrite fmap_app. apply NoDup_app. split; [done|]. split; [|apply NoDup_singleton].
    intros i Hi [->|[]%elem_of_nil]%elem_of_cons.
    apply list_elem_of_fmap in Hi as (e & Hid & He).
    assert (JS.some (λ e0, (id e0 =? id post)%string) (events bucket) = true) as Hex.
    { unfold JS.some. apply existsb_exists. exists e.
      split; [by apply list_elem_of_In|]. apply String.eqb_eq. done. }
    congruence.
Qed.

Lemma wellFormed_post w this post :
  wellFormed this → wellFormed (processPost w this post).
Proof.
  unfold wellFormed. intros H. rewrite processPost_data.
  apply map_Forall_insert_2; [|done].
  destruct (importedData this !! clock w (clockReads this)) as [b|] eqn:E;
    unfold default; cbn [from_option].
  - destruct (H _ _ E) as (Hd & Hnd & _). by apply pushPost_wf.
  - apply pushPost_wf; [done|]. cbn. constructor.
Qed.

Lemma wellFormed_reset this : wellFormed (reset this).
Proof. apply map_Forall_empty. Qed.

(** *** Merging a list of posts *)

Lemma eventsOn_Some data d e :
  e ∈ eventsOn data d ↔ ∃ b, data !! d = Some b ∧ e ∈ events b.
Proof.
  unfold eventsOn. destruct (data !! d) as [b|]; cbn.
  - split; [eauto|]. by intros (b' & [= <-] & He).
  - split; [by intros ?%elem_of_nil|]. by intros (b' & [=] & _).
Qed.

Lemma pushPost_prefix bucket post :
  events bucket `prefix_of` events (pushPost bucket post).
Proof.
  unfold pushPost. destruct (JS.some _ _); [done|].
  cbn [events]. by apply prefix_app_r.
Qed.

(** A step leaves the events of every date in place, in front of what it
    adds. *)
Lemma processPost_prefix w this post d :
  eventsOn (importedData this) d
  `prefix_of` eventsOn (importedData (processPost w this post)) d.
Proof.
  rewrite processPost_data. unfold eventsOn.
  destruct (decide (d = clock w (clockReads this))) as [->|Hne].
  - rewrite lookup_insert_eq.
    destruct (importedData this !! clock w (clockReads this)) as [b0|]; cbn.
    + apply pushPost_prefix.
    + apply prefix_nil.
  - by rewrite lookup_insert_ne.
Qed.

Lemma processPosts_prefix w posts this d :
  eventsOn (importedData this) d
  `prefix_of` eventsOn (importedData (processPosts w posts this)) d.
Proof.
  unfold processPosts. revert this.
  induction posts as [|p posts IH]; intros this; [done|].
  cbn [foldl]. etrans; [apply processPost_prefix|apply IH].
Qed.

Lemma processPosts_wf w posts this :
  wellFormed this → wellFormed (processPosts w posts this).
Proof.
  apply (processPosts_guarded w wellFormed (λ _, True)).
  - intros st p _. apply wellFormed_post.
  - by apply Forall_forall.
Qed.

(** The k-th post of a list is filed under the date the clock shows at the
    k-th read: afterwards that date holds an event with the post's id, and
    the post itself when its id was new to the date. *)
Lemma processPosts_files w posts this k p :
  posts !! k = Some p →
  (∃ e, e ∈ eventsOn (importedData (processPosts w posts this))
              (clock w (clockReads this + k))
        ∧ id e = id p)
  ∧ (id p ∉ id <$> eventsOn (importedData this) (clock w (clockReads this + k)) →
     (∀ j q, (j < k)%nat → posts !! j = Some q →
        clock w (clockReads this + j) = clock w (clockReads this + k) →
        id q ≠ id p) →
     p ∈ eventsOn (importedData (processPosts w posts this))
           (clock w (clockReads this + k))).
Proof.
  revert this k. induction posts as [|p0 posts IH]; intros this k Hk; [done|].
  change (processPosts w (p0 :: posts) this)
    with (processPosts w posts (processPost w this p0)).
  assert (eventsOn (importedData (processPost w this p0)) (clock w (clockReads this))
          = events (pushPost (default (emptyDay (clock w (clockReads this)))
                                (importedData this !! clock w (clockReads this))) p0))
    as Hstep.
  { rewrite processPost_data. unfold eventsOn. by rewrite lookup_insert_eq. }
  destruct k as [|k]; cbn in Hk.
  - injection Hk as ->. rewrite Nat.add_0_r. split.
    + destruct (pushPost_has_id
                  (default (emptyDay (clock w (clockReads this)))
                     (importedData this !! clock w (clockReads this))) p)
        as (e & He & Hid).
      exists e. split; [|done].
      eapply elem_of_prefix; [|apply processPosts_prefix]. by rewrite Hstep.
    + intros Hfresh _.
      eapply elem_of_prefix; [|apply processPosts_prefix]. rewrite Hstep.
      rewrite pushPost_fresh.
      * apply elem_of_app. right. by left.
      * unfold eventsOn in Hfresh.
        by destruct (importedData this !! clock w (clockReads this)).
  - assert (clockReads (processPost w this p0) + k = clockReads this + S k)%nat
      as Hreads by (unfold processPost; cbn [clockReads]; lia).
    destruct (IH (processPost w this p0) k Hk) as [Hid Hnew].
    rewrite Hreads in Hid, Hnew. split; [done|].
    intros Hfresh Hearlier. apply Hnew.
    + intros (e & Hide & He)%list_elem_of_fmap.
      destruct (decide (clock w (clockReads this + S k) = clock w (clockReads this)))
        as [Heq|Hne].
      * rewrite Heq, Hstep in He.
        apply pushPost_events_inv in He as [He| ->].
        -- apply Hfresh. rewrite Heq. apply list_elem_of_fmap. exists e.
           split; [done|]. unfold eventsOn.
           by destruct (importedData this !! clock w (clockReads this)).
        -- apply (Hearlier 0%nat p0); [lia|done| |done].
           by rewrite Nat.add_0_r.
      * apply Hfresh. apply list_elem_of_fmap. exists e. split; [done|].
        unfold eventsOn in *. by rewrite processPost_other in He.
    + intros j q Hj Hq Hclock. apply (Hearlier (S j) q); [lia|done|].
      replace (clockReads this + S j)%nat
        with (clockReads (processPost w this p0) + j)%nat
        by (unfold processPost; cbn [clockReads]; lia).
      done.
Qed.

(** A date the clock does not show during the merge keeps its bucket. *)
Lemma processPosts_other w posts this d :
  (∀ k, (k < length posts)%nat → clock w (clockReads this + k) ≠ d) →
  importedData (processPosts w posts this) !! d = importedData this !! d.
Proof.
  unfold processPosts. revert this.
  induction posts as [|p0 posts IH]; intros this Hd; [done|].
  cbn [foldl]. rewrite IH.
  - apply processPost_other. intros ->. apply (Hd 0%nat); [cbn; lia|].
    by rewrite Nat.add_0_r.
  - intros k Hk. unfold processPost. cbn [clockReads].
    replace (S (clockReads this) + k)%nat with (clockReads this + S k)%nat by lia.
    apply Hd. cbn. lia.
Qed.

(** C7: the all-time listing is merged as the listings of the main loop
    are.  An event of the result that the main loop had not stored comes
    from that listing and has a score of at least [2 * minScore].  What the
    main loop stored under a date stays in front, and no date ends with two
    events of one id.  The k-th post of the listing that reaches
    [2 * minScore] is filed under the date of the k-th clock read after the
    main loop, in a bucket of that date: the bucket then holds an event with
    the post's id, the post itself when the id was new to the date, and not
    the post when the main loop had stored another event with this id.  No
    other date changes, and a listing that fails changes nothing. *)
Theorem importHistoricalData_allTime_threshold w options this :
  let st := afterMainLoop w options this in
  let res := importHistoricalData w options this in
  let minScore_ := default 1000 (minScore options) in
  (∀ d e, e ∈ eventsOn (importedData res) d →
     e ∈ eventsOn (importedData st) d
     ∨ (2 * minScore_ ≤ postCount e
        ∧ ∃ allTimeTop, getPopularPosts w = Some allTimeTop ∧ e ∈ allTimeTop))
  ∧ (∀ d, eventsOn (importedData st) d `prefix_of` eventsOn (importedData res) d
          ∧ NoDup (id <$> eventsOn (importedData res) d))
  ∧ (∀ allTimeTop k p,
       getPopularPosts w = Some allTimeTop →
       allTimeFilter minScore_ allTimeTop !! k = Some p →
       ∃ b, importedData res !! clock w (clockReads st + k) = Some b
            ∧ date b = clock w (clockReads st + k)
            ∧ (∃ e, e ∈ events b ∧ id e = id p)
            ∧ (id p ∉ id <$> eventsOn (importedData st) (clock w (clockReads st + k)) →
               (∀ j q, (j < k)%nat → allTimeFilter minScore_ allTimeTop !! j = Some q →
                  clock w (clockReads st + j) = clock w (clockReads st + k) →
                  id q ≠ id p) →
               p ∈ events b)
            ∧ (id p ∈ id <$> eventsOn (importedData st) (clock w (clockReads st + k)) →
               p ∉ eventsOn (importedData st) (clock w (clockReads st + k)) →
               p ∉ events b))
  ∧ (∀ allTimeTop d,
       getPopularPosts w = Some allTimeTop →
       (∀ k, (k < length (allTimeFilter minScore_ allTimeTop))%nat →
          clock w (clockReads st + k) ≠ d) →
       importedData res !! d = importedData st !! d)
  ∧ (getPopularPosts w = None → importedData res = importedData st)
  ∧ (∀ allTimeTop, getPopularPosts w = Some allTimeTop →
       importedData res
       = importedData (processPosts w (allTimeFilter minScore_ allTimeTop) st)).
Proof.
  intros st res minScore_.
  assert (wellFormed st) as Hwf.
  { apply (timeframeLoop_preserves w wellFormed ltac:(done) (wellFormed_post w)).
    apply wellFormed_reset. }
  subst res. unfold importHistoricalData, allTimeBlock. fold st. fold minScore_.
  set (n := Z.of_nat (length (default NEWS_SUBREDDITS (subreddits options)))
            * Z.of_nat (length (default [month; year; all] (timeframes options))) + 1).
  set (st' := emit GetPopularPosts (emit (Progress _) st)).
  assert (importedData st' = importedData st) as Hdata by done.
  assert (clockReads st' = clockReads st) as Hreads by done.
  assert (wellFormed st') as Hwf' by done.
  destruct (getPopularPosts w) as [top|] eqn:Etop; cycle 1.
  { change (importedData (emit (Warn "Failed to import from r/all") st'))
      with (importedData st).
    split; [by left|]. split.
    { intros d. split; [done|]. unfold eventsOn.
      destruct (importedData st !! d) as [b|] eqn:E; cbn; [|constructor].
      by destruct (Hwf _ _ E) as (_ & Hnd & _). }
    repeat split; done. }
  set (posts := allTimeFilter minScore_ top).
  pose proof (processPosts_wf w posts st' Hwf') as Hwfr.
  split; [|split; [|split; [|split; [|split]]]].
  - intros d e (b & Hb & He)%eventsOn_Some.
    destruct (processPosts_adds _ _ _ _ _ _ Hb He) as [(b0 & Hb0 & He0)|Hin].
    + left. apply eventsOn_Some. exists b0. by rewrite <- Hdata.
    + right. apply list_elem_of_In, filter_In in Hin as [Hin Hsc].
      apply bool_decide_eq_true_1 in Hsc. split; [lia|].
      exists top. split; [done|]. by apply list_elem_of_In.
  - intros d. split.
    + rewrite <- Hdata. apply processPosts_prefix.
    + unfold eventsOn.
      destruct (importedData (processPosts w posts st') !! d) as [b|] eqn:E; cbn;
        [|constructor].
      by destruct (Hwfr _ _ E) as (_ & Hnd & _).
  - intros ? k p [= <-] Hk. fold posts in Hk.
    destruct (processPosts_files w posts st' k p Hk) as [(e & He & Hid) Hnew].
    rewrite Hreads, Hdata in *.
    apply eventsOn_Some in He as (b & Hb & He).
    exists b. destruct (Hwfr _ _ Hb) as (Hdate & Hnd & _).
    split; [done|]. split; [done|]. split; [by eauto|]. split.
    + intros Hfresh Hearlier.
      specialize (Hnew Hfresh Hearlier).
      apply eventsOn_Some in Hnew as (b' & Hb' & Hp). congruence.
    + intros (e0 & Hid0 & He0)%list_elem_of_fmap Hnot Hp.
      pose proof (processPosts_prefix w posts st' (clock w (clockReads st + k)))
        as [added Hadded].
      rewrite Hdata in Hadded. unfold eventsOn at 1 in Hadded.
      rewrite Hb in Hadded. cbn in Hadded.
      rewrite Hadded, fmap_app in Hnd. apply NoDup_app in Hnd as (_ & Hdisj & _).
      rewrite Hadded in Hp. apply elem_of_app in Hp as [Hp|Hp]; [done|].
      apply (Hdisj (id p)).
      * apply list_elem_of_fmap. exists e0. done.
      * apply list_elem_of_fmap. exists p. done.
  - intros ? d [= <-] Hd. rewrite <- Hdata. apply processPosts_other.
    by rewrite Hreads.
  - done.
  - intros ? [= <-]. subst st'. by rewrite !(proj1 (processPosts_emit _ _ _ _)).
Qed.

(** X7: whichever entry point built it, a bucket of the importer carries
    its own key as date, holds at least one event, and no two of its events
    have the same id. *)
Theorem importer_buckets_well_formed w :
  (∀ options this d b,
     importedData (importHistoricalData w options this) !! d = Some b →
     date b = d ∧ NoDup (id <$> events b) ∧ events b ≠ [])
  ∧ (∀ startDate endDate minS this d b,
       importedData (importDateRange w startDate endDate minS this) !! d = Some b →
       date b = d ∧ NoDup (id <$> events b) ∧ events b ≠ [])
  ∧ (∀ search queries minS this d b,
       importedData (importByTopic w search queries minS this) !! d = Some b →
       date b = d ∧ NoDup (id <$> events b) ∧ events b ≠ []).
Proof.
  split; [|split].
  - intros options this d b Hb.
    apply (importHistoricalData_preserves w wellFormed
             ltac:(done) (wellFormed_post w) options this (wellFormed_reset this) d b Hb).
  - intros startDate endDate minS this d b Hb.
    unfold importDateRange in Hb.
    refine (dateRangeLoop_guarded w wellFormed (λ _, True) _ _ _ _
              ltac:(done) _ ltac:(done) (wellFormed_reset this) d b Hb).
    intros st p _. apply wellFormed_post.
  - intros search queries minS this d b Hb.
    unfold importByTopic in Hb.
    refine (topicLoop_guarded w search wellFormed (λ _, True) _ _ _
              ltac:(done) _ ltac:(done) (wellFormed_reset this) d b Hb).
    intros st p _. apply wellFormed_post.
Qed.

(** X8: with a threshold that is not negative, every event a run of
    [importHistoricalData] returns reaches the threshold and was answered by
    the client, to a subreddit request or in the all-time listing. *)
Theorem importHistoricalData_score_floor w options this d b e :
  0 ≤ default 1000 (minScore options) →
  importedData (importHistoricalData w options this) !! d = Some b →
  e ∈ events b →
  default 1000 (minScore options) ≤ postCount e
  ∧ ((∃ sub tf posts, getSubredditPosts w sub tf = Some posts ∧ e ∈ posts)
     ∨ (∃ top, getPopularPosts w = Some top ∧ e ∈ top)).
Proof.
  intros Hmin.
  set (minS := default 1000 (minScore options)) in *.
  set (Q := λ e : ViralEvent,
         minS ≤ postCount e
         ∧ ((∃ sub tf posts, getSubredditPosts w sub tf = Some posts ∧ e ∈ posts)
            ∨ (∃ top, getPopularPosts w = Some top ∧ e ∈ top))).
  set (P := λ st : Importer,
         ∀ d b e, importedData st !! d = Some b → e ∈ events b → Q e).
  assert (∀ st p, Q p → P st → P (processPost w st p)) as Hstep.
  { intros st p Hp Hst d' b' e' Hb' He'.
    destruct (processPost_adds _ _ _ _ _ _ Hb' He') as [(b0 & Hb0 & He0)| ->];
      [by eapply Hst|done]. }
  intros Hb He. revert d b e Hb He. change (P (importHistoricalData w options this)).
  unfold importHistoricalData, afterMainLoop.
  apply (allTimeBlock_guarded w P Q); [done|done| |].
  - intros top p Htop Hp Hsc. split; [lia|]. right. eauto.
  - apply (timeframeLoop_guarded w P Q); [done|done| |].
    + intros sub tf posts p Hposts Hp Hsc. split; [done|]. left. eauto.
    + intros d b e Hb. cbn in Hb. by rewrite lookup_empty in Hb.
Qed.

Lemma timeframeLoop_capped w tfs subs minS maxP rest this n :
  maxP ≤ n → timeframeLoop w tfs subs minS maxP rest this n = (this, n).
Proof. intros Hn. destruct rest; [done|]. cbn. by rewrite decide_True. Qed.

Lemma requests_app l1 l2 : requests (l1 ++ l2) = requests l1 ++ requests l2.
Proof. unfold requests. apply omap_app. Qed.

(** X9: with a cap that is not positive no subreddit is requested, but the
    all-time listing still is, and its posts above twice the threshold are
    what the run returns. *)
Theorem importHistoricalData_cap_not_positive w options this :
  default 500 (maxPosts options) ≤ 0 →
  requests (log (importHistoricalData w options this)) = requests (log this)
  ∧ GetPopularPosts ∈ log (importHistoricalData w options this)
  ∧ importedData (importHistoricalData w options this)
    = importedData
        (processPosts w
           (List.filter
              (λ post, bool_decide (default 1000 (minScore options) * 2 ≤ postCount post))
              (default [] (getPopularPosts w)))
           (reset this)).
Proof.
  intros Hcap. unfold importHistoricalData, afterMainLoop.
  rewrite timeframeLoop_capped by done. cbn [fst].
  unfold allTimeBlock, allTimeFilter.
  destruct (getPopularPosts w) as [top|]; cbn [default from_option].
  - rewrite processPosts_log. cbn [log emit reset].
    rewrite !requests_app. cbn. rewrite !app_nil_r. split; [done|]. split.
    + apply elem_of_app. right. by left.
    + by rewrite !(proj1 (processPosts_emit _ _ _ _)).
  - cbn [log emit reset importedData].
    rewrite !requests_app. cbn. rewrite !app_nil_r. split; [done|]. split; [|done].
    apply elem_of_app. left. apply elem_of_app. right. by left.
Qed.

Lemma subredditLoop_total w tfs subs minS maxP L timeframe i rest this n :
  0 ≤ L →
  (∀ sub tf posts, getSubredditPosts w sub tf = Some posts →
     Z.of_nat (length (List.filter (λ post, bool_decide (minS ≤ postCount post)) posts)) ≤ L) →
  n < maxP →
  n ≤ snd (subredditLoop w tfs subs minS maxP timeframe i rest this n) ≤ maxP - 1 + L.
Proof.
  intros HL Hans. revert i this n.
  induction rest as [|sub rest IH]; intros i this n Hn; cbn [subredditLoop].
  { cbn. lia. }
  destruct (getSubredditPosts w sub timeframe) as [posts|] eqn:E.
  - specialize (Hans _ _ _ E).
    set (k := Z.of_nat (length (List.filter _ posts))) in *.
    case_decide as Hcap.
    + cbn [snd]. lia.
    + match goal with
      | |- _ ≤ snd (subredditLoop _ _ _ _ _ _ ?i' _ ?st ?n') ≤ _ =>
          specialize (IH i' st n' ltac:(lia))
      end. lia.
  - apply IH. lia.
Qed.

Lemma timeframeLoop_total w tfs subs minS maxP L rest this n :
  0 ≤ L →
  (∀ sub tf posts, getSubredditPosts w sub tf = Some posts →
     Z.of_nat (length (List.filter (λ post, bool_decide (minS ≤ postCount post)) posts)) ≤ L) →
  0 ≤ n ≤ Z.max 0 (maxP - 1 + L) →
  0 ≤ snd (timeframeLoop w tfs subs minS maxP rest this n) ≤ Z.max 0 (maxP - 1 + L).
Proof.
  intros HL Hans. revert this n.
  induction rest as [|timeframe rest IH]; intros st n Hn; [done|].
  cbn [timeframeLoop]. case_decide as Hcap; [done|].
  pose proof (subredditLoop_total w tfs subs minS maxP L timeframe 0 subs st n
                HL Hans ltac:(lia)) as Hin.
  destruct (subredditLoop w tfs subs minS maxP timeframe 0 subs st n) as [st' n'].
  cbn [snd] in Hin. apply IH. lia.
Qed.

(** X10: the counter of the main loop ends at most one listing above the
    cap: if no answer holds more than [L] qualifying posts, it ends between
    0 and [maxPosts - 1 + L] (and at 0 for a cap that is not positive). *)
Theorem importHistoricalData_cap_overshoot w options this L :
  0 ≤ L →
  (∀ sub tf posts, getSubredditPosts w sub tf = Some posts →
     Z.of_nat (length (List.filter
                         (λ post, bool_decide (default 1000 (minScore options) ≤ postCount post))
                         posts)) ≤ L) →
  0 ≤ snd (timeframeLoop w
             (default [month; year; all] (timeframes options))
             (default NEWS_SUBREDDITS (subreddits options))
             (default 1000 (minScore options)) (default 500 (maxPosts options))
             (default [month; year; all] (timeframes options)) (reset this) 0)
    ≤ Z.max 0 (default 500 (maxPosts options) - 1 + L).
Proof.
  intros HL Hans. apply (timeframeLoop_total _ _ _ _ _ L); [done|done|lia].
Qed.

Lemma schedule_cons timeframe tfs subs :
  schedule (timeframe :: tfs) subs
  = ((λ sub, (sub, timeframe)) <$> subs) ++ schedule tfs subs.
Proof. done. Qed.

Lemma requests_step p sub timeframe x trail :
  (∀ s t, x ≠ GetSubredditPosts s t) →
  requests (Progress p :: GetSubredditPosts sub timeframe :: x :: trail)
  = (sub, timeframe) :: requests trail.
Proof. intros Hx. destruct x; try done. by destruct (Hx sub0 timeframe0). Qed.

(** The inner loop adds to the log; it asks the subreddits left, in order,
    and stops early only with the cap reached. *)
Lemma subredditLoop_log w tfs subs minS maxP timeframe i rest this n :
  ∃ trail,
    log (fst (subredditLoop w tfs subs minS maxP timeframe i rest this n))
    = log this ++ trail
    ∧ (GetPopularPosts ∉ trail)
    ∧ (requests trail = (λ sub, (sub, timeframe)) <$> rest
       ∨ (maxP ≤ snd (subredditLoop w tfs subs minS maxP timeframe i rest this n)
          ∧ requests trail `prefix_of` ((λ sub, (sub, timeframe)) <$> rest))).
Proof.
  revert i this n. induction rest as [|sub rest IH]; intros i this n.
  { exists []. cbn. rewrite app_nil_r. split; [done|].
    split; [apply not_elem_of_nil|by left]. }
  cbn [subredditLoop].
  destruct (getSubredditPosts w sub timeframe) as [posts|].
  - case_decide as Hcap.
    + eexists [_; _; _]. cbn [fst snd log emit].
      rewrite processPosts_log. cbn [log emit]. rewrite <- !app_assoc. cbn [app].
      split; [done|]. split.
      * intros Hin. repeat (apply elem_of_cons in Hin as [Hin|Hin]; [done|]).
        by apply elem_of_nil in Hin.
      * right. split; [done|]. rewrite requests_step by done.
        cbn. by exists ((λ s, (s, timeframe)) <$> rest).
    + match goal with
      | |- context [subredditLoop _ _ _ _ _ _ ?i' _ ?st ?n'] =>
          destruct (IH i' st n') as (trail & Hlog & Hpop & Hreq)
      end.
      eexists (_ :: _ :: _ :: trail). rewrite Hlog. cbn [log emit].
      rewrite processPosts_log. cbn [log emit]. rewrite <- !app_assoc. cbn [app].
      split; [done|]. split.
      * intros Hin. repeat (apply elem_of_cons in Hin as [Hin|Hin]; [done|]). done.
      * rewrite requests_step by done. rewrite fmap_cons.
        destruct Hreq as [->|[Hc Hpre]]; [by left|].
        right. split; [done|]. by apply prefix_cons.
  - match goal with
    | |- context [subredditLoop _ _ _ _ _ _ ?i' _ ?st ?n'] =>
        destruct (IH i' st n') as (trail & Hlog & Hpop & Hreq)
    end.
    eexists (_ :: _ :: _ :: trail). rewrite Hlog. cbn [log emit].
    rewrite <- !app_assoc. cbn [app].
    split; [done|]. split.
    + intros Hin. repeat (apply elem_of_cons in Hin as [Hin|Hin]; [done|]). done.
    + rewrite requests_step by done. rewrite fmap_cons.
      destruct Hreq as [->|[Hc Hpre]]; [by left|].
      right. split; [done|]. by apply prefix_cons.
Qed.

Lemma timeframeLoop_log w tfs subs minS maxP rest this n :
  ∃ trail,
    log (fst (timeframeLoop w tfs subs minS maxP rest this n)) = log this ++ trail
    ∧ (GetPopularPosts ∉ trail)
    ∧ requests trail `prefix_of` schedule rest subs.
Proof.
  revert this n. induction rest as [|timeframe rest IH]; intros this n.
  { exists []. cbn. rewrite app_nil_r. split; [done|].
    split; [apply not_elem_of_nil|done]. }
  cbn [timeframeLoop]. case_decide as Hcap.
  { exists []. cbn [fst]. rewrite app_nil_r. split; [done|].
    split; [apply not_elem_of_nil|]. apply prefix_nil. }
  destruct (subredditLoop_log w tfs subs minS maxP timeframe 0 subs this n)
    as (trail1 & Hlog1 & Hpop1 & Hreq1).
  destruct (subredditLoop w tfs subs minS maxP timeframe 0 subs this n) as [st1 n1].
  cbn [fst snd] in *. rewrite schedule_cons.
  destruct Hreq1 as [Hfull|[Hc Hpre]].
  - destruct (IH st1 n1) as (trail2 & Hlog2 & Hpop2 & Hreq2).
    exists (trail1 ++ trail2). rewrite Hlog2, Hlog1, app_assoc. split; [done|]. split.
    + intros [?|?]%elem_of_app; done.
    + rewrite requests_app, Hfull. by apply prefix_app.
  - rewrite timeframeLoop_capped by done. cbn [fst].
    exists trail1. split; [done|]. split; [done|]. by apply prefix_app_r.
Qed.

(** X11: a run asks the subreddits in the order of the schedule (for each
    timeframe, each subreddit), without a gap or a repeat, up to the point
    where it stops; then it asks the all-time listing, once. *)
Theorem importHistoricalData_requests_follow_schedule w options this :
  ∃ main p tail,
    log (importHistoricalData w options this)
    = log this ++ main ++ Progress p :: GetPopularPosts :: tail
    ∧ requests main
      `prefix_of` schedule (default [month; year; all] (timeframes options))
                    (default NEWS_SUBREDDITS (subreddits options))
    ∧ (GetPopularPosts ∉ main)
    ∧ (tail = [] ∨ ∃ what, tail = [Warn what]).
Proof.
  unfold importHistoricalData, afterMainLoop.
  destruct (timeframeLoop_log w
              (default [month; year; all] (timeframes options))
              (default NEWS_SUBREDDITS (subreddits options))
              (default 1000 (minScore options)) (default 500 (maxPosts options))
              (default [month; year; all] (timeframes options)) (reset this) 0)
    as (main & Hlog & Hpop & Hreq).
  cbn [reset log] in Hlog. unfold allTimeBlock.
  destruct (getPopularPosts w) as [top|].
  - eexists main, _, []. rewrite processPosts_log. cbn [log emit].
    rewrite Hlog, <- !app_assoc. cbn [app]. split; [done|]. split; [done|].
    split; [done|by left].
  - eexists main, _, [_]. cbn [log emit].
    rewrite Hlog, <- !app_assoc. cbn [app]. split; [done|]. split; [done|].
    split; [done|]. right. by eexists.
Qed.

Lemma dateRangeLoop_log w minS timeframe rest this :
  requests (log (dateRangeLoop w minS timeframe rest this))
  = requests (log this) ++ ((λ sub, (sub, timeframe)) <$> rest).
Proof.
  revert this. induction rest as [|sub rest IH]; intros this.
  { cbn. by rewrite app_nil_r. }
  cbn [dateRangeLoop].
  destruct (getSubredditPosts w sub timeframe) as [posts|]; rewrite IH; cbn [log emit].
  - rewrite processPosts_log. cbn [log emit]. rewrite !requests_app. cbn.
    rewrite app_nil_r, <- app_assoc. done.
  - rewrite !requests_app. cbn. rewrite app_nil_r, <- app_assoc. done.
Qed.

Lemma ceil_div_gt k x : k < ceil_div x MS_PER_DAY ↔ k * MS_PER_DAY < x.
Proof.
  unfold ceil_div, MS_PER_DAY. change (1000 * 60 * 60 * 24) with 86400000.
  split; intros H; Z.div_mod_to_equations; lia.
Qed.

(** X12: [importDateRange] asks the first five news subreddits, each once
    and in order, whether or not a request fails, with a timeframe chosen
    from the length of the range alone: day up to 7 days, week up to 30,
    month up to 365, year above; and it stores only posts that reach the
    threshold. *)
Theorem importDateRange_requests w startDate endDate minS this :
  requests (log (importDateRange w startDate endDate minS this))
  = requests (log this)
    ++ ((λ sub, (sub, rangeTimeframe startDate endDate))
          <$> ["worldnews"; "news"; "politics"; "science"; "technology"])
  ∧ (rangeTimeframe startDate endDate = day ↔ endDate - startDate ≤ 7 * MS_PER_DAY)
  ∧ (rangeTimeframe startDate endDate = week ↔
       7 * MS_PER_DAY < endDate - startDate ≤ 30 * MS_PER_DAY)
  ∧ (rangeTimeframe startDate endDate = month ↔
       30 * MS_PER_DAY < endDate - startDate ≤ 365 * MS_PER_DAY)
  ∧ (rangeTimeframe startDate endDate = year ↔ 365 * MS_PER_DAY < endDate - startDate)
  ∧ ∀ d b e,
      importedData (importDateRange w startDate endDate minS this) !! d = Some b →
      e ∈ events b →
      default 500 minS ≤ postCount e.
Proof.
  split; [|split; [|split; [|split; [|split]]]].
  - unfold importDateRange. by rewrite dateRangeLoop_log.
  - unfold rangeTimeframe. cbv zeta.
    repeat case_decide; rewrite ?ceil_div_gt in *; unfold MS_PER_DAY in *;
      split; intros; try done; lia.
  - unfold rangeTimeframe. cbv zeta.
    repeat case_decide; rewrite ?ceil_div_gt in *; unfold MS_PER_DAY in *;
      split; intros; try done; lia.
  - unfold rangeTimeframe. cbv zeta.
    repeat case_decide; rewrite ?ceil_div_gt in *; unfold MS_PER_DAY in *;
      split; intros; try done; lia.
  - unfold rangeTimeframe. cbv zeta.
    repeat case_decide; rewrite ?ceil_div_gt in *; unfold MS_PER_DAY in *;
      split; intros; try done; lia.
  - unfold importDateRange.
    apply (dateRangeLoop_guarded w
             (λ st, ∀ d b e, importedData st !! d = Some b → e ∈ events b →
                             default 500 minS ≤ postCount e)
             (λ p, default 500 minS ≤ postCount p)); [done| |done|].
    + intros st p Hp Hst d b e Hb He.
      destruct (processPost_adds _ _ _ _ _ _ Hb He) as [(b0 & Hb0 & He0)| ->];
        [by eapply Hst|done].
    + intros d b e Hb. cbn in Hb. by rewrite lookup_empty in Hb.
Qed.

(** X13: [importByTopic] stores only posts that reach the threshold and
    that the search answered for one of the queries; a query whose search
    fails is passed over. *)
Theorem importByTopic_stores_search_results w search queries minS this d b e :
  importedData (importByTopic w search queries minS this) !! d = Some b →
  e ∈ events b →
  default 500 minS ≤ postCount e
  ∧ ∃ query posts, query ∈ queries ∧ search query = Some posts ∧ e ∈ posts.
Proof.
  unfold importByTopic. revert d b e.
  apply (topicLoop_guarded w search
           (λ st, ∀ d b e, importedData st !! d = Some b → e ∈ events b →
                           default 500 minS ≤ postCount e
                           ∧ ∃ query posts, query ∈ queries ∧ search query = Some posts
                                            ∧ e ∈ posts)
           (λ p, default 500 minS ≤ postCount p
                 ∧ ∃ query posts, query ∈ queries ∧ search query = Some posts
                                  ∧ p ∈ posts)); [done| | |].
  - intros st p Hp Hst d b e Hb He.
    destruct (processPost_adds _ _ _ _ _ _ Hb He) as [(b0 & Hb0 & He0)| ->];
      [by eapply Hst|done].
  - intros query posts p Hq Hs Hp Hsc. split; [done|]. eauto.
  - intros d b e Hb. cbn in Hb. by rewrite lookup_empty in Hb.
Qed.

End ImporterMore.

Lemma importHistoricalData_allTime_threshold_witness :
  ∃ b, RedditHistoricalImporter.importedData
         (RedditHistoricalImporter.importHistoricalData Scenario.repeatWorld
            (Scenario.xyDay None) Scenario.fresh) !! "2024-05-01" = Some b
       ∧ date b = "2024-05-01"
       ∧ Scenario.t1 ∈ events b
       ∧ Scenario.x1again ∉ events b.
Proof.
  pose proof (importHistoricalData_allTime_threshold Scenario.repeatWorld
                (Scenario.xyDay None) Scenario.fresh) as H.
  cbv zeta in H. destruct H as (_ & _ & Hfile & _).
  destruct (Hfile [Scenario.t1; Scenario.x1again; Scenario.t2] 0%nat Scenario.t1)
    as (b & Hb & Hdate & _ & Hnew & _); [reflexivity|reflexivity|].
  destruct (Hfile [Scenario.t1; Scenario.x1again; Scenario.t2] 1%nat Scenario.x1again)
    as (b' & Hb' & _ & _ & _ & Hskip); [reflexivity|reflexivity|].
  change (RedditHistoricalImporter.clock Scenario.repeatWorld _)
    with "2024-05-01" in Hb, Hb', Hdate, Hnew, Hskip.
  assert (b' = b) as -> by congruence.
  exists b. split; [exact Hb|]. split; [exact Hdate|]. split.
  - apply Hnew.
    + refine (bool_decide_unpack _ _). vm_compute. exact I.
    + intros j q Hj. lia.
  - apply Hskip.
    + refine (bool_decide_unpack _ _). vm_compute. exact I.
    + refine (bool_decide_unpack _ _). vm_compute. exact I.
Defined.

Lemma importer_buckets_well_formed_witness :
  date Scenario.cappedBucket = "2024-05-01"
  ∧ NoDup (id <$> events Scenario.cappedBucket)
  ∧ events Scenario.cappedBucket ≠ [].
Proof.
  apply (proj1 (importer_buckets_well_formed Scenario.redditWorld)
           (Scenario.xyDay (Some 1)) Scenario.fresh "2024-05-01").
  vm_compute. reflexivity.
Defined.

Lemma importHistoricalData_score_floor_witness : 1000 ≤ postCount Scenario.x5.
Proof.
  refine (proj1 (importHistoricalData_score_floor Scenario.redditWorld
                   (Scenario.xyDay (Some 1)) Scenario.fresh "2024-05-01"
                   Scenario.cappedBucket Scenario.x5 _ _ _)).
  - vm_compute. discriminate.
  - vm_compute. reflexivity.
  - refine (bool_decide_unpack _ _). vm_compute. exact I.
Defined.

Lemma importHistoricalData_cap_not_positive_witness :
  RedditHistoricalImporter.requests
    (RedditHistoricalImporter.log
       (RedditHistoricalImporter.importHistoricalData Scenario.redditWorld
          (Scenario.xyDay (Some 0)) Scenario.fresh))
  = RedditHistoricalImporter.requests (RedditHistoricalImporter.log Scenario.fresh).
Proof.
  apply (proj1 (importHistoricalData_cap_not_positive Scenario.redditWorld
                  (Scenario.xyDay (Some 0)) Scenario.fresh ltac:(vm_compute; discriminate))).
Defined.

Lemma importHistoricalData_cap_overshoot_witness :
  0 ≤ snd (RedditHistoricalImporter.timeframeLoop Scenario.redditWorld
             [RedditHistoricalImporter.day] ["x"; "y"] 1000 1
             [RedditHistoricalImporter.day]
             (RedditHistoricalImporter.reset Scenario.fresh) 0)
    ≤ Z.max 0 (1 - 1 + 5).
Proof.
  apply (importHistoricalData_cap_overshoot Scenario.redditWorld
           (Scenario.xyDay (Some 1)) Scenario.fresh 5).
  - vm_compute. discriminate.
  - intros sub tf posts. cbn.
    destruct (String.eqb sub "x"); [|destruct (String.eqb sub "y")];
      intros [= <-]; vm_compute; discriminate.
Defined.

Lemma importDateRange_requests_witness :
  RedditHistoricalImporter.rangeTimeframe 0 (8 * RedditHistoricalImporter.MS_PER_DAY)
  = RedditHistoricalImporter.week
  ∧ 500 ≤ postCount Scenario.x1.
Proof.
  destruct (importDateRange_requests Scenario.newsWorld
              0 (8 * RedditHistoricalImporter.MS_PER_DAY) None Scenario.fresh)
    as (_ & _ & Hweek & _ & _ & Hfloor).
  split.
  - apply Hweek. vm_compute. split; [reflexivity|discriminate].
  - apply (Hfloor "2024-05-01"
             {| date := "2024-05-01"; events := [Scenario.x1];
                hasViralContent := true; topHashtag := Some "#r/x" |}).
    + vm_compute. reflexivity.
    + refine (bool_decide_unpack _ _). vm_compute. exact I.
Defined.

Lemma importByTopic_stores_search_results_witness : 500 ≤ postCount Scenario.x1.
Proof.
  refine (proj1 (importByTopic_stores_search_results Scenario.newsWorld
                   Scenario.topicSearch ["ai"; "elections"] None Scenario.fresh
                   "2024-05-01"
                   {| date := "2024-05-01"; events := [Scenario.x1];
                      hasViralContent := true; topHashtag := Some "#r/x" |}
                   Scenario.x1 _ _)).
  - vm_compute. reflexivity.
  - refine (bool_decide_unpack _ _). vm_compute. exact I.
Defined.

(** ** The news filter and the durable cache *)

Section FilterAndCache.
Import RedditHistoricalImporter.

Lemma filter_all_true {A} (f : A → bool) (l : list A) :
  Forall (λ x, f x = true) l → List.filter f l = l.
Proof.
  induction 1 as [|x l Hx Hl IH]; [done|]. cbn. by rewrite Hx, IH.
Qed.

Lemma byRankAsc_sorted l :
  StronglySorted (λ a b, MockData.byRankAsc a b ≤ 0) (JS.sort MockData.byRankAsc l).
Proof.
  eapply StronglySorted_weaken;
    [|apply (sort_is_sorted MockData.byRankAsc trendingRank);
      intros a b; unfold MockData.byRankAsc; lia].
  intros a b Hab; cbv beta in *. unfold MockData.byRankAsc. lia.
Qed.

Lemma filterNewsOnly_lookup data d :
  filterNewsOnly data !! d
  = data !! d ≫= λ dayData,
      let newsEvents := List.filter isNews (events dayData) in
      if decide (0 < Z.of_nat (length newsEvents)) then
        Some {| date := date dayData;
                events := JS.sort MockData.byRankAsc newsEvents;
                hasViralContent := hasViralContent dayData;
                topHashtag := topHashtag dayData |}
      else None.
Proof. unfold filterNewsOnly. apply lookup_omap. Qed.

(** X14: [filterNewsOnly] keeps, for each date, the news events of the
    bucket in rank order and nothing else; a date without news events is
    dropped; date, flag and top hashtag of a kept bucket are left as they
    were (the hashtag is not recomputed). *)
Theorem filterNewsOnly_result data :
  (∀ d b', filterNewsOnly data !! d = Some b' →
     ∃ b, data !! d = Some b
          ∧ events b' ≡ₚ List.filter isNews (events b)
          ∧ StronglySorted (λ x y, trendingRank x ≤ trendingRank y) (events b')
          ∧ events b' ≠ []
          ∧ (length (events b') ≤ length (events b))%nat
          ∧ date b' = date b
          ∧ hasViralContent b' = hasViralContent b
          ∧ topHashtag b' = topHashtag b)
  ∧ (∀ d, filterNewsOnly data !! d = None ↔
          ∀ b, data !! d = Some b → List.filter isNews (events b) = []).
Proof.
  split.
  - intros d b' Hb'. rewrite filterNewsOnly_lookup in Hb'.
    destruct (data !! d) as [b|]; [|done]. cbn in Hb'.
    case_decide as Hlen; [|done]. injection Hb' as <-. cbn [events date hasViralContent topHashtag].
    exists b. split; [done|]. split; [apply sort_perm|]. split.
    + apply (sort_is_sorted MockData.byRankAsc trendingRank).
      intros x y. unfold MockData.byRankAsc. lia.
    + split.
      * intros Hnil. apply (f_equal length) in Hnil.
        rewrite sort_length in Hnil. cbn in Hnil. lia.
      * split; [|done]. rewrite sort_length. apply sublist_length, filter_sublist.
  - intros d. rewrite filterNewsOnly_lookup.
    destruct (data !! d) as [b|]; cbn.
    + case_decide as Hlen.
      * split; [done|]. intros H. rewrite (H b eq_refl) in Hlen. cbn in Hlen. lia.
      * split; [|done]. intros _ b0 [= <-].
        destruct (List.filter isNews (events b)); [done|]. cbn in Hlen. lia.
    + split; [|done]. by intros _ b.
Qed.

(** X15: filtering for news twice is filtering once. *)
Theorem filterNewsOnly_idempotent data :
  filterNewsOnly (filterNewsOnly data) = filterNewsOnly data.
Proof.
  apply map_eq. intros d. rewrite (filterNewsOnly_lookup (filterNewsOnly data)).
  rewrite filterNewsOnly_lookup.
  destruct (data !! d) as [b|]; [|done]. cbn.
  case_decide as Hlen; [|done]. cbn.
  set (newsEvents := List.filter isNews (events b)) in *.
  assert (List.filter isNews (JS.sort MockData.byRankAsc newsEvents)
          = JS.sort MockData.byRankAsc newsEvents) as ->.
  { apply filter_all_true. rewrite (sort_perm MockData.byRankAsc newsEvents).
    apply Forall_forall. intros e He%list_elem_of_In. by apply filter_In in He as [_ He]. }
  rewrite sort_length, decide_True by done.
  by rewrite (sort_sorted _ _ (byRankAsc_sorted newsEvents)).
Qed.

(** X16: clearing empties the cache and repairs it: a cleared cache that
    accepts writes gives back exactly what is saved next, whereas a cache
    whose item is not empty and does not parse ignores every save and reads
    as empty.  The empty string is not such an item: it is never parsed, it
    reads as empty, and a save that is accepted replaces it by the saved
    map. *)
Theorem storage_clear_and_garbled data ls :
  loadFromStorage (clearStorage ls) = ∅
  ∧ (writable ls = true →
     loadFromStorage (saveToStorage data (clearStorage ls)) = data)
  ∧ (item ls = Garbled →
     saveToStorage data ls = ls ∧ loadFromStorage (saveToStorage data ls) = ∅)
  ∧ (item ls = EmptyText →
     loadFromStorage ls = ∅
     ∧ (writable ls = true →
        item (saveToStorage data ls) = Stored data
        ∧ loadFromStorage (saveToStorage data ls) = data)).
Proof.
  split; [done|]. split; [|split].
  - intros Hw. unfold saveToStorage, clearStorage, loadFromStorage. cbn.
    rewrite Hw. cbn. apply (right_id_L ∅ (∪)).
  - intros Hg. unfold saveToStorage, loadFromStorage. rewrite Hg.
    split; [done|]. by rewrite Hg.
  - intros He. unfold saveToStorage, loadFromStorage. rewrite He.
    split; [done|]. intros ->. cbn [item]. by rewrite (right_id_L ∅ (∪)).
Qed.


End FilterAndCache.

Lemma filterNewsOnly_result_witness :
  events Scenario.newsOfMixedDay ≠ [] ∧ topHashtag Scenario.newsOfMixedDay = Some "#r/aww".
Proof.
  destruct (proj1 (filterNewsOnly_result {[ "2024-01-01" := Scenario.mixedDay ]})
              "2024-01-01" Scenario.newsOfMixedDay)
    as (b & Hb & _ & _ & Hne & _ & _ & _ & Htop).
  - vm_compute. reflexivity.
  - split; [exact Hne|]. rewrite Htop. vm_compute in Hb. by injection Hb as <-.
Defined.

Lemma storage_clear_and_garbled_witness :
  RedditHistoricalImporter.loadFromStorage
    (RedditHistoricalImporter.saveToStorage {[ "2024-01-01" := Scenario.importedDay ]}
       (RedditHistoricalImporter.clearStorage
          {| RedditHistoricalImporter.item := RedditHistoricalImporter.Garbled;
             RedditHistoricalImporter.writable := true |}))
  = {[ "2024-01-01" := Scenario.importedDay ]}
  ∧ RedditHistoricalImporter.loadFromStorage
      (RedditHistoricalImporter.saveToStorage {[ "2024-01-01" := Scenario.importedDay ]}
         {| RedditHistoricalImporter.item := RedditHistoricalImporter.EmptyText;
            RedditHistoricalImporter.writable := true |})
    = {[ "2024-01-01" := Scenario.importedDay ]}.
Proof.
  split.
  - apply (proj1 (proj2 (storage_clear_and_garbled
                           {[ "2024-01-01" := Scenario.importedDay ]}
                           {| RedditHistoricalImporter.item := RedditHistoricalImporter.Garbled;
                              RedditHistoricalImporter.writable := true |}))).
    reflexivity.
  - apply (proj2 (proj2 (proj2 (storage_clear_and_garbled
                                  {[ "2024-01-01" := Scenario.importedDay ]}
                                  {| RedditHistoricalImporter.item :=
                                       RedditHistoricalImporter.EmptyText;
                                     RedditHistoricalImporter.writable := true |})))).
    + reflexivity.
    + reflexivity.
Defined.

(** ** The Reddit client *)

Section RedditApiFacts.
Import RedditApi.

Lemma string_length_app (s1 s2 : string) :
  String.length (s1 ++ s2)%string = (String.length s1 + String.length s2)%nat.
Proof.
  induction s1 as [|c s1 IH]; [done|].
  change (String c s1 ++ s2)%string with (String c (s1 ++ s2)%string).
  cbn [String.length]. by rewrite IH.
Qed.

Lemma truthy_nonempty o : JS.truthy o = true → default "" o ≠ "".
Proof.
  destruct o as [s|]; cbn; [|done].
  intros H ->. by rewrite String.eqb_refl in H.
Qed.

Lemma transformPost_fields index post :
  (0 < String.length (title (transformPost index post)) ≤ 83)%nat
  ∧ id (transformPost index post) ≠ ""
  ∧ (hashtag (transformPost index post) = None
     ∨ ∃ sub, sub ≠ "" ∧ hashtag (transformPost index post) = Some ("#r/" ++ sub)%string)
  ∧ summary (transformPost index post) ≠ "".
Proof.
  unfold transformPost. cbn [title id hashtag summary].
  set (data := default noData post).
  set (title_ := if JS.truthy (post_title data) then default "" (post_title data)
                 else "Reddit Post").
  assert (title_ ≠ "") as Htitle.
  { subst title_. destruct (JS.truthy (post_title data)) eqn:E; [|done].
    by apply truthy_nonempty. }
  split; [|split; [|split]].
  - case_decide as Hlen.
    + rewrite string_length_app. pose proof (substring0_length 80 title_). cbn. lia.
    + destruct title_; [done|]. cbn in *. lia.
  - destruct (JS.truthy (post_id data)) eqn:E; [by apply truthy_nonempty|].
    by destruct (pretty index).
  - destruct (JS.truthy (subreddit data)) eqn:E; [|by left].
    right. exists (default "" (subreddit data)). split; [|done]. by apply truthy_nonempty.
  - done.
Qed.

(** X18: the client turns a listing into as many events, ranked 1, 2, ...
    in the order of the listing; each has a title of 1 to 83 code units, a
    summary and an id that are not empty, and a hashtag that is either
    missing or [#r/] followed by a subreddit name. *)
Theorem transformPostsToEvents_shape posts :
  length (transformPostsToEvents posts) = length posts
  ∧ trendingRank <$> transformPostsToEvents posts
    = (λ i, Z.of_nat i) <$> seq 1 (length posts)
  ∧ ∀ e, e ∈ transformPostsToEvents posts →
      (0 < String.length (title e) ≤ 83)%nat
      ∧ id e ≠ ""
      ∧ (hashtag e = None
         ∨ ∃ sub, sub ≠ "" ∧ hashtag e = Some ("#r/" ++ sub)%string)
      ∧ summary e ≠ "".
Proof.
  unfold transformPostsToEvents. split; [apply length_imap|]. split.
  - rewrite fmap_imap.
    rewrite (imap_ext _ (λ i _, Z.of_nat (S i))) by (intros; cbn; lia).
    rewrite imap_seq_0, <- fmap_S_seq, <- list_fmap_compose. done.
  - intros e (i & post & -> & _)%elem_of_lookup_imap_1. apply transformPost_fields.
Qed.

Lemma Map_set_keys key v m k :
  k ∈ (Map_set key v m).*1 → k = key ∨ k ∈ m.*1.
Proof.
  induction m as [|[k0 x] m IH]; cbn.
  - intros [->|[]%elem_of_nil]%elem_of_cons. by left.
  - destruct (String.eqb k0 key) eqn:E; cbn.
    + intros H. by right.
    + intros [->|H]%elem_of_cons; [right; by left|].
      destruct (IH H) as [->|?]; [by left|right; by right].
Qed.

Lemma Map_set_inv (Q : ViralEvent → Prop) key v m :
  id v = key → Q v →
  NoDup m.*1 → Forall (λ kv, id kv.2 = kv.1 ∧ Q kv.2) m →
  NoDup (Map_set key v m).*1
  ∧ Forall (λ kv, id kv.2 = kv.1 ∧ Q kv.2) (Map_set key v m).
Proof.
  intros Hid HQ. induction m as [|[k0 x] m IH]; cbn; intros Hnd Hall.
  - split; [apply NoDup_singleton|]. by repeat constructor.
  - apply NoDup_cons in Hnd as [Hk0 Hnd]. apply Forall_cons in Hall as [Hx Hall].
    destruct (String.eqb k0 key) eqn:E; cbn.
    + apply String.eqb_eq in E as ->.
      split; [by apply NoDup_cons|]. constructor; done.
    + apply String.eqb_neq in E. destruct (IH Hnd Hall) as [Hnd' Hall'].
      split; [|by constructor]. apply NoDup_cons. split; [|done].
      intros [->|?]%Map_set_keys; done.
Qed.

Lemma Map_fold_inv (Q : ViralEvent → Prop) posts m :
  Forall Q posts →
  NoDup m.*1 → Forall (λ kv, id kv.2 = kv.1 ∧ Q kv.2) m →
  NoDup (foldl (λ m post, Map_set (id post) post m) m posts).*1
  ∧ Forall (λ kv, id kv.2 = kv.1 ∧ Q kv.2)
      (foldl (λ m post, Map_set (id post) post m) m posts).
Proof.
  revert m. induction posts as [|p posts IH]; intros m HQ Hnd Hall; [done|].
  apply Forall_cons in HQ as [Hp HQ]. cbn [foldl].
  destruct (Map_set_inv Q (id p) p m eq_refl Hp Hnd Hall). by apply IH.
Qed.

Lemma getViralContentForDate_facts r now date_ minScore :
  (length (getViralContentForDate r now date_ minScore) ≤ 25)%nat
  ∧ NoDup (id <$> getViralContentForDate r now date_ minScore)
  ∧ Invariant.scoreDescending (getViralContentForDate r now date_ minScore)
  ∧ (∀ e, e ∈ getViralContentForDate r now date_ minScore →
       default 1000 minScore ≤ postCount e)
  ∧ (top_all r (dateTimeframe now date_) = None →
     getViralContentForDate r now date_ minScore = []).
Proof.
  unfold getViralContentForDate.
  destruct (top_all r (dateTimeframe now date_)) as [children|] eqn:E; cbn;
    [|split; [lia|]; split; [apply NoDup_nil_2|]; split; [constructor|];
      split; [by intros e ?%elem_of_nil|done]].
  set (qualifying := List.filter _ _).
  destruct (Map_fold_inv (λ e, default 1000 minScore ≤ postCount e) qualifying [])
    as [Hnd Hall].
  { apply Forall_forall. intros p [_ Hp]%list_elem_of_In%filter_In.
    by apply bool_decide_eq_true_1 in Hp. }
  { constructor. }
  { constructor. }
  set (m := foldl _ [] qualifying) in *.
  split; [|split; [|split; [|split]]].
  - pose proof (slice0_length 25 (JS.sort NewsAggregator.byScoreDesc m.*2) ltac:(done)). lia.
  - apply top_NoDup.
    assert (id <$> m.*2 = m.*1) as ->; [|done].
    clear -Hall. induction Hall as [|[k x] m' [Hid _] _ IH]; [done|].
    cbn in *. by rewrite Hid, IH.
  - apply top_descending.
  - intros e He%top_elem_of. apply list_elem_of_fmap in He as ([k x] & -> & Hin).
    rewrite Forall_forall in Hall. by destruct (Hall _ Hin).
  - done.
Qed.

(** X19: [getViralContentForDate] answers at most 25 events, no two with
    the same id, each reaching the threshold, in descending score order;
    and no event at all when the popular listing fails. *)
Theorem getViralContentForDate_result r now date_ minScore :
  (length (getViralContentForDate r now date_ minScore) ≤ 25)%nat
  ∧ NoDup (id <$> getViralContentForDate r now date_ minScore)
  ∧ Invariant.scoreDescending (getViralContentForDate r now date_ minScore)
  ∧ (∀ e, e ∈ getViralContentForDate r now date_ minScore →
       default 1000 minScore ≤ postCount e)
  ∧ (top_all r (dateTimeframe now date_) = None →
     getViralContentForDate r now date_ minScore = []).
Proof. apply getViralContentForDate_facts. Qed.

End RedditApiFacts.

Lemma transformPostsToEvents_shape_witness :
  (0 < String.length (title (RedditApi.transformPost 0 (Some Scenario.rawPost))) ≤ 83)%nat.
Proof.
  apply (proj2 (proj2 (transformPostsToEvents_shape [Some Scenario.rawPost]))).
  vm_compute. left.
Defined.

Lemma getViralContentForDate_result_witness :
  RedditApi.getViralContentForDate
    {| RedditApi.top_all := λ _, None;
       RedditApi.top_sub := λ _ _, Some (Some [Some Scenario.rawPost]) |}
    0 0 None = [].
Proof.
  apply (proj2 (proj2 (proj2 (proj2
           (getViralContentForDate_result
              {| RedditApi.top_all := λ _, None;
                 RedditApi.top_sub := λ _ _, Some (Some [Some Scenario.rawPost]) |}
              0 0 None))))).
  reflexivity.
Defined.

(** ** The date-range reader and the Hacker News client *)

Section ReaderFacts.
Import Supabase.

Lemma groupRows_lookup index rows grouped d :
  groupRows index rows grouped !! d
  = match rankedOn d index rows with
    | [] => grouped !! d
    | evs =>
        let b := default (emptyDay d) (grouped !! d) in
        Some {| date := date b; events := events b ++ evs;
                hasViralContent := true; topHashtag := topHashtag b |}
    end.
Proof.
  revert index grouped. induction rows as [|row rows IH]; intros index grouped; [done|].
  cbn [groupRows rankedOn]. rewrite IH. clear IH.
  set (d0 := published_date row).
  set (grouped0 := match grouped !! d0 with
                   | Some _ => grouped
                   | None => <[d0 := emptyDay d0]> grouped
                   end).
  assert (default (emptyDay d0) (grouped0 !! d0) = default (emptyDay d0) (grouped !! d0))
    as Hcur.
  { subst grouped0. destruct (grouped !! d0) as [b|] eqn:E; [by rewrite E|].
    by rewrite lookup_insert_eq. }
  assert (∀ d', d' ≠ d0 → grouped0 !! d' = grouped !! d') as Hother.
  { intros d' Hd'. subst grouped0. destruct (grouped !! d0); [done|].
    by rewrite lookup_insert_ne. }
  rewrite Hcur. case_decide as Hd.
  - subst d. rewrite lookup_insert_eq. cbn [default from_option date events topHashtag].
    destruct (rankedOn d0 (S index) rows) as [|ev evs]; [done|].
    cbv zeta. unfold Datatypes.id. cbn [date events topHashtag].
    by rewrite <- app_assoc.
  - rewrite lookup_insert_ne by done. rewrite Hother by done. done.
Qed.

(** X20: the date-range reader fails when the query does; otherwise its
    map has a bucket exactly for the dates that have rows, and the bucket of
    a date holds the rows of that date in the order of the answer, each
    ranked by its position in the whole answer, flagged, without top
    hashtag. *)
Theorem getByDateRange_groups resp :
  (is_Some (error resp) → viralEventsApi.getByDateRange resp = None)
  ∧ (error resp = None →
     ∃ m, viralEventsApi.getByDateRange resp = Some m
          ∧ ∀ d, m !! d
                 = match rankedOn d 0 (default [] (data resp)) with
                   | [] => None
                   | evs => Some {| date := d; events := evs;
                                    hasViralContent := true; topHashtag := None |}
                   end).
Proof.
  unfold viralEventsApi.getByDateRange. split.
  - by intros [x ->].
  - intros ->. eexists. split; [done|]. intros d. rewrite groupRows_lookup.
    rewrite lookup_empty. by destruct (rankedOn d 0 (default [] (data resp))).
Qed.

End ReaderFacts.

Lemma getByDateRange_groups_witness :
  ∃ m, Supabase.viralEventsApi.getByDateRange
         {| Supabase.data := Some Scenario.rows; Supabase.error := None |} = Some m
       ∧ m !! "2024-01-02"
         = Some {| date := "2024-01-02"; events := [with_trendingRank Scenario.y1 2];
                   hasViralContent := true; topHashtag := None |}.
Proof.
  destruct (proj2 (getByDateRange_groups
                     {| Supabase.data := Some Scenario.rows; Supabase.error := None |})
              eq_refl) as (m & Hm & Hlookup).
  exists m. split; [exact Hm|]. rewrite Hlookup. reflexivity.
Defined.

Section HackerNewsFacts.
Import HackerNews.

Lemma omap_length_le {A B} (f : A → option B) (l : list A) :
  (length (omap f l) ≤ length l)%nat.
Proof. induction l as [|x l IH]; cbn; [done|]. destruct (f x); cbn; lia. Qed.

Lemma transformStory_type index s :
  type (transformStory index s) = news ∨ type (transformStory index s) = trend.
Proof.
  unfold transformStory. cbn [type].
  destruct (_ || _); [by left|]. destruct (_ || _); [by right|by left].
Qed.

(** X21: when the id request succeeds, [getTopStories] answers at most
    [limit] events (for a [limit] that is not negative), ranked 1, 2, ...;
    each comes from an item that was requested, was fetched and is a story,
    carries the score plus twice the comment count, the hashtag
    [#HackerNews], and the type news or trend. *)
Theorem getTopStories_result ids getItem limit res :
  getTopStories ids getItem limit = Some res →
  (0 ≤ default 30 limit → Z.of_nat (length res) ≤ default 30 limit)
  ∧ trendingRank <$> res = (λ i, Z.of_nat i) <$> seq 1 (length res)
  ∧ ∀ e, e ∈ res →
      hashtag e = Some "#HackerNews"
      ∧ (type e = news ∨ type e = trend)
      ∧ ∃ body i item,
          ids = Some (Some body) ∧ i ∈ body ∧ getItem i = Some item
          ∧ item_type item = story
          ∧ id e = ("hn-" ++ pretty (item_id item))%string
          ∧ postCount e = default 0 (score item) + default 0 (descendants item) * 2.
Proof.
  unfold getTopStories. destruct ids as [body|]; [|done]. intros [= <-].
  unfold transformStoriesToEvents.
  set (storyIds := default [] (JS.slice0 (default 30 limit) <$> body)).
  set (valid := omap _ (getItem <$> storyIds)).
  split; [|split].
  - intros Hlim. rewrite length_imap, sort_length.
    pose proof (omap_length_le
                  (λ s : option HNItem,
                     match s with
                     | Some item => if decide (item_type item = story) then Some item else None
                     | None => None
                     end) (getItem <$> storyIds)) as Hle.
    fold valid in Hle. rewrite length_fmap in Hle.
    assert (Z.of_nat (length storyIds) ≤ default 30 limit); [|lia].
    subst storyIds. destruct body as [l|]; cbn; [by apply slice0_length|lia].
  - rewrite length_imap, fmap_imap.
    rewrite (imap_ext _ (λ i _, Z.of_nat (S i))) by (intros; cbn; lia).
    rewrite imap_seq_0, <- fmap_S_seq, <- list_fmap_compose. done.
  - intros e (i & item & -> & Hi)%elem_of_lookup_imap_1.
    split; [done|]. split; [apply transformStory_type|].
    apply list_elem_of_lookup_2 in Hi. rewrite sort_perm in Hi.
    apply list_elem_of_omap in Hi as (s & Hs & Hf).
    destruct s as [item'|]; [|done]. case_decide as Hty; [|done].
    injection Hf as ->.
    apply list_elem_of_fmap in Hs as (i0 & Hget & Hi0).
    subst storyIds. destruct body as [l|]; [|by apply elem_of_nil in Hi0].
    cbn in Hi0. eapply elem_of_sublist in Hi0; [|apply slice0_sublist].
    exists l, i0, item. done.
Qed.

End HackerNewsFacts.

Lemma getTopStories_result_witness :
  Z.of_nat (length [HackerNews.transformStory 0 Scenario.hnStory]) ≤ 2.
Proof.
  apply (proj1 (getTopStories_result (Some (Some [42; 43; 44])) Scenario.hnItems (Some 2)
                  [HackerNews.transformStory 0 Scenario.hnStory]
                  ltac:(vm_compute; reflexivity))).
  vm_compute. discriminate.
Defined.

(** ** The hooks *)

Section HookFacts.

Lemma bucket_descending day (l : list ViralEvent) :
  Invariant.scoreDescending l →
  Invariant.scoreDescending (events (NewsAggregator.bucket day l)).
Proof.
  unfold Invariant.scoreDescending. intros Hs.
  apply (StronglySorted_fmap postCount _ (λ x y : Z, y ≤ x)) in Hs; [|done].
  rewrite <- bucket_scores with (day := day) in Hs.
  revert Hs. generalize (events (NewsAggregator.bucket day l)).
  intros l'. induction l' as [|x l' IH]; intros Hs; [constructor|].
  rewrite fmap_cons in Hs. apply StronglySorted_inv in Hs as [Hs Hx].
  constructor; [by apply IH|]. by rewrite Forall_fmap in Hx.
Qed.

(** X22: when the remote store is configured and answers, the hook starts
    from its summaries, and for every summarised date the synchronous
    readers show the placeholder: flagged, but of low intensity whatever the
    engagement of the day was; otherwise the hook starts from the local
    cache. *)
Theorem loadInitialData_summaries mockTable resp ls s :
  (∀ m d b,
     Supabase.dailySummariesApi.getAll resp = Some m → m !! d = Some b →
     useSupabaseData.source (useSupabaseData.loadInitialData true resp ls s)
     = useSupabaseData.supabase
     ∧ useSupabaseData.getDayDataSync mockTable
         (useSupabaseData.loadInitialData true resp ls s) d = Some b
     ∧ useSupabaseData.hasViralContent mockTable
         (useSupabaseData.loadInitialData true resp ls s) d = true
     ∧ useSupabaseData.getViralIntensity mockTable
         (useSupabaseData.loadInitialData true resp ls s) d = low)
  ∧ (∀ configured,
       configured = false ∨ Supabase.dailySummariesApi.getAll resp = None →
       useSupabaseData.source (useSupabaseData.loadInitialData configured resp ls s)
       = useSupabaseData.local
       ∧ useSupabaseData.historicalData
           (useSupabaseData.loadInitialData configured resp ls s)
         = RedditHistoricalImporter.loadFromStorage ls).
Proof.
  split.
  - intros m d b Hm Hb.
    destruct (getAll_placeholders resp m Hm d b Hb) as [Hev Hflag].
    unfold useSupabaseData.loadInitialData. rewrite Hm.
    unfold useSupabaseData.hasViralContent, useSupabaseData.getViralIntensity,
      useSupabaseData.getDayDataSync, or_else.
    cbn [useSupabaseData.source useSupabaseData.historicalData useSupabaseData.localData].
    rewrite Hb, Hflag, Hev. done.
  - intros configured [-> | Hnone]; [done|].
    unfold useSupabaseData.loadInitialData. rewrite Hnone. by destruct configured.
Qed.

(** X23: in both hooks a date has intensity none exactly when it is
    reported as having no viral content. *)
Theorem intensity_none_iff_no_content mock dateStr :
  (∀ s, useRedditData.getViralIntensity mock s dateStr = none
        ↔ useRedditData.hasViralContent mock s dateStr = false)
  ∧ (∀ s, useSupabaseData.getViralIntensity mock s dateStr = none
          ↔ useSupabaseData.hasViralContent mock s dateStr = false).
Proof.
  split; intros s.
  - unfold useRedditData.getViralIntensity, useRedditData.hasViralContent.
    destruct (useRedditData.getDayData mock s dateStr) as [data|]; [|done].
    destruct (hasViralContent data); cbn; [|done].
    repeat case_decide; done.
  - unfold useSupabaseData.getViralIntensity, useSupabaseData.hasViralContent.
    destruct (useSupabaseData.getDayDataSync mock s dateStr) as [data|]; [|done].
    destruct (hasViralContent data); cbn; [|done].
    repeat case_decide; done.
Qed.


End HookFacts.

Section HookLive.

(** X25: a live fetch of [useSupabaseData] that finds events answers a
    bucket ranked 1..N by descending score, flagged, with the hashtag of its
    first event, and files it in the local data under its date; the
    synchronous reader then shows it for that date only if the historical
    data has no entry there, and shows what it showed before for every other
    date. *)
Theorem fetchLiveData_visibility mockTable up dateStr s b s' :
  useSupabaseData.fetchLiveData up dateStr s = (Some b, s') →
  date b = dateStr
  ∧ Invariant.ranksContiguous b
  ∧ Invariant.scoreDescending (events b)
  ∧ Invariant.flagMatchesEvents b
  ∧ Invariant.topHashtagOfTopEvent b
  ∧ useSupabaseData.localData s' !! dateStr = Some b
  ∧ (useSupabaseData.historicalData s !! dateStr = None →
     useSupabaseData.getDayDataSync mockTable s' dateStr = Some b)
  ∧ (∀ h, useSupabaseData.historicalData s !! dateStr = Some h →
          useSupabaseData.getDayDataSync mockTable s' dateStr = Some h)
  ∧ (∀ d, d ≠ dateStr →
          useSupabaseData.getDayDataSync mockTable s' d
          = useSupabaseData.getDayDataSync mockTable s d).
Proof.
  unfold useSupabaseData.fetchLiveData.
  set (events0 := match NewsAggregator.getTopStories up with
                  | Some hnStories => _ ++ hnStories
                  | None => _
                  end).
  case_decide as Hlen; [done|]. intros [= <- <-].
  set (sorted := JS.sort NewsAggregator.byScoreDesc events0).
  assert ({| date := dateStr;
             events := imap (λ i e, with_trendingRank e (Z.of_nat i + 1)) sorted;
             hasViralContent := bool_decide (0 < Z.of_nat (length events0));
             topHashtag := head sorted ≫= hashtag |}
          = NewsAggregator.bucket dateStr sorted) as ->.
  { unfold NewsAggregator.bucket. subst sorted. by rewrite sort_length. }
  split; [done|]. split; [apply bucket_ranks|]. split.
  { apply bucket_descending. unfold Invariant.scoreDescending, sorted.
    eapply StronglySorted_weaken;
      [|apply (sort_is_sorted NewsAggregator.byScoreDesc (λ e, - postCount e));
        intros x y; unfold NewsAggregator.byScoreDesc; lia].
    intros x y Hxy; cbv beta in *; lia. }
  split; [apply bucket_flag|]. split; [apply bucket_topHashtag|].
  unfold useSupabaseData.getDayDataSync, or_else.
  cbn [useSupabaseData.localData useSupabaseData.historicalData].
  split; [by rewrite lookup_insert_eq|]. split; [|split].
  - intros ->. by rewrite lookup_insert_eq.
  - by intros h ->.
  - intros d Hd. by rewrite lookup_insert_ne.
Qed.

(** X26: in [useRedditData] a live fetch in mock mode answers nothing and
    leaves the state alone; otherwise a fetch that finds events answers a
    flagged bucket of at most 25 events, each with at least 500 points and
    no two with the same id, ordered by the ranks the client gave, and the
    reader shows this bucket for its date from then on. *)
Theorem fetchLiveDataForDate_shown mock r now date_ dateStr s :
  useRedditData.fetchLiveDataForDate true r now date_ dateStr s = (None, s)
  ∧ ∀ b s',
      useRedditData.fetchLiveDataForDate false r now date_ dateStr s = (Some b, s') →
      date b = dateStr
      ∧ (0 < length (events b) ≤ 25)%nat
      ∧ NoDup (id <$> events b)
      ∧ (∀ e, e ∈ events b → 500 ≤ postCount e)
      ∧ StronglySorted (λ x y, trendingRank x ≤ trendingRank y) (events b)
      ∧ Invariant.flagMatchesEvents b
      ∧ Invariant.topHashtagOfTopEvent b
      ∧ useRedditData.getDayData mock s' dateStr = Some b.
Proof.
  split; [done|]. intros b s'. unfold useRedditData.fetchLiveDataForDate.
  destruct (getViralContentForDate_facts r now date_ (Some 500))
    as (Hlen & Hnd & _ & Hscore & _).
  set (evs := RedditApi.getViralContentForDate r now date_ (Some 500)) in *.
  case_decide as Hempty; [done|]. intros [= <- <-].
  change {| date := dateStr;
            events := JS.sort MockData.byRankAsc evs;
            hasViralContent := bool_decide (0 < Z.of_nat (length evs));
            topHashtag := head (JS.sort MockData.byRankAsc evs) ≫= hashtag |}
    with (MockData.createDayData dateStr evs).
  split; [done|]. unfold MockData.createDayData at 1 2 3 4. cbn [events].
  split; [rewrite sort_length; lia|].
  split; [by rewrite (sort_perm MockData.byRankAsc evs)|].
  split; [intros e He; apply Hscore; by rewrite (sort_perm MockData.byRankAsc evs) in He|].
  split.
  { apply (sort_is_sorted MockData.byRankAsc trendingRank).
    intros x y. unfold MockData.byRankAsc. lia. }
  split; [apply createDayData_flag|]. split; [apply createDayData_topHashtag|].
  unfold useRedditData.getDayData. cbn [useRedditData.liveData].
  by rewrite lookup_insert_eq.
Qed.

End HookLive.

Lemma loadInitialData_summaries_witness :
  useSupabaseData.getViralIntensity Scenario.mockTable
    (useSupabaseData.loadInitialData true Scenario.summaryResponse Scenario.emptyCache
       Scenario.supabaseEmpty) "2024-01-01" = low.
Proof.
  apply (proj1 (loadInitialData_summaries Scenario.mockTable Scenario.summaryResponse
                  Scenario.emptyCache Scenario.supabaseEmpty)
           {[ "2024-01-01" := Scenario.placeholder ]} "2024-01-01" Scenario.placeholder).
  - vm_compute. reflexivity.
  - vm_compute. reflexivity.
Defined.

Lemma intensity_none_iff_no_content_witness :
  useRedditData.hasViralContent Scenario.mockTable Scenario.redditCached "2024-02-02"
  = false.
Proof.
  apply (proj1 (intensity_none_iff_no_content Scenario.mockTable "2024-02-02")
           Scenario.redditCached).
  vm_compute. reflexivity.
Defined.


Lemma fetchLiveData_visibility_witness :
  useSupabaseData.getDayDataSync Scenario.mockTable
    (useSupabaseData.fetchLiveData Scenario.twoSources "2024-03-01"
       Scenario.supabaseCached).2 "2024-03-01"
  = Some Scenario.cachedDay.
Proof.
  destruct (fetchLiveData_visibility Scenario.mockTable Scenario.twoSources "2024-03-01"
              Scenario.supabaseCached Scenario.liveDay
              (useSupabaseData.fetchLiveData Scenario.twoSources "2024-03-01"
                 Scenario.supabaseCached).2)
    as (_ & _ & _ & _ & _ & _ & _ & Hshadow & _).
  - vm_compute. reflexivity.
  - apply Hshadow. vm_compute. reflexivity.
Defined.

Lemma fetchLiveDataForDate_shown_witness :
  useRedditData.getDayData Scenario.mockTable
    (useRedditData.fetchLiveDataForDate false Scenario.oneListing 0 0 "2024-05-01"
       Scenario.redditCached).2 "2024-05-01"
  = Some Scenario.liveBucket.
Proof.
  apply (proj2 (fetchLiveDataForDate_shown Scenario.mockTable Scenario.oneListing 0 0
                  "2024-05-01" Scenario.redditCached) Scenario.liveBucket).
  vm_compute. reflexivity.
Defined.
